(** * Seller inventory discovery: the two scrapers, embedded and verified

    The development follows [amazon_scraper.py] (module [Basic]) and
    [enhanced_amazon_scraper.py] (module [Enhanced]), function by function.

    - Python text is a [string], one [ascii] per character (code points
      below 256).
    - Python values that travel through JSON are [pyval]; a dict keeps its
      insertion order, so it is an association list.
    - The network, the clock and the cache directory form a [World] that
      every effectful function threads explicitly.  The network is an
      oracle: the outcome of every HTTP exchange is read from the world, and
      every call of the fetcher is appended to a log with what it returned.
      The clock is a stream of readings in whole seconds; sleeps, random
      delays and header rotation only pass time and are not written out.
      A file can be written only where the world allows it: opening a path
      whose directories are missing, or whose name the file system refuses,
      fails.
    - A JSON number is an [int]; a time stamp is a whole number of seconds.
      Where Python turns such a number into a float or a [timedelta], the
      overflow of that conversion is written out.
    - Exceptions are the [Raise] outcome of the monad [M]; [try_except]
      is Python's [try: .. except Exception: ..].
    - BeautifulSoup, [json], [datetime] and [str.upper] are library code:
      they are the fields of the class [Platform], and every theorem holds
      for any instance of it. *)

From Stdlib Require Import List String Ascii ZArith NArith Bool Lia DecimalString DecimalZ.
Import ListNotations.
Open Scope string_scope.
Open Scope Z_scope.

(** ** Text primitives (Python [str] methods used by the scrapers) *)

(** [str.isspace] on one character: TAB..CR, FS..US, space, NEL, NBSP. *)
Definition is_space (c : ascii) : bool :=
  let n := N_of_ascii c in
  (((9 <=? n) && (n <=? 13)) || ((28 <=? n) && (n <=? 32)) || (n =? 133) || (n =? 160))%N.

Fixpoint lstrip (s : string) : string :=
  match s with
  | EmptyString => EmptyString
  | String c s' => if is_space c then lstrip s' else s
  end.

Fixpoint rstrip (s : string) : string :=
  match s with
  | EmptyString => EmptyString
  | String c s' =>
      match rstrip s' with
      | EmptyString => if is_space c then EmptyString else String c EmptyString
      | r => String c r
      end
  end.

(** [s.strip()] *)
Definition strip (s : string) : string := rstrip (lstrip s).

(** Truth value of a [str]: non-empty. *)
Definition nonempty (s : string) : bool :=
  match s with EmptyString => false | String _ _ => true end.

(** [needle in hay] for two [str]. *)
Fixpoint contains (needle hay : string) : bool :=
  prefix needle hay
  || match hay with
     | EmptyString => false
     | String _ h => contains needle h
     end.

Fixpoint ends_with_slash (s : string) : bool :=
  match s with
  | EmptyString => false
  | String c EmptyString => Ascii.eqb c "/"%char
  | String _ s' => ends_with_slash s'
  end.

(** [os.path.join a b] on a POSIX host. *)
Definition path_join (a b : string) : string :=
  if prefix "/" b then b
  else if negb (nonempty a) || ends_with_slash a then a ++ b
  else a ++ "/" ++ b.

(** Decimal rendering of an [int], as [str(n)] and [{n}] in an f-string. *)
Definition str_of_int (z : Z) : string := NilEmpty.string_of_int (Z.to_int z).

(** Text before the first occurrence of the character [sep]
    ([s.split(sep)[0]]). *)
Fixpoint before_sep (sep : ascii) (s : string) : string :=
  match s with
  | EmptyString => EmptyString
  | String c s' => if Ascii.eqb c sep then EmptyString else String c (before_sep sep s')
  end.

(** Text after the first occurrence of [sep] ([s.split(sep, 1)[1]]), when
    there is one. *)
Fixpoint after_sep (sep : ascii) (s : string) : option string :=
  match s with
  | EmptyString => None
  | String c s' => if Ascii.eqb c sep then Some s' else after_sep sep s'
  end.

Definition has_char (sep : ascii) (s : string) : bool :=
  match after_sep sep s with Some _ => true | None => false end.

(** [c.lower()] for one character: A to Z, and the capital letters of
    Latin-1 (192 to 222 but for the multiplication sign). *)
Definition lower_char (c : ascii) : ascii :=
  let n := N_of_ascii c in
  if (((65 <=? n) && (n <=? 90)) || ((192 <=? n) && (n <=? 222) && negb (n =? 215)))%N
  then ascii_of_N (n + 32)
  else c.

(** [s.lower()] *)
Fixpoint lower (s : string) : string :=
  match s with
  | EmptyString => EmptyString
  | String c s' => String (lower_char c) (lower s')
  end.

(** The double-quote character, as a one-character text. *)
Definition dq : string := String (ascii_of_nat 34) EmptyString.

Fixpoint drop (n : nat) (s : string) : string :=
  match n, s with
  | O, _ => s
  | S n', String _ s' => drop n' s'
  | S _, EmptyString => EmptyString
  end.

(** ** Python values *)

#[warnings="-register-all"]
Inductive pyval : Type :=
| PNone
| PBool (b : bool)
| PInt (z : Z)
| PStr (s : string)
| PList (l : list pyval)
| PDict (d : list (string * pyval)).

(** [bool(v)] *)
Definition truthy (v : pyval) : bool :=
  match v with
  | PNone => false
  | PBool b => b
  | PInt z => negb (z =? 0)
  | PStr s => nonempty s
  | PList l => match l with [] => false | _ => true end
  | PDict d => match d with [] => false | _ => true end
  end.

(** Lookup in a dict with [str] keys; insertion order is the list order. *)
Fixpoint assoc {A : Type} (k : string) (d : list (string * A)) : option A :=
  match d with
  | [] => None
  | (k', v) :: d' => if String.eqb k k' then Some v else assoc k d'
  end.

(** [d[k] = v]: replaces in place, or appends a new key. *)
Fixpoint dict_set {A : Type} (k : string) (v : A) (d : list (string * A)) : list (string * A) :=
  match d with
  | [] => [(k, v)]
  | (k', v') :: d' => if String.eqb k k' then (k, v) :: d' else (k', v') :: dict_set k v d'
  end.

(** Numeric value of an [int] or a [bool]. *)
Definition as_number (v : pyval) : option Z :=
  match v with
  | PInt z => Some z
  | PBool b => Some (if b then 1 else 0)
  | _ => None
  end.

(** An [int] that [float(n)] accepts: one that rounds to a finite double.
    The largest double is 2^1024 - 2^971, and the integers from
    2^1024 - 2^970 on round to 2^1024, an [OverflowError]. *)
Definition fits_float (z : Z) : bool :=
  Z.abs z <? Z.shiftl 1 1024 - Z.shiftl 1 970.

(** Values usable as dict keys. *)
Definition hashable (v : pyval) : bool :=
  match v with
  | PList _ | PDict _ => false
  | _ => true
  end.

(** Key equality of a Python dict on hashable values ([True == 1]). *)
Definition key_eqb (a b : pyval) : bool :=
  match a, b with
  | PNone, PNone => true
  | PStr s, PStr t => String.eqb s t
  | PBool x, PBool y => Bool.eqb x y
  | PInt x, PInt y => x =? y
  | PBool x, PInt y => (if x then 1 else 0) =? y
  | PInt x, PBool y => x =? (if y then 1 else 0)
  | _, _ => false
  end.

(** ** Parsed markup (the part of the BeautifulSoup interface in use) *)

#[warnings="-register-all"]
Inductive Tag : Type := mkTag {
  tag_attrs : list (string * string);   (* single-valued attributes, [tag.get] *)
  tag_class : list string;              (* the multi-valued [class] attribute *)
  tag_text : string;                    (* [tag.text] *)
  tag_parent : option Tag;              (* [tag.parent] *)
  tag_select : string -> list Tag       (* [tag.select(css)] in document order *)
}.

(** [tag.select_one(css)] *)
Definition select_one (t : Tag) (css : string) : option Tag := hd_error (tag_select t css).

(** A successful (status 200) HTTP response. *)
Record Response : Type := mkResponse {
  r_text : string;      (* [response.text] *)
  r_content : string    (* [response.content] *)
}.

(** Result of [datetime.fromisoformat]: a [ValueError], an offset-aware
    value, or a naive local time in seconds. *)
Inductive iso_result : Type :=
| IsoInvalid
| IsoAware
| IsoNaive (t : Z).

(** Library functions the scrapers call; they are pure and stay abstract. *)
Class Platform : Type := {
  BeautifulSoup : string -> Tag;             (* [BeautifulSoup(markup, 'html.parser')] *)
  json_loads : string -> option pyval;       (* [json.load]/[json.loads]; [None]: decode error *)
  json_dumps : pyval -> string;              (* [json.dump] *)
  json_dumps_indent : pyval -> string;       (* [json.dump(.., ensure_ascii=False, indent=2)] *)
  fromisoformat : string -> iso_result;      (* [datetime.fromisoformat] *)
  isoformat : Z -> string;                   (* [datetime.isoformat] *)
  str_upper : string -> string;              (* [str.upper] *)
  container_repr : pyval -> string;          (* [str(v)] for a list or dict *)
  enhanced_cache_dir : string;               (* [CACHE_DIR] of enhanced_amazon_scraper *)
  basic_cache_dir : string                   (* [CACHE_DIR] of amazon_scraper *)
}.

(** [f"{v}"] *)
Definition py_format `{Platform} (v : pyval) : string :=
  match v with
  | PNone => "None"
  | PBool true => "True"
  | PBool false => "False"
  | PInt z => str_of_int z
  | PStr s => s
  | PList _ | PDict _ => container_repr v
  end.

(** ** The world: network, clock, cache files *)

(** What one HTTP GET comes to: a response with its status code, or a
    transport failure (timeout, connection reset). *)
Inductive HttpOutcome : Type :=
| HttpStatus (status_code : Z) (response : Response)
| HttpError.

Inductive Event : Type :=
| EvRequest (url : string) (r : option Response)     (* one [make_request] call *)
| EvDownload (url : string) (r : option string).     (* one [trafilatura.fetch_url] call *)

Record World : Type := mkWorld {
  w_http : nat -> string -> nat -> HttpOutcome;
                                              (* n-th network call, if it is a request: outcome of
                                                 each attempt at the URL *)
  w_download : nat -> string -> option string;(* outcome of the n-th network call, if it is a download *)
  w_clock : nat -> Z;                         (* successive clock readings, in seconds *)
  w_ticks : nat;                              (* clock readings taken so far *)
  w_files : string -> option string;          (* cache directory: path to file content *)
  w_log : list Event;                         (* network calls so far, oldest first *)
  w_writable : string -> bool                 (* [open(path, 'w')] succeeds: the directories of
                                                 the path exist, the name is acceptable *)
}.

(** ** Exceptions and the effect monad *)

Inductive exn : Type :=
| TypeError
| AttributeError
| ValueError
| KeyError
| JSONDecodeError
| FileNotFoundError
| ConnectionError
| OSError
| OverflowError.

Inductive outcome (A : Type) : Type :=
| Ret (a : A)
| Raise (e : exn).
Arguments Ret {A} a.
Arguments Raise {A} e.

Definition M (A : Type) : Type := World -> outcome A * World.

Definition ret {A : Type} (a : A) : M A := fun w => (Ret a, w).

Definition raise {A : Type} (e : exn) : M A := fun w => (Raise e, w).

Definition bind {A B : Type} (m : M A) (k : A -> M B) : M B :=
  fun w =>
    match m w with
    | (Ret a, w') => k a w'
    | (Raise e, w') => (Raise e, w')
    end.

(** [try: m  except Exception: h] *)
Definition try_except {A : Type} (m : M A) (h : exn -> M A) : M A :=
  fun w =>
    match m w with
    | (Ret a, w') => (Ret a, w')
    | (Raise e, w') => h e w'
    end.

Notation "x <- c1 ;; c2" := (bind c1 (fun x => c2))
  (at level 61, c1 at next level, right associativity).
Notation "' pat <- c1 ;; c2" := (bind c1 (fun x => match x with pat => c2 end))
  (at level 61, pat pattern, c1 at next level, right associativity).

(** Appends one network call to the log. *)
Definition record_event (ev : Event) (w : World) : World :=
  mkWorld (w_http w) (w_download w) (w_clock w) (w_ticks w) (w_files w) (w_log w ++ [ev])
          (w_writable w).

(** [session.get(url, ..)] at the given attempt of the current call. *)
Definition session_get (url : string) (attempt : nat) : M HttpOutcome :=
  fun w => (Ret (w_http w (List.length (w_log w)) url attempt), w).

(** Enters a finished call of the fetcher, with what it returns, into the
    log. *)
Definition log_request (url : string) (r : option Response) : M unit :=
  fun w => (Ret tt, record_event (EvRequest url r) w).

(** [trafilatura.fetch_url]; a failure inside it shows as [None]. *)
Definition fetch_url (url : string) : M (option string) :=
  fun w =>
    let r := w_download w (List.length (w_log w)) url in
    (Ret r, record_event (EvDownload url r) w).

(** [time.time()] / [datetime.now()] *)
Definition clock_now : M Z :=
  fun w =>
    (Ret (w_clock w (w_ticks w)),
     mkWorld (w_http w) (w_download w) (w_clock w) (S (w_ticks w)) (w_files w) (w_log w)
             (w_writable w)).

(** [os.path.exists] *)
Definition path_exists (path : string) : M bool :=
  fun w => (Ret (match w_files w path with Some _ => true | None => false end), w).

(** [open(path).read()] *)
Definition read_file (path : string) : M string :=
  fun w =>
    match w_files w path with
    | Some content => (Ret content, w)
    | None => (Raise FileNotFoundError, w)
    end.

(** [with open(path, 'w') as f: f.write(content)]; when the file cannot be
    opened the [OSError] leaves the directory as it was. *)
Definition write_file (path content : string) : M unit :=
  fun w =>
    if w_writable w path then
      (Ret tt, mkWorld (w_http w) (w_download w) (w_clock w) (w_ticks w)
                       (fun p => if String.eqb p path then Some content else w_files w p)
                       (w_log w) (w_writable w))
    else (Raise OSError, w).

(** [len(v)] *)
Definition py_len (v : pyval) : M Z :=
  match v with
  | PStr s => ret (Z.of_nat (String.length s))
  | PList l => ret (Z.of_nat (List.length l))
  | PDict d => ret (Z.of_nat (List.length d))
  | _ => raise TypeError
  end.

(** [v.get(k, default)] *)
Definition py_get (v : pyval) (k : string) (default : pyval) : M pyval :=
  match v with
  | PDict d => ret (match assoc k d with Some x => x | None => default end)
  | _ => raise AttributeError
  end.

(** [k in v] for a [str] key [k] *)
Definition py_in (k : string) (v : pyval) : M bool :=
  match v with
  | PDict d => ret (match assoc k d with Some _ => true | None => false end)
  | PList l => ret (existsb (key_eqb (PStr k)) l)
  | PStr s => ret (contains k s)
  | _ => raise TypeError
  end.

(** [v[k]] for a [str] key [k] *)
Definition py_getitem (v : pyval) (k : string) : M pyval :=
  match v with
  | PDict d => match assoc k d with Some x => ret x | None => raise KeyError end
  | _ => raise TypeError
  end.

(** [range(lo, hi)] *)
Definition py_range (lo hi : Z) : list Z :=
  map (fun i => lo + Z.of_nat i) (seq 0 (Z.to_nat (hi - lo))).

(** First selector of the list with a non-empty [select] result, and that
    result; nothing when every selector comes back empty. *)
Fixpoint first_matches (soup : Tag) (selectors : list string) : list Tag :=
  match selectors with
  | [] => []
  | selector :: rest =>
      match tag_select soup selector with
      | [] => first_matches soup rest
      | elements => elements
      end
  end.

(** Stripped text of the first selector whose element has non-blank text. *)
Fixpoint first_text (element : Tag) (selectors : list string) : option string :=
  match selectors with
  | [] => None
  | selector :: rest =>
      match select_one element selector with
      | Some e => if nonempty (strip (tag_text e)) then Some (strip (tag_text e))
                  else first_text element rest
      | None => first_text element rest
      end
  end.

(** [x or default] on an optional [str] *)
Definition or_default (x : option string) (default : string) : string :=
  match x with
  | Some s => if nonempty s then s else default
  | None => default
  end.

(** * enhanced_amazon_scraper.py *)
Module Enhanced.

(** A URL template: literal text and the three named fields of
    [str.format]. *)
Inductive Seg : Type :=
| Lit (s : string)
| FMarketplace
| FSellerId
| FPage.

Definition url_pattern : Type := list Seg.

Definition SELLER_URL_PATTERNS : list url_pattern :=
  [ [Lit "https://www.amazon."; FMarketplace; Lit "/s?i=merchant-items&me="; FSellerId; Lit "&page="; FPage];
    [Lit "https://www.amazon."; FMarketplace; Lit "/s?me="; FSellerId; Lit "&marketplaceID=A1F83G8C2ARO7P&page="; FPage];
    [Lit "https://www.amazon."; FMarketplace; Lit "/s?merchant="; FSellerId; Lit "&page="; FPage];
    [Lit "https://www.amazon."; FMarketplace; Lit "/shops/"; FSellerId; Lit "/page/"; FPage];
    [Lit "https://www.amazon."; FMarketplace; Lit "/stores/"; FSellerId; Lit "/page/"; FPage];
    [Lit "https://www.amazon."; FMarketplace; Lit "/s?i=merchant-items&me="; FSellerId; Lit "&rh=p_6%3A"; FSellerId; Lit "&page="; FPage];
    [Lit "https://www.amazon."; FMarketplace; Lit "/s?i=merchant-items&me="; FSellerId; Lit "&rh=n%3A65801031&page="; FPage];
    [Lit "https://www.amazon."; FMarketplace; Lit "/s?i=merchant-items&me="; FSellerId; Lit "&rh=n%3A66280031&page="; FPage];
    [Lit "https://www.amazon."; FMarketplace; Lit "/s?i=merchant-items&me="; FSellerId; Lit "&rh=n%3A117332031&page="; FPage];
    [Lit "https://www.amazon."; FMarketplace; Lit "/s?i=merchant-items&me="; FSellerId; Lit "&rh=n%3A560798&page="; FPage];
    [Lit "https://www.amazon."; FMarketplace; Lit "/s?i=merchant-items&me="; FSellerId; Lit "&s=price-desc-rank&page="; FPage];
    [Lit "https://www.amazon."; FMarketplace; Lit "/s?i=merchant-items&me="; FSellerId; Lit "&s=price-asc-rank&page="; FPage];
    [Lit "https://www.amazon."; FMarketplace; Lit "/s?i=merchant-items&me="; FSellerId; Lit "&s=date-desc-rank&page="; FPage];
    [Lit "https://www.amazon."; FMarketplace; Lit "/s?i=merchant-items&me="; FSellerId; Lit "&s=review-rank&page="; FPage];
    [Lit "https://www.amazon."; FMarketplace; Lit "/s?i=merchant-items&me="; FSellerId; Lit "&s=relevancerank&page="; FPage] ].

(** [url_pattern.format(marketplace=.., seller_id=.., page=..)] *)
Fixpoint format (pattern : url_pattern) (marketplace seller_id : string) (page : Z) : string :=
  match pattern with
  | [] => EmptyString
  | Lit s :: rest => s ++ format rest marketplace seller_id page
  | FMarketplace :: rest => marketplace ++ format rest marketplace seller_id page
  | FSellerId :: rest => seller_id ++ format rest marketplace seller_id page
  | FPage :: rest => str_of_int page ++ format rest marketplace seller_id page
  end.

(** One product dict as [extract_products_from_search_page] builds it. *)
Record Product : Type := mkProduct {
  p_asin : pyval;
  p_title : string;
  p_price : option string;
  p_link : string;
  p_seller_id : string;
  p_marketplace : string;
  p_source : string
}.

Definition product_dict (p : Product) : pyval :=
  PDict [ ("asin", p_asin p);
          ("title", PStr (p_title p));
          ("price", match p_price p with Some s => PStr s | None => PNone end);
          ("link", PStr (p_link p));
          ("seller_id", PStr (p_seller_id p));
          ("marketplace", PStr (p_marketplace p));
          ("source", PStr (p_source p)) ].

(** The deduplication dict [all_products]: keys are asins, in insertion
    order. *)
Definition product_map : Type := list (pyval * Product).

Section WithPlatform.
Context `{Platform}.

Definition get_cache_path (seller_id marketplace : string) : string :=
  path_join enhanced_cache_dir (seller_id ++ "_" ++ marketplace ++ ".json").

(** [datetime.fromisoformat(v)]; a non-[str] argument is a [TypeError]. *)
Definition datetime_fromisoformat (v : pyval) : M iso_result :=
  match v with
  | PStr s => match fromisoformat s with
              | IsoInvalid => raise ValueError
              | r => ret r
              end
  | _ => raise TypeError
  end.

(** Hours that [timedelta(hours=..)] accepts: those that make at most
    999999999 days, either way. *)
Definition window_hours_ok (hours : Z) : bool :=
  (-23999999976 <=? hours) && (hours <=? 23999999999).

(** [timedelta(hours=hours)], in seconds; an [OverflowError] beyond its
    range. *)
Definition timedelta_hours (hours : Z) : M Z :=
  if window_hours_ok hours then ret (hours * 3600) else raise OverflowError.

(** [datetime.now() - cache_time]; naive minus aware is a [TypeError]. *)
Definition datetime_since (cache_time : iso_result) : M Z :=
  now <- clock_now ;;
  match cache_time with
  | IsoNaive t => ret (now - t)
  | _ => raise TypeError
  end.

Definition get_from_cache (seller_id marketplace : string) (max_age_hours : Z) : M (option pyval) :=
  let cache_path := get_cache_path seller_id marketplace in
  present <- path_exists cache_path ;;
  if negb present then ret None
  else
    try_except
      (content <- read_file cache_path ;;
       cache_data <- match json_loads content with
                     | Some v => ret v
                     | None => raise JSONDecodeError
                     end ;;
       stamp <- py_get cache_data "timestamp" (PStr "2000-01-01T00:00:00") ;;
       cache_time <- datetime_fromisoformat stamp ;;
       max_age <- timedelta_hours max_age_hours ;;
       age <- datetime_since cache_time ;;
       if age >? max_age then ret None else ret (Some cache_data))
      (fun _ => ret None).

Definition save_to_cache (seller_id marketplace : string) (data : list (string * pyval)) : M unit :=
  try_except
    (now <- clock_now ;;
     let data := dict_set "timestamp" (PStr (isoformat now)) data in
     let cache_path := get_cache_path seller_id marketplace in
     _ <- write_file cache_path (json_dumps (PDict data)) ;;
     products <- py_get (PDict data) "products" (PList []) ;;
     _ <- py_len products ;;
     ret tt)
    (fun _ => ret tt).

(** One pass of the body of [for attempt in range(max_retries)] in
    [make_request]: the response when its status is 200; nothing after a 503
    (back off), after any other status (wait), and after an exception
    (wait). *)
Definition request_attempt (url : string) (attempt : nat) : M (option Response) :=
  try_except
    (outcome <- session_get url attempt ;;
     match outcome with
     | HttpStatus status_code response =>
         if status_code =? 200 then ret (Some response)
         else if status_code =? 503 then ret None
         else ret None
     | HttpError => raise ConnectionError
     end)
    (fun _ => ret None).

Fixpoint request_loop (remaining attempt : nat) (url : string) : M (option Response) :=
  match remaining with
  | O => ret None
  | S remaining' =>
      found <- request_attempt url attempt ;;
      match found with
      | Some response => ret (Some response)
      | None => request_loop remaining' (S attempt) url
      end
  end.

(** [make_request(url)], with the defaults [max_retries=5], [retry_delay=4]. *)
Definition make_request (url : string) : M (option Response) :=
  response <- request_loop 5 0 url ;;
  _ <- log_request url response ;;
  ret response.

Definition seller_name_selectors : list string :=
  ["#sellerName"; "h1.a-size-large"; "span.a-size-extra-large"; "h1.a-spacing-none"].

Definition get_seller_name (seller_id marketplace : string) : M (option string) :=
  let url := "https://www.amazon." ++ marketplace ++ "/sp?seller=" ++ seller_id in
  try_except
    (response <- make_request url ;;
     match response with
     | None => ret None
     | Some r =>
         let soup := BeautifulSoup (r_text r) in
         ret (first_text soup seller_name_selectors)
     end)
    (fun _ => ret None).

Definition grid_selectors : list string :=
  [ "div.s-result-list div.s-result-item";
    "div.sg-col-4-of-12";
    "div[data-component-type='s-search-result']";
    "div.rush-component.s-latency-cf-section";
    ".s-main-slot > div" ].

Definition title_selector : string :=
  ".a-size-medium.a-color-base.a-text-normal, .a-size-base-plus.a-color-base.a-text-normal, h2 a.a-link-normal, h5 a".

Definition price_selector : string :=
  ".a-price .a-offscreen, span.a-price span.a-offscreen".

(** Lines 212-214: the element carries a "Sponsored" label. *)
Definition is_sponsored (product : Tag) : bool :=
  match select_one product "span.s-label-popover-default" with
  | Some sponsored => contains "Sponsored" (tag_text sponsored)
  | None => false
  end.

(** Lines 217-228: the [data-asin] attribute, else the [asin] entry of the
    JSON in [data-component-props]; [PNone] when neither gives one. *)
Definition element_asin (product : Tag) : pyval :=
  let from_props :=
    match assoc "data-component-props" (tag_attrs product) with
    | Some component_props =>
        if nonempty component_props && contains "asin" component_props then
          match json_loads component_props with
          | Some (PDict data_props) =>
              match assoc "asin" data_props with
              | Some v => v
              | None => PNone
              end
          | _ => PNone
          end
        else PNone
    | None => PNone
    end in
  match assoc "data-asin" (tag_attrs product) with
  | Some data_asin => if nonempty data_asin then PStr data_asin else from_props
  | None => from_props
  end.

(** Body of the per-element loop: the product dict, or nothing when the
    element is skipped. *)
Definition product_of_element (product : Tag) (seller_id : string) : option Product :=
  if is_sponsored product then None
  else
    let asin := element_asin product in
    if negb (truthy asin) then None
    else
      let title := match select_one product title_selector with
                   | Some title_elem => strip (tag_text title_elem)
                   | None => "Unknown Title"
                   end in
      let price := match select_one product price_selector with
                   | Some price_elem => Some (strip (tag_text price_elem))
                   | None => None
                   end in
      Some (mkProduct asin title price
                      ("https://www.amazon.co.uk/dp/" ++ py_format asin)
                      seller_id "UK" "enhanced_amazon").

Fixpoint products_of_elements (product_elements : list Tag) (seller_id : string) : list Product :=
  match product_elements with
  | [] => []
  | product :: rest =>
      match product_of_element product seller_id with
      | Some product_obj => product_obj :: products_of_elements rest seller_id
      | None => products_of_elements rest seller_id
      end
  end.

Definition extract_products_from_search_page (html seller_id : string) : list Product :=
  let soup := BeautifulSoup html in
  let product_elements := first_matches soup grid_selectors in
  products_of_elements product_elements seller_id.

(** [asin in all_products]; an unhashable key is a [TypeError]. *)
Definition has_key (asin : pyval) (all_products : product_map) : M bool :=
  if hashable asin then ret (existsb (fun entry => key_eqb asin (fst entry)) all_products)
  else raise TypeError.

(** Lines 303-305 and 336-338. *)
Fixpoint add_new_products (page_products : list Product) (all_products : product_map) : M product_map :=
  match page_products with
  | [] => ret all_products
  | product :: rest =>
      known <- has_key (p_asin product) all_products ;;
      if known then add_new_products rest all_products
      else add_new_products rest (all_products ++ [(p_asin product, product)])%list
  end.

(** Lines 285-312: [for page in range(1, 8)], with its two [break]s;
    carries [all_products] and [pattern_products_count]. *)
Fixpoint first_pages (pages : list Z) (pattern : url_pattern) (seller_id marketplace : string)
    (all_products : product_map) (pattern_products_count : Z) : M (product_map * Z) :=
  match pages with
  | [] => ret (all_products, pattern_products_count)
  | page :: rest =>
      let url := format pattern marketplace seller_id page in
      response <- make_request url ;;
      match response with
      | None => ret (all_products, pattern_products_count)
      | Some r =>
          let page_products := extract_products_from_search_page (r_text r) seller_id in
          match page_products with
          | [] => ret (all_products, pattern_products_count)
          | _ =>
              all_products <- add_new_products page_products all_products ;;
              first_pages rest pattern seller_id marketplace all_products
                          (pattern_products_count + Z.of_nat (List.length page_products))
          end
      end
  end.

(** Lines 321-341: [for page in range(8, 16)]. *)
Fixpoint extra_pages (pages : list Z) (pattern : url_pattern) (seller_id marketplace : string)
    (all_products : product_map) : M product_map :=
  match pages with
  | [] => ret all_products
  | page :: rest =>
      let url := format pattern marketplace seller_id page in
      response <- make_request url ;;
      match response with
      | None => ret all_products
      | Some r =>
          let page_products := extract_products_from_search_page (r_text r) seller_id in
          match page_products with
          | [] => ret all_products
          | _ =>
              all_products <- add_new_products page_products all_products ;;
              extra_pages rest pattern seller_id marketplace all_products
          end
      end
  end.

(** Body of the loop over [SELLER_URL_PATTERNS] (lines 280-341). *)
Definition scan_pattern (pattern : url_pattern) (seller_id marketplace : string)
    (all_products : product_map) : M product_map :=
  '(all_products, pattern_products_count) <-
     first_pages (py_range 1 8) pattern seller_id marketplace all_products 0 ;;
  if pattern_products_count >=? 100
  then extra_pages (py_range 8 16) pattern seller_id marketplace all_products
  else ret all_products.

Fixpoint scan_patterns (patterns : list url_pattern) (seller_id marketplace : string)
    (all_products : product_map) : M product_map :=
  match patterns with
  | [] => ret all_products
  | pattern :: rest =>
      all_products <- scan_pattern pattern seller_id marketplace all_products ;;
      scan_patterns rest seller_id marketplace all_products
  end.

(** Lines 268-273: the cache branch; [None] when the scan has to run. *)
Definition cached_inventory (seller_id marketplace : string) : M (option (pyval * pyval)) :=
  cache_data <- get_from_cache seller_id marketplace 12 ;;
  match cache_data with
  | None => ret None
  | Some cache_data =>
      if negb (truthy cache_data) then ret None
      else
        has_products <- py_in "products" cache_data ;;
        if has_products then
          products <- py_getitem cache_data "products" ;;
          seller_name <- py_get cache_data "seller_name" (PStr "Unknown") ;;
          _ <- py_len products ;;
          ret (Some (products, seller_name))
        else ret None
  end.

(** Lines 275-356: the scan proper. *)
Definition fresh_scan (seller_id marketplace : string) : M (pyval * pyval) :=
  found <- get_seller_name seller_id marketplace ;;
  let seller_name := or_default found "Unknown Seller" in
  all_products <- scan_patterns SELLER_URL_PATTERNS seller_id marketplace [] ;;
  let product_list := PList (map (fun entry => product_dict (snd entry)) all_products) in
  let cache_data := [ ("seller_id", PStr seller_id);
                      ("seller_name", PStr seller_name);
                      ("products", product_list);
                      ("marketplace", PStr marketplace) ] in
  _ <- save_to_cache seller_id marketplace cache_data ;;
  ret (product_list, PStr seller_name).

Definition scan_seller_inventory (seller_id marketplace : string) (force_refresh : bool)
    : M (pyval * pyval) :=
  hit <- (if negb force_refresh then cached_inventory seller_id marketplace else ret None) ;;
  match hit with
  | Some result => ret result
  | None => fresh_scan seller_id marketplace
  end.

Definition get_seller_products (seller_id marketplace : string) (force_refresh : bool) : M pyval :=
  try_except
    ('(products, seller_name) <- scan_seller_inventory seller_id marketplace force_refresh ;;
     _ <- py_len products ;;
     ret products)
    (fun _ => ret (PList [])).

(** The [__main__] block (lines 371-381): [argv] is [sys.argv], the result
    is the line printed. *)
Definition main (argv : list string) : M string :=
  match argv with
  | _ :: seller_id :: rest =>
      let marketplace := match rest with
                         | m :: _ => m
                         | [] => "co.uk"
                         end in
      let force_refresh := match rest with
                           | _ :: flag :: _ => String.eqb (lower flag) "true"
                           | _ => false
                           end in
      products <- get_seller_products seller_id marketplace force_refresh ;;
      ret (json_dumps products)
  | _ => ret "Usage: python enhanced_amazon_scraper.py <seller_id> [marketplace] [force_refresh]"
  end.

End WithPlatform.
End Enhanced.

(** * amazon_scraper.py *)
Module Basic.

(** One product dict as the scan builds it; [price_text] is present only
    when a price was found. *)
Record Product : Type := mkProduct {
  p_asin : string;
  p_title : string;
  p_link : string;
  p_marketplace : string;
  p_seller_id : string;
  p_seller_name : string;
  p_price_text : option string
}.

Definition product_dict (p : Product) : pyval :=
  PDict ([ ("asin", PStr (p_asin p));
           ("title", PStr (p_title p));
           ("link", PStr (p_link p));
           ("marketplace", PStr (p_marketplace p));
           ("seller_id", PStr (p_seller_id p));
           ("seller_name", PStr (p_seller_name p)) ]
         ++ match p_price_text p with
            | Some price_text => [("price_text", PStr price_text)]
            | None => []
            end)%list.

(** Right operand of [time.time() - v]: an [int] or a [bool], converted to
    a float; an [int] beyond the floats is an [OverflowError], anything that is
    not a number a [TypeError]. *)
Definition py_number (v : pyval) : M Z :=
  match as_number v with
  | Some z => if fits_float z then ret z else raise OverflowError
  | None => raise TypeError
  end.

(** [(.*?)[:|]] matched at the start of [s]: the shortest run of
    characters other than a line feed that is followed by a colon or a bar.
    (The en dash of the source pattern lies outside the alphabet of
    [string].) *)
Fixpoint lazy_prefix (s : string) : option string :=
  match s with
  | EmptyString => None
  | String c s' =>
      if Ascii.eqb c ":"%char || Ascii.eqb c "|"%char then Some EmptyString
      else if Ascii.eqb c (ascii_of_nat 10) then None
      else match lazy_prefix s' with
           | Some g => Some (String c g)
           | None => None
           end
  end.

(** Group 1 of [re.search] for the title pattern in [content], leftmost
    match: the opening title tag, then [lazy_prefix]. *)
Fixpoint search_title (content : string) : option string :=
  match content with
  | EmptyString => None
  | String _ rest =>
      if prefix "<title>" content then
        match lazy_prefix (drop 7 content) with
        | Some g => Some g
        | None => search_title rest
        end
      else search_title rest
  end.

(** Lines 261-263: the text before the first separator that occurs in the
    title, trying [':'], ['|'], ['-'] in this order.  (The en dash that ends
    the source list lies outside the alphabet of [string].) *)
Fixpoint split_title (separators : list ascii) (title_text : string) : option string :=
  match separators with
  | [] => None
  | separator :: rest =>
      if has_char separator title_text then Some (strip (before_sep separator title_text))
      else split_title rest title_text
  end.

(** One entry of the proxy list: a dict with the keys [ip], [port],
    [country] and [url]. *)
Record Proxy : Type := mkProxy {
  proxy_ip : string;
  proxy_port : string;
  proxy_country : string;
  proxy_url : string
}.

Definition VERIFIED_PROXIES : list Proxy := [].

Definition get_free_proxies : list Proxy :=
  match VERIFIED_PROXIES with
  | [] => []
  | _ => VERIFIED_PROXIES
  end.

Module AmazonSellerScraper.

(** The two fields of [self] that the proxy rotation reads and writes. *)
Record ProxyState : Type := mkProxyState {
  proxies : list Proxy;
  current_proxy_index : nat
}.

Definition refresh_proxies (st : ProxyState) : ProxyState :=
  mkProxyState get_free_proxies 0.

(** What [get_next_proxy] comes to: the value it returns, or the
    [IndexError] of [self.proxies[self.current_proxy_index]]. *)
Inductive proxy_pick : Type :=
| Picked (proxy : option Proxy)
| IndexError.

Definition get_next_proxy (st : ProxyState) : proxy_pick * ProxyState :=
  match proxies st with
  | [] => (Picked None, st)
  | _ =>
      match nth_error (proxies st) (current_proxy_index st) with
      | Some proxy =>
          (Picked (Some proxy),
           mkProxyState (proxies st)
                        ((current_proxy_index st + 1) mod List.length (proxies st))%nat)
      | None => (IndexError, st)
      end
  end.

(** [n] calls of [get_next_proxy] in a row: what they return, and the
    state they leave. *)
Fixpoint next_proxies (n : nat) (st : ProxyState) : list proxy_pick * ProxyState :=
  match n with
  | O => ([], st)
  | S n' =>
      let (pick, st1) := get_next_proxy st in
      let (picks, st2) := next_proxies n' st1 in
      (pick :: picks, st2)
  end.

(** The fields of [self] that the scan reads. *)
Record Scraper : Type := mkScraper {
  marketplace : string;
  base_url : string;
  max_retries : nat
}.

Section WithPlatform.
Context `{Platform}.

(** [__init__]: the session cookie reads the clock once; the proxy list
    stays empty. *)
Definition init (marketplace : string) : M Scraper :=
  _ <- clock_now ;;
  ret (mkScraper marketplace ("https://www.amazon." ++ marketplace) 3).

Definition _get_cache_path (self : Scraper) (seller_id : string) : string :=
  path_join basic_cache_dir (seller_id ++ "_" ++ marketplace self ++ ".json").

Definition _get_from_cache (self : Scraper) (seller_id : string) : M (option pyval) :=
  let cache_path := _get_cache_path self seller_id in
  present <- path_exists cache_path ;;
  if present then
    try_except
      (content <- read_file cache_path ;;
       cache_data <- match json_loads content with
                     | Some v => ret v
                     | None => raise JSONDecodeError
                     end ;;
       cache_time <- py_get cache_data "timestamp" (PInt 0) ;;
       now <- clock_now ;;
       cache_time <- py_number cache_time ;;
       if now - cache_time <? 86400 then ret (Some cache_data) else ret None)
      (fun _ => ret None)
  else ret None.

Definition _save_to_cache (self : Scraper) (seller_id : string) (data : list (string * pyval)) : M unit :=
  let cache_path := _get_cache_path self seller_id in
  try_except
    (now <- clock_now ;;
     let data := dict_set "timestamp" (PInt now) data in
     write_file cache_path (json_dumps_indent (PDict data)))
    (fun _ => ret tt).

(** One pass of the body of [for attempt in range(self.max_retries)] in
    [_make_request]; the proxy list is empty, so the attempt is a direct
    request.  The response when its status is 200; nothing after a 503, a
    403 or any other status (each sleeps), and after a [RequestException]
    (sleeps). *)
Definition request_attempt (url : string) (attempt : nat) : M (option Response) :=
  try_except
    (outcome <- session_get url attempt ;;
     match outcome with
     | HttpStatus status_code response =>
         if status_code =? 200 then ret (Some response)
         else if status_code =? 503 then ret None
         else if status_code =? 403 then ret None
         else ret None
     | HttpError => raise ConnectionError
     end)
    (fun _ => ret None).

Fixpoint request_loop (remaining attempt : nat) (url : string) : M (option Response) :=
  match remaining with
  | O => ret None
  | S remaining' =>
      found <- request_attempt url attempt ;;
      match found with
      | Some response => ret (Some response)
      | None => request_loop remaining' (S attempt) url
      end
  end.

Definition _make_request (self : Scraper) (url : string) : M (option Response) :=
  response <- request_loop (max_retries self) 0 url ;;
  _ <- log_request url response ;;
  ret response.

Definition seller_name_selectors : list string :=
  ["h1#sellerName"; "span.a-size-extra-large.a-text-bold"; "h1.a-size-large"; "h1 span"].

(** Lines 241-271: the name found in a fetched storefront page. *)
Definition name_in_page (soup : Tag) : option string :=
  match first_text soup seller_name_selectors with
  | Some name => Some name
  | None =>
      match select_one soup "title" with
      | None => None
      | Some title_element =>
          let title_text := tag_text title_element in
          match split_title [":"%char; "|"%char; "-"%char] title_text with
          | Some name => Some name
          | None =>
              if contains "Amazon" title_text then
                match after_sep ":"%char title_text with
                | Some part => Some (strip part)
                | None => None
                end
              else None
          end
      end
  end.

Definition get_seller_name (self : Scraper) (seller_id : string) : M (option string) :=
  try_except
    (let url := base_url self ++ "/sp?seller=" ++ seller_id in
     early <- try_except
                (downloaded <- fetch_url url ;;
                 match downloaded with
                 | Some content =>
                     if nonempty content then
                       match search_title content with
                       | Some g => ret (Some (strip g))
                       | None => ret None
                       end
                     else ret None
                 | None => ret None
                 end)
                (fun _ => ret None) ;;
     match early with
     | Some name => ret (Some name)
     | None =>
         response <- _make_request self url ;;
         match response with
         | None => ret None
         | Some r => ret (name_in_page (BeautifulSoup (r_content r)))
         end
     end)
    (fun _ => ret None).

(** Lines 301-321; the ninth entry embeds [int(time.time())]. *)
Definition urls_to_try (self : Scraper) (seller_id : string) : M (list string) :=
  qid <- clock_now ;;
  ret [ base_url self ++ "/s?i=merchant-items&me=" ++ seller_id;
        base_url self ++ "/s?me=" ++ seller_id ++ "&marketplaceID=A1F83G8C2ARO7P";
        base_url self ++ "/s?k=*&me=" ++ seller_id;
        base_url self ++ "/s?rh=n%3A%2Cp_6%3A" ++ seller_id;
        base_url self ++ "/s?merchant=" ++ seller_id;
        base_url self ++ "/s?rh=p_4%3A" ++ seller_id;
        base_url self ++ "/shops/" ++ seller_id;
        base_url self ++ "/sp?seller=" ++ seller_id;
        base_url self ++ "/s?i=merchant-items&me=" ++ seller_id ++ "&qid=" ++ str_of_int qid;
        base_url self ++ "/s?i=merchant-items&me=" ++ seller_id ++ "&rh=n%3A117332031";
        base_url self ++ "/s?i=merchant-items&me=" ++ seller_id ++ "&rh=n%3A560798";
        base_url self ++ "/s?i=merchant-items&me=" ++ seller_id ++ "&rh=n%3A1025612";
        base_url self ++ "/s?i=merchant-items&me=" ++ seller_id ++ "&rh=n%3A560800";
        base_url self ++ "/s?i=merchant-items&me=" ++ seller_id ++ "&rh=n%3A11052681" ].

Definition product_selectors : list string :=
  [ "div[data-asin]:not([data-asin=" ++ dq ++ dq ++ "])";
    ".s-result-item[data-asin]:not([data-asin=" ++ dq ++ dq ++ "])";
    ".sg-col-inner div[data-asin]";
    "div.a-section[data-asin]";
    "li.a-carousel-card[data-asin]";
    "div[data-component-type=" ++ dq ++ "s-search-result" ++ dq ++ "]";
    "div.rush-component[data-asin]";
    ".s-main-slot div[data-asin]";
    ".widgetId\=search-results div[data-asin]";
    "div[cel_widget_id*=" ++ dq ++ "MAIN-SEARCH_RESULTS" ++ dq ++ "]";
    "div.s-card-container" ].

Definition title_selectors : list string :=
  [".a-text-normal"; "h2 a span"; ".a-size-base-plus"; ".a-size-medium"].

Definition price_selectors : list string :=
  [".a-price .a-offscreen"; ".a-price"; ".a-color-price"].

(** Lines 380-419: the product dict of one element, or nothing when the
    element is skipped. *)
Definition product_of_element (self : Scraper) (element : Tag) (seller_id seller_name : string)
    : option Product :=
  let asin := match assoc "data-asin" (tag_attrs element) with
              | Some a => a
              | None => EmptyString
              end in
  if negb (nonempty asin) || negb (Nat.eqb (String.length asin) 10) then None
  else
    match first_text element title_selectors with
    | None => None
    | Some title =>
        let price_text := first_text element price_selectors in
        Some (mkProduct asin title
                        (base_url self ++ "/dp/" ++ asin)
                        ("Amazon " ++ str_upper (marketplace self))
                        seller_id seller_name price_text)
    end.

(** [any(p['asin'] == asin for p in products)] *)
Definition has_asin (asin : string) (products : list Product) : bool :=
  existsb (fun p => String.eqb (p_asin p) asin) products.

(** Lines 379-423: the loop over the matched elements. *)
Fixpoint process_elements (self : Scraper) (product_elements : list Tag)
    (seller_id seller_name : string) (page_products : list Product) : list Product :=
  match product_elements with
  | [] => page_products
  | element :: rest =>
      match product_of_element self element seller_id seller_name with
      | None => process_elements self rest seller_id seller_name page_products
      | Some product =>
          if has_asin (p_asin product) page_products
          then process_elements self rest seller_id seller_name page_products
          else process_elements self rest seller_id seller_name (page_products ++ [product])
      end
  end.

(** Lines 432-445: a "Next" control is present and not disabled. *)
Definition has_next_page (soup : Tag) : bool :=
  match select_one soup ".a-pagination .a-last a" with
  | None => false
  | Some next_button =>
      let disabled :=
        match tag_parent next_button with
        | Some parent => existsb (String.eqb "a-disabled") (tag_class parent)
        | None => false
        end in
      negb disabled
  end.

Definition is_invalid_page (text : string) : bool :=
  contains "Sorry! We couldn't find that page" text || contains "We're sorry" text.

(** One iteration of the [while] loop (lines 337-452): whether to go on
    to the next page, with the updated [page_products] and
    [total_pages_crawled]. *)
Definition crawl_page (self : Scraper) (base_url : string) (page : Z)
    (seller_id seller_name : string) (page_products : list Product) (total_pages_crawled : Z)
    : M (bool * list Product * Z) :=
  try_except
    (let url := if page >? 1 then base_url ++ "&page=" ++ str_of_int page else base_url in
     response <- _make_request self url ;;
     match response with
     | None => ret (false, page_products, total_pages_crawled)
     | Some r =>
         if is_invalid_page (r_text r) then ret (false, page_products, total_pages_crawled)
         else
           let soup := BeautifulSoup (r_content r) in
           match first_matches soup product_selectors with
           | [] => ret (false, page_products, total_pages_crawled)
           | product_elements =>
               ret (has_next_page soup,
                    process_elements self product_elements seller_id seller_name page_products,
                    total_pages_crawled + 1)
           end
     end)
    (fun _ => ret (false, page_products, total_pages_crawled)).

(** [while more_pages and page <= 100]: [remaining] counts the pages up to
    the ceiling, [101 - page]. *)
Fixpoint crawl_pages (remaining : nat) (self : Scraper) (base_url : string) (page : Z)
    (seller_id seller_name : string) (page_products : list Product) (total_pages_crawled : Z)
    : M (list Product * Z) :=
  match remaining with
  | O => ret (page_products, total_pages_crawled)
  | S remaining' =>
      '(more_pages, page_products, total_pages_crawled) <-
         crawl_page self base_url page seller_id seller_name page_products total_pages_crawled ;;
      if more_pages
      then crawl_pages remaining' self base_url (page + 1) seller_id seller_name
                       page_products total_pages_crawled
      else ret (page_products, total_pages_crawled)
  end.

(** Lines 455-457. *)
Fixpoint add_unique (page_products products : list Product) : list Product :=
  match page_products with
  | [] => products
  | product :: rest =>
      if has_asin (p_asin product) products then add_unique rest products
      else add_unique rest (products ++ [product])
  end.

(** The loop over [urls_to_try] (lines 330-461). *)
Fixpoint crawl_urls (self : Scraper) (urls : list string) (seller_id seller_name : string)
    (products : list Product) (total_pages_crawled : Z) : M (list Product * Z) :=
  match urls with
  | [] => ret (products, total_pages_crawled)
  | base_url :: rest =>
      '(page_products, total_pages_crawled) <-
         crawl_pages 100 self base_url 1 seller_id seller_name [] total_pages_crawled ;;
      crawl_urls self rest seller_id seller_name (add_unique page_products products)
                 total_pages_crawled
  end.

(** Lines 291-295: the cache branch; [None] when the scan has to run. *)
Definition cached_products (self : Scraper) (seller_id : string) : M (option pyval) :=
  cache_data <- _get_from_cache self seller_id ;;
  match cache_data with
  | None => ret None
  | Some cache_data =>
      if truthy cache_data then
        logged <- py_get cache_data "products" (PList []) ;;
        _ <- py_len logged ;;
        products <- py_get cache_data "products" (PList []) ;;
        ret (Some products)
      else ret None
  end.

(** Lines 299-484: the scan proper. *)
Definition fresh_scan (self : Scraper) (seller_id : string) : M pyval :=
  urls <- urls_to_try self seller_id ;;
  found <- get_seller_name self seller_id ;;
  let seller_name := or_default found "Unknown Seller" in
  '(products, total_pages_crawled) <- crawl_urls self urls seller_id seller_name [] 0 ;;
  let product_list := PList (map product_dict products) in
  _ <- match products with
       | [] => ret tt
       | _ =>
           last_updated <- clock_now ;;
           let data := [ ("seller_id", PStr seller_id);
                         ("seller_name", PStr seller_name);
                         ("products", product_list);
                         ("product_count", PInt (Z.of_nat (List.length products)));
                         ("last_updated", PInt last_updated);
                         ("pages_crawled", PInt total_pages_crawled) ] in
           _save_to_cache self seller_id data
       end ;;
  ret product_list.

Definition get_seller_products (self : Scraper) (seller_id : string) (force_refresh : bool) : M pyval :=
  hit <- (if negb force_refresh then cached_products self seller_id else ret None) ;;
  match hit with
  | Some products => ret products
  | None => fresh_scan self seller_id
  end.

End WithPlatform.
End AmazonSellerScraper.

Section WithPlatform.
Context `{Platform}.

(** The module-level helper (lines 487-495). *)
Definition get_seller_products (seller_id marketplace : string) (force_refresh : bool) : M pyval :=
  try_except
    (scraper <- AmazonSellerScraper.init marketplace ;;
     AmazonSellerScraper.get_seller_products scraper seller_id force_refresh)
    (fun _ => ret (PList [])).

(** The module-level helper for the name only (lines 498-505). *)
Definition get_seller_name (seller_id marketplace : string) : M (option string) :=
  try_except
    (scraper <- AmazonSellerScraper.init marketplace ;;
     AmazonSellerScraper.get_seller_name scraper seller_id)
    (fun _ => ret None).

End WithPlatform.
End Basic.

(** * Vocabulary of the properties *)

(** ** Cache lookup, in the words of the specification

    A stored entry parses to a snapshot and its capture time; the lookup
    answers nothing when there is no entry, when the entry does not parse
    (it is no JSON, or its time stamp is none that the age computation
    accepts), or when the entry is too old, and the stored snapshot
    otherwise.  The two modules differ in the time format, in the window,
    and in whether an entry exactly as old as the window is still served. *)

Section CacheVocabulary.
Context `{Platform}.

(** enhanced_amazon_scraper: an ISO timestamp, read as a naive local time. *)
Definition enhanced_entry_time (v : pyval) : option Z :=
  match v with
  | PDict d =>
      match assoc "timestamp" d with
      | Some (PStr s) => match fromisoformat s with IsoNaive t => Some t | _ => None end
      | Some _ => None
      | None => match fromisoformat "2000-01-01T00:00:00" with IsoNaive t => Some t | _ => None end
      end
  | _ => None
  end.

(** amazon_scraper: a number of seconds that the float subtraction of the
    age accepts, the epoch when absent. *)
Definition basic_entry_time (v : pyval) : option Z :=
  match v with
  | PDict d =>
      match assoc "timestamp" d with
      | Some x => match as_number x with
                  | Some z => if fits_float z then Some z else None
                  | None => None
                  end
      | None => Some 0
      end
  | _ => None
  end.

Definition parse_entry (entry_time : pyval -> option Z) (content : string) : option (pyval * Z) :=
  match json_loads content with
  | Some v => match entry_time v with
              | Some t => Some (v, t)
              | None => None
              end
  | None => None
  end.

(** [too_old age] decides staleness. *)
Definition lookup_spec (entry_time : pyval -> option Z) (too_old : Z -> bool)
    (entry : option string) (now : Z) : option pyval :=
  match entry with
  | None => None
  | Some content =>
      match parse_entry entry_time content with
      | None => None
      | Some (v, t) => if too_old (now - t) then None else Some v
      end
  end.

(** The scan proper runs: the cache is bypassed, or its branch gives
    nothing. *)
Definition enhanced_scan_runs (seller_id marketplace : string) (force_refresh : bool)
    (w : World) : Prop :=
  force_refresh = true \/ fst (Enhanced.cached_inventory seller_id marketplace w) = Ret None.

Definition basic_scan_runs (self : Basic.AmazonSellerScraper.Scraper) (seller_id : string)
    (force_refresh : bool) (w : World) : Prop :=
  force_refresh = true
  \/ fst (Basic.AmazonSellerScraper.cached_products self seller_id w) = Ret None.

End CacheVocabulary.

(** ** The walk, in terms of the network log *)

(** The world after further network calls. *)
Definition extend (w : World) (evs : list Event) : World :=
  mkWorld (w_http w) (w_download w) (w_clock w) (w_ticks w) (w_files w) (w_log w ++ evs)
          (w_writable w).

Definition event_url (ev : Event) : string :=
  match ev with
  | EvRequest url _ => url
  | EvDownload url _ => url
  end.

(** An HTTP exchange that brings no usable response. *)
Definition failed (outcome : HttpOutcome) : Prop :=
  match outcome with
  | HttpStatus status_code _ => status_code <> 200
  | HttpError => True
  end.

(** Every fetch fails: no request and no download ever brings a response. *)
Definition offline (w : World) : Prop :=
  (forall n url attempt, failed (w_http w n url attempt))
  /\ (forall n url, w_download w n url = None).

(** What the fetcher of each module returns for a URL in a given world. *)
Definition enhanced_fetched (w : World) (url : string) : option Response :=
  match fst (Enhanced.make_request url w) with
  | Ret r => r
  | Raise _ => None
  end.

Definition basic_fetched (self : Basic.AmazonSellerScraper.Scraper) (w : World) (url : string)
    : option Response :=
  match fst (Basic.AmazonSellerScraper._make_request self url w) with
  | Ret r => r
  | Raise _ => None
  end.

(** Two worlds with the same network: the same oracles and the same log;
    they also agree on where a file can be written. *)
Definition same_network (w w0 : World) : Prop :=
  w_http w0 = w_http w /\ w_download w0 = w_download w /\ w_log w0 = w_log w
  /\ w_writable w0 = w_writable w.

(** A computation that makes no network call. *)
Definition quiet {A : Type} (m : M A) : Prop :=
  forall w : World, same_network w (snd (m w)).

(** [sub] keeps some elements of [l], in their order. *)
Inductive subseq {A : Type} : list A -> list A -> Prop :=
| subseq_nil : subseq [] []
| subseq_skip (x : A) (sub l : list A) : subseq sub l -> subseq sub (x :: l)
| subseq_keep (x : A) (sub l : list A) : subseq sub l -> subseq (x :: sub) (x :: l).

Section EnhancedVocabulary.
Context `{Platform}.

(** The records extracted from the successful requests of a log, in the
    order the walker meets them. *)
Definition enhanced_offered (seller_id : string) (evs : list Event) : list Enhanced.Product :=
  flat_map (fun ev => match ev with
                      | EvRequest _ (Some r) =>
                          Enhanced.extract_products_from_search_page (r_text r) seller_id
                      | _ => []
                      end) evs.

(** The URL catalog of a seller: every pattern at pages 1 to 15, pattern by
    pattern. *)
Definition enhanced_catalog (seller_id marketplace : string) : list string :=
  flat_map (fun pattern => map (Enhanced.format pattern marketplace seller_id) (py_range 1 16))
           Enhanced.SELLER_URL_PATTERNS.

End EnhancedVocabulary.

(** ** First-seen deduplication, for any notion of "same identifier" *)

Section FirstSeen.
Variable R : Type.
Variable same : R -> R -> bool.

(** Keeps, for every identifier, the first record that carries it, and
    drops every later one. *)
Fixpoint first_seen (l : list R) : list R :=
  match l with
  | [] => []
  | p :: rest => p :: filter (fun q => negb (same p q)) (first_seen rest)
  end.

(** No two records of the list share an identifier. *)
Fixpoint distinct (l : list R) : Prop :=
  match l with
  | [] => True
  | p :: rest => (forall q, In q rest -> same p q = false) /\ distinct rest
  end.

(** Appends a record unless one with its identifier is already there. *)
Definition insert_new (acc : list R) (p : R) : list R :=
  if existsb (same p) acc then acc else (acc ++ [p])%list.

End FirstSeen.
Arguments first_seen {R} same l.
Arguments distinct {R} same l.
Arguments insert_new {R} same acc p.

(** Two records carry the same identifier, as a Python dict compares keys. *)
Definition enhanced_same_asin (p q : Enhanced.Product) : bool :=
  key_eqb (Enhanced.p_asin p) (Enhanced.p_asin q).

(** The same for amazon_scraper, where identifiers are texts. *)
Definition basic_same_asin (p q : Basic.Product) : bool :=
  String.eqb (Basic.p_asin p) (Basic.p_asin q).

Section BasicVocabulary.
Context `{Platform}.

(** The records the elements of one page give, skipped elements left out. *)
Fixpoint basic_products_of_elements (self : Basic.AmazonSellerScraper.Scraper)
    (product_elements : list Tag) (seller_id seller_name : string) : list Basic.Product :=
  match product_elements with
  | [] => []
  | element :: rest =>
      match Basic.AmazonSellerScraper.product_of_element self element seller_id seller_name with
      | Some product =>
          product :: basic_products_of_elements self rest seller_id seller_name
      | None => basic_products_of_elements self rest seller_id seller_name
      end
  end.

(** The records one response gives: none on an invalid-storefront page,
    else those of the first product selector that matches. *)
Definition basic_candidates (self : Basic.AmazonSellerScraper.Scraper)
    (seller_id seller_name : string) (r : Response) : list Basic.Product :=
  if Basic.AmazonSellerScraper.is_invalid_page (r_text r) then []
  else basic_products_of_elements self
         (first_matches (BeautifulSoup (r_content r)) Basic.AmazonSellerScraper.product_selectors)
         seller_id seller_name.

(** The records extracted from the successful requests of a log, in the
    order the walker meets them. *)
Definition basic_offered (self : Basic.AmazonSellerScraper.Scraper)
    (seller_id seller_name : string) (evs : list Event) : list Basic.Product :=
  flat_map (fun ev => match ev with
                      | EvRequest _ (Some r) => basic_candidates self seller_id seller_name r
                      | _ => []
                      end) evs.

End BasicVocabulary.

(** One pass of the insertion loop of the walker on one record. *)
Definition enhanced_insert_new (all_products : Enhanced.product_map) (product : Enhanced.Product)
    : Enhanced.product_map :=
  if existsb (fun entry => key_eqb (Enhanced.p_asin product) (fst entry)) all_products
  then all_products
  else (all_products ++ [(Enhanced.p_asin product, product)])%list.

(** All events of the list are requests. *)
Definition only_requests (evs : list Event) : Prop :=
  Forall (fun ev => exists url r, ev = EvRequest url r) evs.

(** URL of a page of one variant. *)
Definition page_url (base_url : string) (page : Z) : string :=
  if page >? 1 then base_url ++ "&page=" ++ str_of_int page else base_url.

(** URLs of the pages from [page] on. *)
Fixpoint page_urls (base_url : string) (page : Z) (n : nat) : list string :=
  match n with
  | O => []
  | S n' => page_url base_url page :: page_urls base_url (page + 1) n'
  end.

(** Keys of the deduplication dict are the identifiers of its values. *)
Definition keys_ok (all_products : Enhanced.product_map) : Prop :=
  Forall (fun entry => fst entry = Enhanced.p_asin (snd entry)) all_products.

(** ** Page extraction *)




(** The selector finds nothing under the element, or only blank text. *)
Definition blank_under (element : Tag) (selector : string) : Prop :=
  match select_one element selector with
  | Some e => nonempty (strip (tag_text e)) = false
  | None => True
  end.

(** The [data-asin] attribute of an element, empty when missing. *)
Definition data_asin (element : Tag) : string :=
  match assoc "data-asin" (tag_attrs element) with
  | Some a => a
  | None => EmptyString
  end.


(** ** Further vocabulary: cache documents and fetch outcomes *)

Section MoreVocabulary.
Context `{Platform}.

(** The document [save_to_cache] of enhanced_amazon_scraper writes for
    [data] at clock reading [now]. *)
Definition enhanced_stamped (data : list (string * pyval)) (now : Z) : list (string * pyval) :=
  dict_set "timestamp" (PStr (isoformat now)) data.

(** The same for [_save_to_cache] of amazon_scraper. *)
Definition basic_stamped (data : list (string * pyval)) (now : Z) : list (string * pyval) :=
  dict_set "timestamp" (PInt now) data.

(** What a record of enhanced_amazon_scraper always looks like. *)
Definition enhanced_record_ok (seller_id : string) (p : Enhanced.Product) : Prop :=
  truthy (Enhanced.p_asin p) = true
  /\ Enhanced.p_seller_id p = seller_id
  /\ Enhanced.p_marketplace p = "UK"
  /\ Enhanced.p_source p = "enhanced_amazon"
  /\ Enhanced.p_link p = "https://www.amazon.co.uk/dp/" ++ py_format (Enhanced.p_asin p)
  /\ (forall price, Enhanced.p_price p = Some price -> strip price = price).

(** What a record of amazon_scraper always looks like. *)
Definition basic_record_ok (self : Basic.AmazonSellerScraper.Scraper)
    (seller_id seller_name : string) (p : Basic.Product) : Prop :=
  String.length (Basic.p_asin p) = 10%nat
  /\ nonempty (Basic.p_title p) = true
  /\ strip (Basic.p_title p) = Basic.p_title p
  /\ Basic.p_seller_id p = seller_id
  /\ Basic.p_seller_name p = seller_name
  /\ Basic.p_link p = Basic.AmazonSellerScraper.base_url self ++ "/dp/" ++ Basic.p_asin p
  /\ Basic.p_marketplace p = "Amazon " ++ str_upper (Basic.AmazonSellerScraper.marketplace self)
  /\ (forall price, Basic.p_price_text p = Some price ->
                    nonempty price = true /\ strip price = price).

End MoreVocabulary.

(** The rotation index points into the proxy list. *)
Definition rotation_ok (st : Basic.AmazonSellerScraper.ProxyState) : Prop :=
  (Basic.AmazonSellerScraper.current_proxy_index st
   < List.length (Basic.AmazonSellerScraper.proxies st))%nat.

(** A text that does not start with a blank. *)
Definition starts_clean (s : string) : Prop :=
  match s with
  | EmptyString => True
  | String c _ => is_space c = false
  end.

(** The [k]-th proxy handed out from position [i] onwards, going round. *)
Definition rotation_pick (ps : list Basic.Proxy) (i k : nat) : Basic.AmazonSellerScraper.proxy_pick :=
  Basic.AmazonSellerScraper.Picked (nth_error ps ((i + k) mod List.length ps)%nat).

(** A computation that writes no file and leaves the clock to run as it
    does. *)
Definition keeps_files {A : Type} (m : M A) : Prop :=
  forall w : World, w_files (snd (m w)) = w_files w /\ w_clock (snd (m w)) = w_clock w.

(** The snapshot a scan of enhanced_amazon_scraper hands to the cache when
    it found nothing and no seller name. *)
Definition empty_snapshot (seller_id marketplace : string) : list (string * pyval) :=
  [ ("seller_id", PStr seller_id);
    ("seller_name", PStr "Unknown Seller");
    ("products", PList []);
    ("marketplace", PStr marketplace) ].

(** Every identifier held by the deduplication dict is hashable. *)
Definition hashable_keys (all_products : Enhanced.product_map) : Prop :=
  Forall (fun entry => hashable (Enhanced.p_asin (snd entry)) = true) all_products.

(** Values [len] accepts. *)
Definition sized (v : pyval) : bool :=
  match v with
  | PStr _ | PList _ | PDict _ => true
  | _ => false
  end.

(** * Sample data *)

Module Sample.

Definition empty_tag : Tag := mkTag [] [] EmptyString None (fun _ => []).

(** An element with text only. *)
Definition text_tag (text : string) : Tag := mkTag [] [] text None (fun _ => []).

(** An element with attributes and, per selector, the elements selected
    below it. *)
Definition node (attrs : list (string * string)) (below : list (string * list Tag)) : Tag :=
  mkTag attrs [] EmptyString None
        (fun css => match assoc css below with Some l => l | None => [] end).

Definition cache_dir : string := "/srv/app/data/cache".

(** Stored cache documents, by file content. *)
Definition five_products : list pyval :=
  [ PDict [("asin", PStr "B000000001"); ("title", PStr "Kettle")];
    PDict [("asin", PStr "B000000002"); ("title", PStr "Toaster")];
    PDict [("asin", PStr "B000000003"); ("title", PStr "Blender")];
    PDict [("asin", PStr "B000000004"); ("title", PStr "Mixer")];
    PDict [("asin", PStr "B000000005"); ("title", PStr "Grinder")] ].

(** An entry of enhanced_amazon_scraper without a [products] field. *)
Definition bare_entry : pyval :=
  PDict [("seller_id", PStr "S1"); ("seller_name", PStr "Shop One");
         ("marketplace", PStr "co.uk"); ("timestamp", PStr "2024-05-01T10:00:00")].

(** An entry of amazon_scraper without a [products] field, stamped with
    an integer that no float holds. *)
Definition beyond_entry : pyval :=
  PDict [("seller_id", PStr "S1"); ("timestamp", PInt (10 ^ 400))].

Definition json_table : list (string * pyval) :=
  [ ("enhanced-five",
     PDict [("seller_id", PStr "S2"); ("seller_name", PStr "Shop Two");
            ("products", PList five_products); ("marketplace", PStr "co.uk");
            ("timestamp", PStr "2024-05-01T10:00:00")]);
    ("basic-five",
     PDict [("seller_id", PStr "S2"); ("seller_name", PStr "Shop Two");
            ("products", PList five_products); ("product_count", PInt 5);
            ("timestamp", PInt 1000)]);
    ("basic-no-products",
     PDict [("seller_id", PStr "S3"); ("timestamp", PInt 1000)]);
    ("basic-odd",
     PDict [("seller_id", PStr "S4"); ("products", PInt 3); ("timestamp", PInt 1000)]);
    ("enhanced-bare", bare_entry);
    ("basic-beyond", beyond_entry);
    ("{" ++ dq ++ "asin" ++ dq ++ ": [7]}", PDict [("asin", PList [PInt 7])]) ].

(** Parsed pages, by markup. *)
Definition item (asin title : string) : Tag :=
  node [("data-asin", asin)]
       [ (".a-text-normal", [text_tag title]);
         (Enhanced.title_selector, [text_tag title]) ].

(** A result item whose identifier sits in its component properties, as
    a JSON list. *)
Definition unhashable_item : Tag :=
  node [("data-component-props", "{" ++ dq ++ "asin" ++ dq ++ ": [7]}")] [].

(** A results page: its items answer the second grid selector of
    enhanced_amazon_scraper and the first product selector of
    amazon_scraper. *)
Definition results_page (items : list Tag) : Tag :=
  node [] [ ("div.sg-col-4-of-12", items);
            ("div[data-asin]:not([data-asin=" ++ dq ++ dq ++ "])", items) ].

(** Markup of one result item. *)
Definition item_markup (asin title : string) : string :=
  "<div class='sg-col-4-of-12' data-asin='" ++ asin
  ++ "'><span class='a-size-medium a-color-base a-text-normal'>" ++ title ++ "</span></div>".

Definition two_items_markup : string :=
  item_markup "B000000001" "Kettle" ++ item_markup "B000000002" "Toaster".

Definition duplicate_markup : string := item_markup "B000000001" "Kettle, refurbished".

(** One hundred items, all with the same identifier. *)
Definition hundred_markup : string :=
  String.concat EmptyString (repeat (item_markup "B000000001" "Kettle") 100).

Definition unhashable_markup : string :=
  "<div class='sg-col-4-of-12' data-component-props='{" ++ dq ++ "asin" ++ dq ++ ": [7]}'></div>".

(** An item with an identifier and no title element at all. *)
Definition untitled_item (asin : string) : Tag := node [("data-asin", asin)] [].

(** An item whose title element holds blanks only. *)
Definition blank_title_item (asin : string) : Tag :=
  node [("data-asin", asin)] [(Enhanced.title_selector, [text_tag "   "])].

Definition soup_table : list (string * Tag) :=
  [ (unhashable_markup, node [] [("div.sg-col-4-of-12", [unhashable_item])]);
    (two_items_markup, results_page [item "B000000001" "Kettle"; item "B000000002" "Toaster"]);
    (duplicate_markup, results_page [item "B000000001" "Kettle, refurbished"]);
    (hundred_markup, results_page (repeat (item "B000000001" "Kettle") 100)) ].

(** [str.upper] on ASCII text. *)
Fixpoint ascii_upper (s : string) : string :=
  match s with
  | EmptyString => EmptyString
  | String c s' =>
      let n := nat_of_ascii c in
      String (if (Nat.leb 97 n && Nat.leb n 122)%bool then ascii_of_nat (n - 32) else c)
             (ascii_upper s')
  end.

#[global] Instance platform : Platform := {
  BeautifulSoup := fun markup => match assoc markup soup_table with Some t => t | None => empty_tag end;
  json_loads := fun content => assoc content json_table;
  json_dumps := fun _ => "{...}";
  json_dumps_indent := fun _ => "{ ... }";
  fromisoformat := fun s => if String.eqb s "2024-05-01T10:00:00" then IsoNaive 500000
                            else if String.eqb s "2000-01-01T00:00:00" then IsoNaive 0
                            else IsoInvalid;
  isoformat := fun t => "T" ++ str_of_int t;
  str_upper := ascii_upper;
  container_repr := fun _ => "[...]";
  enhanced_cache_dir := cache_dir;
  basic_cache_dir := cache_dir
}.

(** A world with no network, a constant clock and the given files. *)
Definition offline_world (now : Z) (files : list (string * string)) : World :=
  mkWorld (fun _ _ _ => HttpError) (fun _ _ => None) (fun _ => now) 0 (fun p => assoc p files) []
          (fun _ => true).

Definition scraper : Basic.AmazonSellerScraper.Scraper :=
  Basic.AmazonSellerScraper.mkScraper "co.uk" "https://www.amazon.co.uk" 3.

(** A cache entry of five products, one hour old. *)
Definition enhanced_cached_world : World :=
  offline_world 503600 [(Enhanced.get_cache_path "S2" "co.uk", "enhanced-five")].

Definition basic_cached_world : World :=
  offline_world 4600 [(Basic.AmazonSellerScraper._get_cache_path scraper "S2", "basic-five")].

(** The entry of enhanced_amazon_scraper, exactly 12 hours old. *)
Definition enhanced_boundary_world : World :=
  offline_world 543200 [(Enhanced.get_cache_path "S2" "co.uk", "enhanced-five")].

(** The entry of amazon_scraper, exactly 24 hours old. *)
Definition boundary_world : World :=
  offline_world 87400 [(Basic.AmazonSellerScraper._get_cache_path scraper "S2", "basic-five")].

(** A fresh entry without a [products] field. *)
Definition no_products_world : World :=
  offline_world 4600 [(Basic.AmazonSellerScraper._get_cache_path scraper "S3", "basic-no-products")].

(** A cache entry whose [products] field is a number. *)
Definition odd_cache_world : World :=
  offline_world 4600 [(Basic.AmazonSellerScraper._get_cache_path scraper "S4", "basic-odd")].

Definition page (markup : string) : Response := mkResponse markup markup.

(** A GET answered with status 200 and the given markup. *)
Definition ok (markup : string) : HttpOutcome := HttpStatus 200 (page markup).

(** A GET answered with status 503. *)
Definition unavailable : HttpOutcome := HttpStatus 503 (page "Service Unavailable").

(** Only the second network call (the first page of the first pattern)
    succeeds; it brings the unhashable item. *)
Definition unhashable_world : World :=
  mkWorld (fun n _ _ => if Nat.eqb n 1 then ok unhashable_markup else HttpError)
          (fun _ _ => None) (fun _ => 0) 0 (fun _ => None) [] (fun _ => true).

(** The scenario of the specification: the name request fails, the first
    variant brings two items on page 1 (at the second attempt, after a 503)
    and an empty page 2, the second variant brings one item whose identifier
    was already seen. *)
Definition duplicate_world : World :=
  mkWorld (fun n _ attempt =>
             match n, attempt with
             | 1%nat, O => unavailable
             | 1%nat, _ => ok two_items_markup
             | 2%nat, _ => ok "<html></html>"
             | 3%nat, _ => ok duplicate_markup
             | _, _ => HttpError
             end)
          (fun _ _ => None) (fun _ => 0) 0 (fun _ => None) [] (fun _ => true).

Definition kettle : Enhanced.Product :=
  Enhanced.mkProduct (PStr "B000000001") "Kettle" None
                     "https://www.amazon.co.uk/dp/B000000001" "S1" "UK" "enhanced_amazon".

Definition toaster : Enhanced.Product :=
  Enhanced.mkProduct (PStr "B000000002") "Toaster" None
                     "https://www.amazon.co.uk/dp/B000000002" "S1" "UK" "enhanced_amazon".

(** The same for amazon_scraper, whose name resolution takes two network
    calls and whose pages end without a "Next" control. *)
Definition basic_duplicate_world : World :=
  mkWorld (fun n _ _ => match n with
                        | 2%nat => ok two_items_markup
                        | 3%nat => ok duplicate_markup
                        | _ => HttpStatus 403 (page "Forbidden")
                        end)
          (fun _ _ => None) (fun _ => 0) 0 (fun _ => None) [] (fun _ => true).

Definition basic_kettle : Basic.Product :=
  Basic.mkProduct "B000000001" "Kettle" "https://www.amazon.co.uk/dp/B000000001"
                  "Amazon CO.UK" "S1" "Unknown Seller" None.

Definition basic_toaster : Basic.Product :=
  Basic.mkProduct "B000000002" "Toaster" "https://www.amazon.co.uk/dp/B000000002"
                  "Amazon CO.UK" "S1" "Unknown Seller" None.

(** The first request brings one hundred copies of one item; every other
    request fails. *)
Definition hundred_world : World :=
  mkWorld (fun n _ _ => match n with
                        | O => ok hundred_markup
                        | _ => HttpError
                        end)
          (fun _ _ => None) (fun _ => 0) 0 (fun _ => None) [] (fun _ => true).

(** A one-hour-old entry of enhanced_amazon_scraper without a [products]
    field, on the network of [duplicate_world]. *)
Definition enhanced_bare_world : World :=
  mkWorld (w_http duplicate_world) (fun _ _ => None) (fun _ => 503600) 0
          (fun p => assoc p [(Enhanced.get_cache_path "S1" "co.uk", "enhanced-bare")]) []
          (fun _ => true).

(** An entry of amazon_scraper without a [products] field, stamped with an
    integer beyond the floats, on the network of [basic_duplicate_world]. *)
Definition basic_beyond_world : World :=
  mkWorld (w_http basic_duplicate_world) (fun _ _ => None) (fun _ => 1700000000) 0
          (fun p => assoc p [(Basic.AmazonSellerScraper._get_cache_path scraper "S1",
                              "basic-beyond")]) []
          (fun _ => true).

Definition first_pattern : Enhanced.url_pattern :=
  [ Enhanced.Lit "https://www.amazon."; Enhanced.FMarketplace;
    Enhanced.Lit "/s?i=merchant-items&me="; Enhanced.FSellerId;
    Enhanced.Lit "&page="; Enhanced.FPage ].

End Sample.

(** ** Sample data with a JSON and a date round trip *)

Module RoundTrip.

(** What the enhanced scraper stores for an empty product list at clock
    reading 1000. *)
Definition enhanced_doc : list (string * pyval) :=
  [("products", PList []); ("timestamp", PStr "T1000")].

(** What a failed scan of seller S1 stores at clock reading 1000. *)
Definition failed_scan_doc : list (string * pyval) :=
  [ ("seller_id", PStr "S1"); ("seller_name", PStr "Unknown Seller");
    ("products", PList []); ("marketplace", PStr "co.uk"); ("timestamp", PStr "T1000") ].

Definition basic_doc : list (string * pyval) :=
  [("products", PList [PDict [("asin", PStr "B000000001")]]); ("timestamp", PInt 1000)].

(** A toy serializer: a document is told by the number of its fields. *)
Definition dumps (prefix : string) (v : pyval) : string :=
  match v with
  | PDict d => prefix ++ str_of_int (Z.of_nat (List.length d))
  | _ => prefix
  end.

Definition loads (content : string) : option pyval :=
  if String.eqb content "doc2" then Some (PDict enhanced_doc)
  else if String.eqb content "doc5" then Some (PDict failed_scan_doc)
  else if String.eqb content "indented2" then Some (PDict basic_doc)
  else None.

Definition platform : Platform := {|
  BeautifulSoup := fun _ => Sample.empty_tag;
  json_loads := loads;
  json_dumps := dumps "doc";
  json_dumps_indent := dumps "indented";
  fromisoformat := fun s => if String.eqb s "T1000" then IsoNaive 1000 else IsoInvalid;
  isoformat := fun t => "T" ++ str_of_int t;
  str_upper := Sample.ascii_upper;
  container_repr := fun _ => "[...]";
  enhanced_cache_dir := Sample.cache_dir;
  basic_cache_dir := Sample.cache_dir
|}.

(** No network, no file; the clock reads 1000, then 2000, 3000, ... *)
Definition world : World :=
  mkWorld (fun _ _ _ => HttpError) (fun _ _ => None)
          (fun n => 1000 * (1 + Z.of_nat n)) 0 (fun _ => None) [] (fun _ => true).

(** The same with a clock that jumps two days between readings. *)
Definition slow_world : World :=
  mkWorld (fun _ _ _ => HttpError) (fun _ _ => None)
          (fun n => 1000 + 200000 * Z.of_nat n) 0 (fun _ => None) [] (fun _ => true).

(** The snapshot of amazon_scraper, found in the cache directory an hour
    after it was stamped. *)
Definition basic_file_world : World :=
  Sample.offline_world 4600 [("/srv/app/data/cache/S1_co.uk.json", "indented2")].

(** The same for the snapshot of enhanced_amazon_scraper. *)
Definition enhanced_file_world : World :=
  Sample.offline_world 4600 [("/srv/app/data/cache/S1_co.uk.json", "doc2")].

(** A seller identifier that names a directory which does not exist: its
    cache file cannot be opened for writing. *)
Definition unwritable_world : World :=
  mkWorld (fun _ _ _ => HttpError) (fun _ _ => None)
          (fun n => 1000 * (1 + Z.of_nat n)) 0 (fun _ => None) []
          (fun path => negb (String.eqb path "/srv/app/data/cache/no/dir_co.uk.json")).

End RoundTrip.

(** ** Sample proxies and a flaky network *)

Module Rotation.

Definition first_proxy : Basic.Proxy :=
  Basic.mkProxy "10.0.0.1" "8080" "GB" "http://10.0.0.1:8080".

Definition second_proxy : Basic.Proxy :=
  Basic.mkProxy "10.0.0.2" "3128" "DE" "http://10.0.0.2:3128".

Definition third_proxy : Basic.Proxy :=
  Basic.mkProxy "10.0.0.3" "8000" "FR" "http://10.0.0.3:8000".

(** Three proxies, the rotation standing at the third. *)
Definition state : Basic.AmazonSellerScraper.ProxyState :=
  Basic.AmazonSellerScraper.mkProxyState [first_proxy; second_proxy; third_proxy] 2.

End Rotation.

Module Flaky.

(** Every URL answers 503 twice, then 200 with the items page. *)
Definition world : World :=
  mkWorld (fun _ _ attempt => match attempt with
                              | O | 1%nat => Sample.unavailable
                              | _ => Sample.ok Sample.two_items_markup
                              end)
          (fun _ _ => None) (fun _ => 0) 0 (fun _ => None) [] (fun _ => true).

(** Every URL answers 503 four times, then 200. *)
Definition slow_world : World :=
  mkWorld (fun _ _ attempt => if Nat.ltb attempt 4 then Sample.unavailable
                              else Sample.ok Sample.two_items_markup)
          (fun _ _ => None) (fun _ => 0) 0 (fun _ => None) [] (fun _ => true).

End Flaky.

(** ** Sample cache entries with an odd [products] field *)

Module OddCache.

(** An entry whose [products] field is a number, and one without the
    field; neither carries a time stamp. *)
Definition platform : Platform := {|
  BeautifulSoup := fun _ => Sample.empty_tag;
  json_loads := fun content =>
                  if String.eqb content "odd" then Some (PDict [("products", PInt 3)])
                  else if String.eqb content "bare" then Some (PDict [("seller_id", PStr "S1")])
                  else None;
  json_dumps := fun _ => "{...}";
  json_dumps_indent := fun _ => "{ ... }";
  fromisoformat := fun s => if String.eqb s "2000-01-01T00:00:00" then IsoNaive 0 else IsoInvalid;
  isoformat := fun t => "T" ++ str_of_int t;
  str_upper := Sample.ascii_upper;
  container_repr := fun _ => "[...]";
  enhanced_cache_dir := Sample.cache_dir;
  basic_cache_dir := Sample.cache_dir
|}.

(** The clock reads 100 seconds; the file of seller S1 is the odd entry. *)
Definition world : World :=
  Sample.offline_world 100 [("/srv/app/data/cache/S1_co.uk.json", "odd")].

Definition bare_world : World :=
  Sample.offline_world 100 [("/srv/app/data/cache/S1_co.uk.json", "bare")].

End OddCache.

(** * Properties *)

(** ** Stepping through a computation *)

Lemma bind_ret_step {A B : Type} (m : M A) (k : A -> M B) (w w1 : World) (a : A) :
  m w = (Ret a, w1) -> bind m k w = k a w1.
Proof. intros E. unfold bind. rewrite E. reflexivity. Qed.

Lemma bind_raise_step {A B : Type} (m : M A) (k : A -> M B) (w w1 : World) (e : exn) :
  m w = (Raise e, w1) -> bind m k w = (Raise e, w1).
Proof. intros E. unfold bind. rewrite E. reflexivity. Qed.

Lemma try_except_ret {A : Type} (m : M A) (h : exn -> M A) (w w1 : World) (a : A) :
  m w = (Ret a, w1) -> try_except m h w = (Ret a, w1).
Proof. intros E. unfold try_except. rewrite E. reflexivity. Qed.

Lemma try_except_raise {A : Type} (m : M A) (h : exn -> M A) (w w1 : World) (e : exn) :
  m w = (Raise e, w1) -> try_except m h w = h e w1.
Proof. intros E. unfold try_except. rewrite E. reflexivity. Qed.

Lemma pair_of_fst_snd {A B : Type} (p : A * B) (a : A) (b : B) :
  fst p = a -> snd p = b -> p = (a, b).
Proof. destruct p; simpl; congruence. Qed.

(** ** Computations that stay off the network *)

Create HintDb quiet.

Lemma same_network_refl (w : World) : same_network w w.
Proof. repeat split. Qed.

Lemma same_network_trans (w w1 w2 : World) :
  same_network w w1 -> same_network w1 w2 -> same_network w w2.
Proof.
  intros (Hh & Hd & Hl & Hw) (Hh' & Hd' & Hl' & Hw'). repeat split; congruence.
Qed.

Lemma same_network_offline (w w0 : World) : same_network w w0 -> offline w -> offline w0.
Proof.
  intros (Hh & Hd & _) [Ho Ho']. split; intros; [rewrite Hh|rewrite Hd]; auto.
Qed.

Lemma quiet_ret {A : Type} (a : A) : quiet (ret a).
Proof. intros w. apply same_network_refl. Qed.

Lemma quiet_raise {A : Type} (e : exn) : quiet (@raise A e).
Proof. intros w. apply same_network_refl. Qed.

Lemma quiet_bind {A B : Type} (m : M A) (k : A -> M B) :
  quiet m -> (forall a, quiet (k a)) -> quiet (bind m k).
Proof.
  intros Hm Hk w. unfold bind. specialize (Hm w).
  destruct (m w) as [[a|e] w1]; simpl in Hm.
  - eapply same_network_trans; [exact Hm|apply Hk].
  - exact Hm.
Qed.

Lemma quiet_try_except {A : Type} (m : M A) (h : exn -> M A) :
  quiet m -> (forall e, quiet (h e)) -> quiet (try_except m h).
Proof.
  intros Hm Hh w. unfold try_except. specialize (Hm w).
  destruct (m w) as [[a|e] w1]; simpl in Hm.
  - exact Hm.
  - eapply same_network_trans; [exact Hm|apply Hh].
Qed.

Lemma quiet_clock_now : quiet clock_now.
Proof. intros w. repeat split. Qed.

Lemma quiet_path_exists (path : string) : quiet (path_exists path).
Proof. intros w. repeat split. Qed.

Lemma quiet_read_file (path : string) : quiet (read_file path).
Proof. intros w. unfold read_file. destruct (w_files w path); repeat split. Qed.

Lemma quiet_write_file (path content : string) : quiet (write_file path content).
Proof. intros w. unfold write_file. destruct (w_writable w path); repeat split. Qed.

Lemma quiet_py_len (v : pyval) : quiet (py_len v).
Proof. destruct v; simpl; auto using quiet_ret, quiet_raise. Qed.

Lemma quiet_py_get (v : pyval) (k : string) (default : pyval) : quiet (py_get v k default).
Proof. destruct v; simpl; auto using quiet_ret, quiet_raise. Qed.

Lemma quiet_py_in (k : string) (v : pyval) : quiet (py_in k v).
Proof. destruct v; simpl; auto using quiet_ret, quiet_raise. Qed.

Lemma quiet_py_getitem (v : pyval) (k : string) : quiet (py_getitem v k).
Proof.
  destruct v; simpl; auto using quiet_ret, quiet_raise.
  destruct (assoc k d); auto using quiet_ret, quiet_raise.
Qed.

Lemma quiet_py_number (v : pyval) : quiet (Basic.py_number v).
Proof.
  unfold Basic.py_number. destruct (as_number v) as [z|]; [|apply quiet_raise].
  destruct (fits_float z); auto using quiet_ret, quiet_raise.
Qed.

#[export] Hint Resolve quiet_ret quiet_raise quiet_clock_now quiet_path_exists quiet_read_file
  quiet_write_file quiet_py_len quiet_py_get quiet_py_in quiet_py_getitem quiet_py_number : quiet.

(** Splits a goal [quiet m] along the structure of [m]. *)
Ltac quiet_step :=
  match goal with
  | |- quiet (bind _ _) => apply quiet_bind; [|intros ?]
  | |- quiet (try_except _ _) => apply quiet_try_except; [|intros ?]
  | |- quiet (if ?b then _ else _) => destruct b
  | |- quiet (match ?x with Some _ => _ | None => _ end) => destruct x
  | |- quiet (match ?x with IsoInvalid => _ | IsoAware => _ | IsoNaive _ => _ end) => destruct x
  | |- quiet (match ?x with PStr _ => _ | _ => _ end) => destruct x
  | |- quiet _ => solve [auto with quiet]
  end.

Section QuietCache.
Context `{Platform}.

Lemma quiet_enhanced_get_from_cache (seller_id marketplace : string) (max_age_hours : Z) :
  quiet (Enhanced.get_from_cache seller_id marketplace max_age_hours).
Proof.
  unfold Enhanced.get_from_cache, Enhanced.datetime_fromisoformat, Enhanced.datetime_since,
    Enhanced.timedelta_hours.
  cbv zeta. repeat quiet_step.
Qed.

Lemma quiet_enhanced_cached_inventory (seller_id marketplace : string) :
  quiet (Enhanced.cached_inventory seller_id marketplace).
Proof.
  unfold Enhanced.cached_inventory.
  apply quiet_bind; [apply quiet_enhanced_get_from_cache|intros cache_data].
  repeat quiet_step.
Qed.

Lemma quiet_basic_get_from_cache (self : Basic.AmazonSellerScraper.Scraper) (seller_id : string) :
  quiet (Basic.AmazonSellerScraper._get_from_cache self seller_id).
Proof.
  unfold Basic.AmazonSellerScraper._get_from_cache. cbv zeta. repeat quiet_step.
Qed.

Lemma quiet_basic_cached_products (self : Basic.AmazonSellerScraper.Scraper) (seller_id : string) :
  quiet (Basic.AmazonSellerScraper.cached_products self seller_id).
Proof.
  unfold Basic.AmazonSellerScraper.cached_products.
  apply quiet_bind; [apply quiet_basic_get_from_cache|intros cache_data].
  repeat quiet_step.
Qed.

End QuietCache.


Section SnapshotCache.
Context `{Platform}.

(** ** Snapshot cache *)

Lemma enhanced_get_from_cache_spec (seller_id marketplace : string) (max_age_hours : Z) (w : World) :
  fst (Enhanced.get_from_cache seller_id marketplace max_age_hours w)
  = Ret (if Enhanced.window_hours_ok max_age_hours
         then lookup_spec enhanced_entry_time (fun age => age >? max_age_hours * 3600)
                          (w_files w (Enhanced.get_cache_path seller_id marketplace))
                          (w_clock w (w_ticks w))
         else None).
Proof.
  unfold Enhanced.get_from_cache, Enhanced.timedelta_hours, lookup_spec, parse_entry, bind,
    path_exists, try_except, read_file.
  cbv zeta.
  destruct (Enhanced.window_hours_ok max_age_hours) eqn:Hwindow;
    (destruct (w_files w _) as [content|] eqn:Hfile; simpl; [rewrite Hfile; simpl|reflexivity]);
    (destruct (json_loads content) as [v|]; simpl; [|reflexivity]);
    unfold ret, raise;
    (destruct v as [| | | |l|d]; simpl; try reflexivity);
    (destruct (assoc "timestamp" d) as [x|]; simpl;
     [destruct x; simpl; try reflexivity|]);
    (destruct (fromisoformat _); simpl; try reflexivity);
    destruct (_ >? _); reflexivity.
Qed.

(** The window of the scan, twelve hours, is one [timedelta] accepts. *)
Lemma enhanced_lookup_twelve_hours (seller_id marketplace : string) (w : World) :
  fst (Enhanced.get_from_cache seller_id marketplace 12 w)
  = Ret (lookup_spec enhanced_entry_time (fun age => age >? 12 * 3600)
                     (w_files w (Enhanced.get_cache_path seller_id marketplace))
                     (w_clock w (w_ticks w))).
Proof. rewrite enhanced_get_from_cache_spec. reflexivity. Qed.

Lemma basic_get_from_cache_spec (self : Basic.AmazonSellerScraper.Scraper) (seller_id : string) (w : World) :
  fst (Basic.AmazonSellerScraper._get_from_cache self seller_id w)
  = Ret (lookup_spec basic_entry_time (fun age => negb (age <? 86400))
                     (w_files w (Basic.AmazonSellerScraper._get_cache_path self seller_id))
                     (w_clock w (w_ticks w))).
Proof.
  unfold Basic.AmazonSellerScraper._get_from_cache, lookup_spec, parse_entry, bind, path_exists,
    try_except, read_file.
  cbv zeta.
  destruct (w_files w _) as [content|] eqn:Hfile; simpl; [rewrite Hfile; simpl|reflexivity].
  destruct (json_loads content) as [v|]; simpl; [|reflexivity].
  unfold ret, raise.
  destruct v as [| | | |l|d]; simpl; try reflexivity.
  unfold Basic.py_number, ret, raise.
  destruct (assoc "timestamp" d) as [x|]; simpl.
  - destruct (as_number x) as [z|]; simpl; [|reflexivity].
    destruct (fits_float z); simpl; [|reflexivity].
    destruct (_ <? _); reflexivity.
  - change (fits_float 0) with true. cbv iota. simpl.
    destruct (_ <? _); reflexivity.
Qed.

(** A fresh entry with a product list: the cache branch of the enhanced
    scan answers with that list. *)
Lemma enhanced_cached_inventory_hit (seller_id marketplace : string) (w : World)
    (content : string) (d : list (string * pyval)) (t : Z) (ps : list pyval) :
  w_files w (Enhanced.get_cache_path seller_id marketplace) = Some content ->
  json_loads content = Some (PDict d) ->
  enhanced_entry_time (PDict d) = Some t ->
  w_clock w (w_ticks w) - t <= 12 * 3600 ->
  assoc "products" d = Some (PList ps) ->
  exists seller_name w',
    Enhanced.cached_inventory seller_id marketplace w = (Ret (Some (PList ps, seller_name)), w')
    /\ w_log w' = w_log w.
Proof.
  intros Hfile Hjson Htime Hage Hps.
  pose proof (enhanced_lookup_twelve_hours seller_id marketplace w) as Hspec.
  destruct (quiet_enhanced_get_from_cache seller_id marketplace 12 w) as (_ & _ & Hlog & _).
  unfold lookup_spec, parse_entry in Hspec.
  rewrite Hfile, Hjson, Htime in Hspec.
  replace (w_clock w (w_ticks w) - t >? 12 * 3600) with false in Hspec
    by (symmetry; rewrite Z.gtb_ltb; apply Z.ltb_ge; lia).
  destruct (Enhanced.get_from_cache seller_id marketplace 12 w) as [o w1] eqn:Hget.
  simpl in Hspec, Hlog. subst o.
  unfold Enhanced.cached_inventory.
  rewrite (bind_ret_step _ _ _ _ _ Hget).
  assert (Htruthy : truthy (PDict d) = true).
  { destruct d; [discriminate|reflexivity]. }
  rewrite Htruthy. simpl.
  unfold bind, py_in, py_getitem, py_get, py_len, ret. rewrite Hps. simpl.
  eexists. eexists. split; [reflexivity|exact Hlog].
Qed.

(** The same for the cache branch of [AmazonSellerScraper.get_seller_products]:
    a fresh, non-empty entry answers with its [products] field, and with the
    empty list when it has none. *)
Lemma basic_cached_products_hit (self : Basic.AmazonSellerScraper.Scraper) (seller_id : string)
    (w : World) (content : string) (d : list (string * pyval)) (t : Z) :
  w_files w (Basic.AmazonSellerScraper._get_cache_path self seller_id) = Some content ->
  json_loads content = Some (PDict d) ->
  d <> [] ->
  basic_entry_time (PDict d) = Some t ->
  w_clock w (w_ticks w) - t < 86400 ->
  (forall v, assoc "products" d = Some v -> exists ps, v = PList ps) ->
  exists w',
    Basic.AmazonSellerScraper.cached_products self seller_id w
    = (Ret (Some (match assoc "products" d with Some v => v | None => PList [] end)), w')
    /\ w_log w' = w_log w.
Proof.
  intros Hfile Hjson Hne Htime Hage Hps.
  pose proof (basic_get_from_cache_spec self seller_id w) as Hspec.
  destruct (quiet_basic_get_from_cache self seller_id w) as (_ & _ & Hlog & _).
  unfold lookup_spec, parse_entry in Hspec.
  rewrite Hfile, Hjson, Htime in Hspec.
  replace (w_clock w (w_ticks w) - t <? 86400) with true in Hspec
    by (symmetry; apply Z.ltb_lt; lia).
  destruct (Basic.AmazonSellerScraper._get_from_cache self seller_id w) as [o w1] eqn:Hget.
  simpl in Hspec, Hlog. subst o.
  unfold Basic.AmazonSellerScraper.cached_products.
  rewrite (bind_ret_step _ _ _ _ _ Hget).
  assert (Htruthy : truthy (PDict d) = true).
  { destruct d; [contradiction|reflexivity]. }
  rewrite Htruthy.
  unfold bind, py_get, py_len, ret.
  destruct (assoc "products" d) as [v|].
  - destruct (Hps v eq_refl) as [ps ->]. simpl.
    eexists. split; [reflexivity|exact Hlog].
  - simpl. eexists. split; [reflexivity|exact Hlog].
Qed.

(** C3, as amended.  A fresh cache entry that holds its products as a list
    is served as it is and the network stays untouched: with
    [force_refresh = false], [get_seller_products] of either module returns
    exactly the stored product sequence and logs no fetch.  Fresh means that
    the entry parses, that its time stamp is one the age computation accepts,
    and that its age is within the window.  (In amazon_scraper the
    constructor reads the clock once before the lookup does.) *)
Theorem fresh_cache_served_without_fetch :
  (forall (seller_id marketplace : string) (w : World)
          (content : string) (d : list (string * pyval)) (t : Z) (ps : list pyval),
      w_files w (Enhanced.get_cache_path seller_id marketplace) = Some content ->
      json_loads content = Some (PDict d) ->
      enhanced_entry_time (PDict d) = Some t ->
      w_clock w (w_ticks w) - t <= 12 * 3600 ->
      assoc "products" d = Some (PList ps) ->
      fst (Enhanced.get_seller_products seller_id marketplace false w) = Ret (PList ps)
      /\ w_log (snd (Enhanced.get_seller_products seller_id marketplace false w)) = w_log w)
  /\
  (forall (seller_id marketplace : string) (w : World)
          (content : string) (d : list (string * pyval)) (t : Z) (ps : list pyval),
      w_files w (path_join basic_cache_dir (seller_id ++ "_" ++ marketplace ++ ".json"))
        = Some content ->
      json_loads content = Some (PDict d) ->
      basic_entry_time (PDict d) = Some t ->
      w_clock w (S (w_ticks w)) - t < 86400 ->
      assoc "products" d = Some (PList ps) ->
      fst (Basic.get_seller_products seller_id marketplace false w) = Ret (PList ps)
      /\ w_log (snd (Basic.get_seller_products seller_id marketplace false w)) = w_log w).
Proof.
  split.
  - intros seller_id marketplace w content d t ps Hfile Hjson Htime Hage Hps.
    destruct (enhanced_cached_inventory_hit _ _ _ _ _ _ _ Hfile Hjson Htime Hage Hps)
      as (seller_name & w' & Hhit & Hlog).
    unfold Enhanced.get_seller_products, Enhanced.scan_seller_inventory, try_except.
    simpl negb. cbv iota.
    rewrite (bind_ret_step _ _ _ _ _ (bind_ret_step _ _ _ _ _ Hhit)).
    simpl. auto.
  - intros seller_id marketplace w content d t ps Hfile Hjson Htime Hage Hps.
    set (w0 := snd (clock_now w)).
    set (self := Basic.AmazonSellerScraper.mkScraper
                   marketplace ("https://www.amazon." ++ marketplace) 3).
    assert (Hps' : forall v, assoc "products" d = Some v -> exists l, v = PList l).
    { intros v Hv. rewrite Hps in Hv. inversion Hv. eauto. }
    assert (Hne : d <> []) by (intros ->; discriminate).
    destruct (basic_cached_products_hit self seller_id w0 content d t Hfile Hjson Hne Htime Hage Hps')
      as (w' & Hhit & Hlog).
    rewrite Hps in Hhit.
    assert (Hinit : Basic.AmazonSellerScraper.init marketplace w = (Ret self, w0)) by reflexivity.
    assert (Htop : Basic.get_seller_products seller_id marketplace false w = (Ret (PList ps), w')).
    { unfold Basic.get_seller_products. apply try_except_ret.
      rewrite (bind_ret_step _ _ _ _ _ Hinit).
      unfold Basic.AmazonSellerScraper.get_seller_products.
      simpl negb. cbv iota.
      rewrite (bind_ret_step _ _ _ _ _ Hhit). reflexivity. }
    rewrite Htop. split; [reflexivity|exact Hlog].
Qed.

(** C10, as amended.  In amazon_scraper, a fresh entry that carries no
    [products] field (a non-empty JSON object, stamped with a time the age
    computation accepts, younger than 24 hours) ends the call at once: the
    method returns the empty list and logs no fetch. *)
Theorem basic_fresh_entry_without_products_returns_empty
    (self : Basic.AmazonSellerScraper.Scraper) (seller_id : string) (w : World)
    (content : string) (d : list (string * pyval)) (t : Z) :
  w_files w (Basic.AmazonSellerScraper._get_cache_path self seller_id) = Some content ->
  json_loads content = Some (PDict d) ->
  d <> [] ->
  basic_entry_time (PDict d) = Some t ->
  w_clock w (w_ticks w) - t < 86400 ->
  assoc "products" d = None ->
  fst (Basic.AmazonSellerScraper.get_seller_products self seller_id false w) = Ret (PList [])
  /\ w_log (snd (Basic.AmazonSellerScraper.get_seller_products self seller_id false w)) = w_log w.
Proof.
  intros Hfile Hjson Hne Htime Hage Hnone.
  assert (Hps : forall v, assoc "products" d = Some v -> exists l, v = PList l).
  { intros v Hv. rewrite Hnone in Hv. discriminate. }
  destruct (basic_cached_products_hit self seller_id w content d t Hfile Hjson Hne Htime Hage Hps)
    as (w' & Hhit & Hlog).
  rewrite Hnone in Hhit.
  unfold Basic.AmazonSellerScraper.get_seller_products.
  simpl negb. cbv iota.
  rewrite (bind_ret_step _ _ _ _ _ Hhit). simpl. auto.
Qed.

(** C5, as amended.  The lookup of either module never raises and answers
    as the specification's lookup does: nothing when the entry is absent,
    when it does not parse (it is no JSON, or its time stamp is none that the
    age computation accepts: no ISO date of a naive time in
    enhanced_amazon_scraper; no number, or an integer beyond the floats, in
    amazon_scraper), or when it is too old, and the stored snapshot
    unchanged otherwise.  Too old means older than [max_age_hours] in
    enhanced_amazon_scraper, and not younger than 24 hours in
    amazon_scraper.  A window that is no valid [timedelta] makes every
    lookup of enhanced_amazon_scraper answer nothing. *)
Theorem cache_lookup_outcome :
  (forall (seller_id marketplace : string) (max_age_hours : Z) (w : World),
      fst (Enhanced.get_from_cache seller_id marketplace max_age_hours w)
      = Ret (if Enhanced.window_hours_ok max_age_hours
             then lookup_spec enhanced_entry_time (fun age => age >? max_age_hours * 3600)
                              (w_files w (Enhanced.get_cache_path seller_id marketplace))
                              (w_clock w (w_ticks w))
             else None))
  /\
  (forall (self : Basic.AmazonSellerScraper.Scraper) (seller_id : string) (w : World),
      fst (Basic.AmazonSellerScraper._get_from_cache self seller_id w)
      = Ret (lookup_spec basic_entry_time (fun age => negb (age <? 86400))
                         (w_files w (Basic.AmazonSellerScraper._get_cache_path self seller_id))
                         (w_clock w (w_ticks w)))).
Proof.
  split.
  - exact enhanced_get_from_cache_spec.
  - exact basic_get_from_cache_spec.
Qed.

End SnapshotCache.

(** C5, as stated, fails in amazon_scraper at the boundary: an entry that
    exists, parses, and is exactly 24 hours old does not exceed the window,
    yet the lookup answers nothing. *)
Lemma basic_lookup_drops_entry_exactly_one_window_old :
  w_files Sample.boundary_world
          (Basic.AmazonSellerScraper._get_cache_path Sample.scraper "S2") = Some "basic-five"
  /\ (exists v, parse_entry basic_entry_time "basic-five" = Some (v, 1000))
  /\ (w_clock Sample.boundary_world (w_ticks Sample.boundary_world) - 1000 >? 86400) = false
  /\ fst (Basic.AmazonSellerScraper._get_from_cache Sample.scraper "S2" Sample.boundary_world)
     = Ret None
  /\ fst (Basic.AmazonSellerScraper._get_from_cache Sample.scraper "S2" Sample.boundary_world)
     <> Ret (lookup_spec basic_entry_time (fun age => age >? 86400)
                         (w_files Sample.boundary_world
                                  (Basic.AmazonSellerScraper._get_cache_path Sample.scraper "S2"))
                         (w_clock Sample.boundary_world (w_ticks Sample.boundary_world))).
Proof.
  split; [reflexivity|].
  split; [eexists; reflexivity|].
  split; [reflexivity|].
  split; [reflexivity|].
  vm_compute. discriminate.
Qed.

(** At the same boundary enhanced_amazon_scraper still serves its entry. *)
Example enhanced_lookup_serves_entry_exactly_one_window_old :
  exists v,
    parse_entry enhanced_entry_time "enhanced-five" = Some (v, 500000)
    /\ w_clock Sample.enhanced_boundary_world (w_ticks Sample.enhanced_boundary_world) - 500000
       = 12 * 3600
    /\ fst (Enhanced.get_from_cache "S2" "co.uk" 12 Sample.enhanced_boundary_world) = Ret (Some v).
Proof. eexists. repeat split. Qed.

(** C3, as stated, fails in enhanced_amazon_scraper for a fresh entry
    that carries no [products] field.  The entry exists, parses and is one
    hour old, and the lookup serves it; yet the call runs the scan: it calls
    the fetcher 18 times and returns what the pages bring. *)
Lemma enhanced_fresh_entry_without_products_is_scanned :
  w_files Sample.enhanced_bare_world (Enhanced.get_cache_path "S1" "co.uk")
  = Some "enhanced-bare"
  /\ parse_entry enhanced_entry_time "enhanced-bare" = Some (Sample.bare_entry, 500000)
  /\ w_clock Sample.enhanced_bare_world (w_ticks Sample.enhanced_bare_world) - 500000 = 3600
  /\ fst (Enhanced.get_from_cache "S1" "co.uk" 12 Sample.enhanced_bare_world)
     = Ret (Some Sample.bare_entry)
  /\ w_log Sample.enhanced_bare_world = []
  /\ fst (Enhanced.get_seller_products "S1" "co.uk" false Sample.enhanced_bare_world)
     = Ret (PList [Enhanced.product_dict Sample.kettle; Enhanced.product_dict Sample.toaster])
  /\ List.length
       (w_log (snd (Enhanced.get_seller_products "S1" "co.uk" false Sample.enhanced_bare_world)))
     = 18%nat.
Proof. repeat split; vm_compute; reflexivity. Qed.

(** C10, as stated, fails for an entry whose time stamp is an integer
    beyond the floats.  The entry exists, parses, carries no [products]
    field, and the clock minus its stamp is below 24 hours; but the age
    computation overflows, the lookup answers nothing, and the call runs the
    scan: it makes 16 network calls and returns what the pages bring. *)
Lemma basic_entry_stamped_beyond_the_floats_is_scanned :
  w_files Sample.basic_beyond_world
          (Basic.AmazonSellerScraper._get_cache_path Sample.scraper "S1") = Some "basic-beyond"
  /\ json_loads "basic-beyond"
     = Some (PDict [("seller_id", PStr "S1"); ("timestamp", PInt (10 ^ 400))])
  /\ (w_clock Sample.basic_beyond_world (w_ticks Sample.basic_beyond_world) - 10 ^ 400 <? 86400)
     = true
  /\ fst (Basic.AmazonSellerScraper._get_from_cache Sample.scraper "S1" Sample.basic_beyond_world)
     = Ret None
  /\ w_log Sample.basic_beyond_world = []
  /\ fst (Basic.AmazonSellerScraper.get_seller_products Sample.scraper "S1" false
                                                        Sample.basic_beyond_world)
     = Ret (PList [Basic.product_dict Sample.basic_kettle; Basic.product_dict Sample.basic_toaster])
  /\ List.length
       (w_log (snd (Basic.AmazonSellerScraper.get_seller_products Sample.scraper "S1" false
                                                                  Sample.basic_beyond_world)))
     = 16%nat.
Proof. repeat split; vm_compute; reflexivity. Qed.

Lemma fresh_cache_served_without_fetch_witness :
  (fst (Enhanced.get_seller_products "S2" "co.uk" false Sample.enhanced_cached_world)
   = Ret (PList Sample.five_products)
   /\ w_log (snd (Enhanced.get_seller_products "S2" "co.uk" false Sample.enhanced_cached_world))
      = w_log Sample.enhanced_cached_world)
  /\
  (fst (Basic.get_seller_products "S2" "co.uk" false Sample.basic_cached_world)
   = Ret (PList Sample.five_products)
   /\ w_log (snd (Basic.get_seller_products "S2" "co.uk" false Sample.basic_cached_world))
      = w_log Sample.basic_cached_world).
Proof.
  split.
  - apply (proj1 (@fresh_cache_served_without_fetch Sample.platform)
             "S2" "co.uk" Sample.enhanced_cached_world "enhanced-five"
             [("seller_id", PStr "S2"); ("seller_name", PStr "Shop Two");
              ("products", PList Sample.five_products); ("marketplace", PStr "co.uk");
              ("timestamp", PStr "2024-05-01T10:00:00")]
             500000 Sample.five_products).
    + reflexivity.
    + reflexivity.
    + reflexivity.
    + simpl. lia.
    + reflexivity.
  - apply (proj2 (@fresh_cache_served_without_fetch Sample.platform)
             "S2" "co.uk" Sample.basic_cached_world "basic-five"
             [("seller_id", PStr "S2"); ("seller_name", PStr "Shop Two");
              ("products", PList Sample.five_products); ("product_count", PInt 5);
              ("timestamp", PInt 1000)]
             1000 Sample.five_products).
    + reflexivity.
    + reflexivity.
    + reflexivity.
    + simpl. lia.
    + reflexivity.
Defined.

Lemma basic_fresh_entry_without_products_witness :
  fst (Basic.AmazonSellerScraper.get_seller_products Sample.scraper "S3" false Sample.no_products_world)
  = Ret (PList [])
  /\ w_log (snd (Basic.AmazonSellerScraper.get_seller_products Sample.scraper "S3" false
                   Sample.no_products_world))
     = w_log Sample.no_products_world.
Proof.
  apply (@basic_fresh_entry_without_products_returns_empty Sample.platform
           Sample.scraper "S3" Sample.no_products_world "basic-no-products"
           [("seller_id", PStr "S3"); ("timestamp", PInt 1000)] 1000).
  - reflexivity.
  - reflexivity.
  - discriminate.
  - reflexivity.
  - simpl. lia.
  - reflexivity.
Defined.

(** ** The top-level entry points *)

Section EntryPoints.
Context `{Platform}.

Lemma bind_ret_inv {A B : Type} (m : M A) (k : A -> M B) (w w' : World) (b : B) :
  bind m k w = (Ret b, w') ->
  exists a w1, m w = (Ret a, w1) /\ k a w1 = (Ret b, w').
Proof.
  unfold bind. destruct (m w) as [[a|e] w1]; intros E.
  - exists a, w1. auto.
  - discriminate.
Qed.

(** What the enhanced scan returns as its product sequence has a length. *)
Lemma enhanced_scan_result_sized (seller_id marketplace : string) (force_refresh : bool)
    (w w' : World) (products seller_name : pyval) :
  Enhanced.scan_seller_inventory seller_id marketplace force_refresh w
  = (Ret (products, seller_name), w') ->
  exists n, forall w0, py_len products w0 = (Ret n, w0).
Proof.
  unfold Enhanced.scan_seller_inventory. intros E.
  apply bind_ret_inv in E. destruct E as (hit & w1 & Ehit & Ek).
  destruct hit as [result|].
  - inversion Ek; subst. destruct force_refresh; simpl in Ehit; [discriminate|].
    unfold Enhanced.cached_inventory in Ehit.
    apply bind_ret_inv in Ehit. destruct Ehit as (cd & w2 & _ & Ecd).
    destruct cd as [cache_data|]; [|discriminate].
    destruct (truthy cache_data); simpl in Ecd; [|discriminate].
    apply bind_ret_inv in Ecd. destruct Ecd as (hp & w3 & _ & Ecd).
    destruct hp; [|discriminate].
    apply bind_ret_inv in Ecd. destruct Ecd as (ps & w4 & _ & Ecd).
    apply bind_ret_inv in Ecd. destruct Ecd as (nm & w5 & _ & Ecd).
    apply bind_ret_inv in Ecd. destruct Ecd as (n & w6 & Elen & Ecd).
    inversion Ecd; subst.
    exists n. intros w0.
    destruct products; simpl in Elen |- *; try discriminate; unfold ret in *; congruence.
  - unfold Enhanced.fresh_scan in Ek.
    apply bind_ret_inv in Ek. destruct Ek as (found & w2 & _ & Ek).
    apply bind_ret_inv in Ek. destruct Ek as (all_products & w3 & _ & Ek).
    apply bind_ret_inv in Ek. destruct Ek as (u & w4 & _ & Ek).
    inversion Ek; subst. eexists. intros w0. reflexivity.
Qed.

(** C2.  The top-level [get_seller_products] of either module never raises:
    it returns what the scan returns, and the empty list when the scan
    raises. *)
Theorem get_seller_products_never_raises :
  (forall (seller_id marketplace : string) (force_refresh : bool) (w : World),
      fst (Enhanced.get_seller_products seller_id marketplace force_refresh w)
      = Ret (match fst (Enhanced.scan_seller_inventory seller_id marketplace force_refresh w) with
             | Ret (products, _) => products
             | Raise _ => PList []
             end))
  /\
  (forall (seller_id marketplace : string) (force_refresh : bool) (w : World),
      fst (Basic.get_seller_products seller_id marketplace force_refresh w)
      = Ret (match fst (Basic.AmazonSellerScraper.get_seller_products
                          (Basic.AmazonSellerScraper.mkScraper
                             marketplace ("https://www.amazon." ++ marketplace) 3)
                          seller_id force_refresh (snd (clock_now w))) with
             | Ret products => products
             | Raise _ => PList []
             end)).
Proof.
  split.
  - intros seller_id marketplace force_refresh w.
    unfold Enhanced.get_seller_products.
    destruct (Enhanced.scan_seller_inventory seller_id marketplace force_refresh w)
      as [[[products seller_name]|e] w1] eqn:Escan.
    + destruct (enhanced_scan_result_sized _ _ _ _ _ _ _ Escan) as [n Hn].
      unfold try_except.
      rewrite (bind_ret_step _ _ _ _ _ Escan).
      rewrite (bind_ret_step _ _ _ _ _ (Hn w1)). reflexivity.
    + unfold try_except.
      rewrite (bind_raise_step _ _ _ _ _ Escan). reflexivity.
  - intros seller_id marketplace force_refresh w.
    unfold Basic.get_seller_products, try_except.
    assert (Hinit : Basic.AmazonSellerScraper.init marketplace w
                    = (Ret (Basic.AmazonSellerScraper.mkScraper
                              marketplace ("https://www.amazon." ++ marketplace) 3),
                       snd (clock_now w))) by reflexivity.
    rewrite (bind_ret_step _ _ _ _ _ Hinit).
    destruct (Basic.AmazonSellerScraper.get_seller_products _ seller_id force_refresh _)
      as [[products|e] w1]; reflexivity.
Qed.

End EntryPoints.

(** The scan can indeed raise: an element whose identifier comes from its
    component properties as a JSON list is not hashable.  The entry point
    answers with the empty list. *)
Example enhanced_scan_raises_entry_point_does_not :
  fst (Enhanced.scan_seller_inventory "S1" "co.uk" true Sample.unhashable_world) = Raise TypeError
  /\ fst (Enhanced.get_seller_products "S1" "co.uk" true Sample.unhashable_world) = Ret (PList []).
Proof. split; vm_compute; reflexivity. Qed.

(** So can the cache branch of amazon_scraper: a stored [products] field
    that is a number has no length. *)
Example basic_scan_raises_entry_point_does_not :
  fst (Basic.AmazonSellerScraper.get_seller_products Sample.scraper "S4" false Sample.odd_cache_world)
  = Raise TypeError
  /\ fst (Basic.get_seller_products "S4" "co.uk" false Sample.odd_cache_world) = Ret (PList []).
Proof. split; vm_compute; reflexivity. Qed.

(** ** First-seen deduplication *)

Section FirstSeenFacts.
Variable R : Type.
Variable same : R -> R -> bool.
Hypothesis same_sym : forall a b, same a b = same b a.
Hypothesis same_trans : forall a b c, same a b = true -> same b c = true -> same a c = true.

Lemma filter_andb (f g : R -> bool) (l : list R) :
  filter (fun q => f q && g q) l = filter f (filter g l).
Proof.
  induction l as [|x l IH]; simpl; [reflexivity|].
  destruct (g x); simpl.
  - destruct (f x); simpl; rewrite IH; reflexivity.
  - rewrite andb_false_r. exact IH.
Qed.

Lemma filter_all (f : R -> bool) (l : list R) :
  (forall q, In q l -> f q = true) -> filter f l = l.
Proof.
  induction l as [|x l IH]; simpl; intros Hall; [reflexivity|].
  rewrite (Hall x (or_introl eq_refl)). f_equal. apply IH. auto.
Qed.

(** The insertion loop computes the first-seen list of what it is fed,
    after what it already holds. *)
Lemma fold_insert_new (l : list R) :
  forall acc : list R,
    fold_left (insert_new same) l acc
    = (acc ++ filter (fun q => negb (existsb (same q) acc)) (first_seen same l))%list.
Proof.
  induction l as [|p rest IH]; intros acc; simpl.
  - rewrite app_nil_r. reflexivity.
  - unfold insert_new at 2.
    destruct (existsb (same p) acc) eqn:Ep; simpl.
    + rewrite IH. f_equal.
      rewrite <- filter_andb. apply filter_ext. intros q.
      destruct (existsb (same q) acc) eqn:Eq; simpl; [reflexivity|].
      destruct (same p q) eqn:Epq; [|reflexivity].
      exfalso.
      apply existsb_exists in Ep. destruct Ep as (x & Hx & Hpx).
      assert (Hqx : same q x = true).
      { apply (same_trans q p x); [rewrite same_sym; exact Epq|exact Hpx]. }
      assert (Hex : existsb (same q) acc = true) by (apply existsb_exists; eauto).
      congruence.
    + rewrite IH, <- app_assoc. simpl. f_equal. f_equal.
      rewrite <- filter_andb. apply filter_ext. intros q.
      rewrite existsb_app. simpl. rewrite orb_false_r, negb_orb.
      rewrite (same_sym q p). reflexivity.
Qed.

Lemma fold_insert_new_nil (l : list R) :
  fold_left (insert_new same) l [] = first_seen same l.
Proof.
  rewrite fold_insert_new. simpl. apply filter_all. reflexivity.
Qed.

Lemma distinct_filter (f : R -> bool) (l : list R) :
  distinct same l -> distinct same (filter f l).
Proof.
  induction l as [|x l IH]; simpl; [auto|].
  intros [Hx Hl]. destruct (f x); simpl.
  - split; [|auto]. intros q Hq. apply filter_In in Hq. apply Hx. tauto.
  - auto.
Qed.

(** The first-seen list holds no identifier twice. *)
Lemma first_seen_distinct (l : list R) : distinct same (first_seen same l).
Proof.
  induction l as [|p rest IH]; simpl; [exact I|].
  split.
  - intros q Hq. apply filter_In in Hq. destruct Hq as [_ Hq].
    destruct (same p q); [discriminate|reflexivity].
  - apply distinct_filter. exact IH.
Qed.

Lemma first_seen_of_distinct (l : list R) : distinct same l -> first_seen same l = l.
Proof.
  induction l as [|p rest IH]; simpl; [reflexivity|].
  intros [Hp Hrest]. rewrite (IH Hrest). f_equal.
  apply filter_all. intros q Hq. rewrite (Hp q Hq). reflexivity.
Qed.

(** Feeding the loop a first-seen list, or the list itself, is the same. *)
Lemma fold_insert_new_first_seen (l acc : list R) :
  fold_left (insert_new same) (first_seen same l) acc = fold_left (insert_new same) l acc.
Proof.
  rewrite !fold_insert_new.
  rewrite (first_seen_of_distinct _ (first_seen_distinct l)). reflexivity.
Qed.

(** Every record kept is one that was met, and every identifier met is
    kept. *)
Lemma first_seen_incl (l : list R) (q : R) : In q (first_seen same l) -> In q l.
Proof.
  induction l as [|p rest IH]; simpl; [auto|].
  intros [Hq|Hq]; [auto|]. apply filter_In in Hq. right. apply IH. tauto.
Qed.

End FirstSeenFacts.

Lemma key_eqb_sym (a b : pyval) : key_eqb a b = key_eqb b a.
Proof.
  destruct a, b; simpl; try reflexivity.
  - destruct b, b0; reflexivity.
  - apply Z.eqb_sym.
  - apply Z.eqb_sym.
  - apply Z.eqb_sym.
  - apply String.eqb_sym.
Qed.

Lemma key_eqb_trans (a b c : pyval) :
  key_eqb a b = true -> key_eqb b c = true -> key_eqb a c = true.
Proof.
  destruct a, b; simpl; try discriminate; destruct c; simpl; try discriminate;
    rewrite ?Z.eqb_eq, ?String.eqb_eq, ?Bool.eqb_true_iff; try congruence;
    repeat match goal with b : bool |- _ => destruct b end; lia.
Qed.

Lemma enhanced_same_asin_sym (p q : Enhanced.Product) :
  enhanced_same_asin p q = enhanced_same_asin q p.
Proof. apply key_eqb_sym. Qed.

Lemma enhanced_same_asin_trans (p q r : Enhanced.Product) :
  enhanced_same_asin p q = true -> enhanced_same_asin q r = true -> enhanced_same_asin p r = true.
Proof. apply key_eqb_trans. Qed.

Lemma basic_same_asin_sym (p q : Basic.Product) : basic_same_asin p q = basic_same_asin q p.
Proof. apply String.eqb_sym. Qed.

Lemma basic_same_asin_trans (p q r : Basic.Product) :
  basic_same_asin p q = true -> basic_same_asin q r = true -> basic_same_asin p r = true.
Proof. unfold basic_same_asin. rewrite !String.eqb_eq. congruence. Qed.

(** ** The enhanced walker *)

Section EnhancedWalk.
Context `{Platform}.

Lemma extend_nil (w : World) : extend w [] = w.
Proof. destruct w. unfold extend. simpl. rewrite app_nil_r. reflexivity. Qed.

Lemma extend_extend (w : World) (a b : list Event) :
  extend (extend w a) b = extend w (a ++ b).
Proof. unfold extend. simpl. rewrite app_assoc. reflexivity. Qed.

Lemma record_event_extend (ev : Event) (w : World) : record_event ev w = extend w [ev].
Proof. reflexivity. Qed.

Lemma offline_extend (w : World) (evs : list Event) : offline w -> offline (extend w evs).
Proof. intros [Hh Hd]. split; simpl; auto. Qed.

(** The retry loop raises nothing and leaves the world as it is. *)
Lemma enhanced_request_attempt_quiet (url : string) (attempt : nat) (w : World) :
  exists r, Enhanced.request_attempt url attempt w = (Ret r, w).
Proof.
  unfold Enhanced.request_attempt, try_except, bind, session_get.
  destruct (w_http w (List.length (w_log w)) url attempt) as [status_code response|].
  - destruct (status_code =? 200); [|destruct (status_code =? 503)]; eexists; reflexivity.
  - eexists. reflexivity.
Qed.

Lemma enhanced_request_loop_quiet (remaining : nat) :
  forall (attempt : nat) (url : string) (w : World),
    exists r, Enhanced.request_loop remaining attempt url w = (Ret r, w).
Proof.
  induction remaining as [|n IH]; intros attempt url w; simpl.
  - eexists. reflexivity.
  - destruct (enhanced_request_attempt_quiet url attempt w) as [found Hfound].
    rewrite (bind_ret_step _ _ _ _ _ Hfound).
    destruct found; [eexists; reflexivity|apply IH].
Qed.

(** One call of the fetcher: its result, and one entry in the log. *)
Lemma enhanced_make_request_step (url : string) (w : World) :
  Enhanced.make_request url w
  = (Ret (enhanced_fetched w url), extend w [EvRequest url (enhanced_fetched w url)]).
Proof.
  unfold enhanced_fetched, Enhanced.make_request.
  destruct (enhanced_request_loop_quiet 5 0 url w) as [r Hr].
  rewrite (bind_ret_step _ _ _ _ _ Hr). reflexivity.
Qed.

Lemma enhanced_request_loop_offline (remaining : nat) :
  forall (attempt : nat) (url : string) (w : World),
    offline w -> Enhanced.request_loop remaining attempt url w = (Ret None, w).
Proof.
  induction remaining as [|n IH]; intros attempt url w Hoff; simpl; [reflexivity|].
  assert (Hfound : Enhanced.request_attempt url attempt w = (Ret None, w)).
  { unfold Enhanced.request_attempt, try_except, bind, session_get.
    destruct Hoff as [Hh _]. specialize (Hh (List.length (w_log w)) url attempt).
    destruct (w_http w (List.length (w_log w)) url attempt) as [status_code response|].
    - simpl in Hh. apply Z.eqb_neq in Hh. rewrite Hh.
      destruct (status_code =? 503); reflexivity.
    - reflexivity. }
  rewrite (bind_ret_step _ _ _ _ _ Hfound). apply IH. exact Hoff.
Qed.

Lemma enhanced_fetched_offline (url : string) (w : World) :
  offline w -> enhanced_fetched w url = None.
Proof.
  intros Hoff. unfold enhanced_fetched, Enhanced.make_request.
  rewrite (bind_ret_step _ _ _ _ _ (enhanced_request_loop_offline 5 0 url w Hoff)).
  reflexivity.
Qed.

Lemma fetch_url_offline (url : string) (w : World) :
  offline w -> fetch_url url w = (Ret None, extend w [EvDownload url None]).
Proof. intros [_ Hd]. unfold fetch_url. rewrite Hd. reflexivity. Qed.

(** The insertion loop touches no part of the world, and on success it is
    the fold of [enhanced_insert_new]. *)
Lemma add_new_products_world (page_products : list Enhanced.Product) :
  forall (all_products : Enhanced.product_map) (w : World),
    snd (Enhanced.add_new_products page_products all_products w) = w.
Proof.
  induction page_products as [|p rest IH]; intros all_products w; simpl.
  - reflexivity.
  - unfold bind, Enhanced.has_key.
    destruct (hashable (Enhanced.p_asin p)); simpl; [|reflexivity].
    destruct (existsb _ all_products); apply IH.
Qed.

Lemma add_new_products_ret (page_products : list Enhanced.Product) :
  forall (all_products all' : Enhanced.product_map) (w w' : World),
    Enhanced.add_new_products page_products all_products w = (Ret all', w') ->
    all' = fold_left enhanced_insert_new page_products all_products.
Proof.
  induction page_products as [|p rest IH]; intros all_products all' w w'; simpl.
  - unfold ret. congruence.
  - unfold bind, Enhanced.has_key, enhanced_insert_new.
    destruct (hashable (Enhanced.p_asin p)); simpl; [|discriminate].
    destruct (existsb _ all_products); apply IH.
Qed.

Lemma enhanced_offered_app (seller_id : string) (a b : list Event) :
  enhanced_offered seller_id (a ++ b)
  = (enhanced_offered seller_id a ++ enhanced_offered seller_id b)%list.
Proof. unfold enhanced_offered. apply flat_map_app. Qed.

Lemma first_pages_cons (page : Z) (rest : list Z) (pattern : Enhanced.url_pattern)
    (seller_id marketplace : string) (all_products : Enhanced.product_map) (count : Z) (w : World) :
  Enhanced.first_pages (page :: rest) pattern seller_id marketplace all_products count w
  = let url := Enhanced.format pattern marketplace seller_id page in
    let r := enhanced_fetched w url in
    let w1 := extend w [EvRequest url r] in
    match r with
    | None => (Ret (all_products, count), w1)
    | Some resp =>
        let page_products := Enhanced.extract_products_from_search_page (r_text resp) seller_id in
        match page_products with
        | [] => (Ret (all_products, count), w1)
        | _ =>
            match Enhanced.add_new_products page_products all_products w1 with
            | (Ret all1, w2) =>
                Enhanced.first_pages rest pattern seller_id marketplace all1
                                     (count + Z.of_nat (List.length page_products)) w2
            | (Raise e, w2) => (Raise e, w2)
            end
        end
    end.
Proof.
  cbn [Enhanced.first_pages]. cbv zeta.
  rewrite (bind_ret_step _ _ _ _ _ (enhanced_make_request_step _ w)).
  destruct (enhanced_fetched w _) as [resp|]; [|reflexivity].
  destruct (Enhanced.extract_products_from_search_page (r_text resp) seller_id); reflexivity.
Qed.

Lemma extra_pages_cons (page : Z) (rest : list Z) (pattern : Enhanced.url_pattern)
    (seller_id marketplace : string) (all_products : Enhanced.product_map) (w : World) :
  Enhanced.extra_pages (page :: rest) pattern seller_id marketplace all_products w
  = let url := Enhanced.format pattern marketplace seller_id page in
    let r := enhanced_fetched w url in
    let w1 := extend w [EvRequest url r] in
    match r with
    | None => (Ret all_products, w1)
    | Some resp =>
        let page_products := Enhanced.extract_products_from_search_page (r_text resp) seller_id in
        match page_products with
        | [] => (Ret all_products, w1)
        | _ =>
            match Enhanced.add_new_products page_products all_products w1 with
            | (Ret all1, w2) =>
                Enhanced.extra_pages rest pattern seller_id marketplace all1 w2
            | (Raise e, w2) => (Raise e, w2)
            end
        end
    end.
Proof.
  cbn [Enhanced.extra_pages]. cbv zeta.
  rewrite (bind_ret_step _ _ _ _ _ (enhanced_make_request_step _ w)).
  destruct (enhanced_fetched w _) as [resp|]; [|reflexivity].
  destruct (Enhanced.extract_products_from_search_page (r_text resp) seller_id); reflexivity.
Qed.

(** The first loop over the pages of one pattern: the requests it logs are
    those of a prefix of its pages, the dict it returns is the dict it got
    with the extracted records inserted in order, and its counter grows by
    the number of extracted records. *)
Lemma first_pages_trace (pages : list Z) :
  forall (pattern : Enhanced.url_pattern) (seller_id marketplace : string)
         (all_products : Enhanced.product_map) (count : Z) (w w' : World)
         (o : outcome (Enhanced.product_map * Z)),
    Enhanced.first_pages pages pattern seller_id marketplace all_products count w = (o, w') ->
    exists (evs : list Event) (k : nat),
      w' = extend w evs
      /\ only_requests evs
      /\ map event_url evs = firstn k (map (Enhanced.format pattern marketplace seller_id) pages)
      /\ match o with
         | Ret (all', count') =>
             all' = fold_left enhanced_insert_new (enhanced_offered seller_id evs) all_products
             /\ count' = count + Z.of_nat (List.length (enhanced_offered seller_id evs))
         | Raise _ => True
         end.
Proof.
  induction pages as [|page rest IH];
    intros pattern seller_id marketplace all_products count w w' o E.
  - simpl in E. inversion E; subst. exists [], 0%nat.
    rewrite extend_nil. simpl. repeat split; auto with zarith. constructor.
  - rewrite first_pages_cons in E. cbv zeta in E.
    set (url := Enhanced.format pattern marketplace seller_id page) in *.
    destruct (enhanced_fetched w url) as [resp|].
    + destruct (Enhanced.extract_products_from_search_page (r_text resp) seller_id)
        as [|p0 pp] eqn:Ex.
      * inversion E; subst. exists [EvRequest url (Some resp)], 1%nat.
        simpl. rewrite Ex. simpl. repeat split; auto with zarith.
        constructor; [eauto|constructor].
      * pose proof (add_new_products_world (p0 :: pp) all_products
                      (extend w [EvRequest url (Some resp)])) as Hw.
        destruct (Enhanced.add_new_products (p0 :: pp) all_products
                    (extend w [EvRequest url (Some resp)])) as [[all1|e] w1] eqn:Eadd;
          simpl in Hw; subst w1.
        -- apply add_new_products_ret in Eadd.
           destruct (IH _ _ _ _ _ _ _ _ E) as (evs & k & Hw' & Hreq & Hurls & Hres).
           exists (EvRequest url (Some resp) :: evs), (S k).
           rewrite Hw', extend_extend. simpl app.
           split; [reflexivity|].
           split; [constructor; [eauto|exact Hreq]|].
           split; [simpl; f_equal; exact Hurls|].
           destruct o as [[all' count']|e]; [|exact I].
           destruct Hres as [Hall Hcount].
           change (enhanced_offered seller_id (EvRequest url (Some resp) :: evs))
             with (Enhanced.extract_products_from_search_page (r_text resp) seller_id
                   ++ enhanced_offered seller_id evs)%list.
           rewrite Ex, fold_left_app, <- Eadd.
           split; [exact Hall|].
           rewrite Hcount, length_app, Nat2Z.inj_add. lia.
        -- inversion E; subst.
           exists [EvRequest url (Some resp)], 1%nat. simpl.
           repeat split; auto. constructor; [eauto|constructor].
    + inversion E; subst. exists [EvRequest url None], 1%nat. simpl.
      repeat split; auto with zarith. constructor; [eauto|constructor].
Qed.

(** The second loop, over the extra pages: the same without the counter. *)
Lemma extra_pages_trace (pages : list Z) :
  forall (pattern : Enhanced.url_pattern) (seller_id marketplace : string)
         (all_products : Enhanced.product_map) (w w' : World)
         (o : outcome Enhanced.product_map),
    Enhanced.extra_pages pages pattern seller_id marketplace all_products w = (o, w') ->
    exists (evs : list Event) (k : nat),
      w' = extend w evs
      /\ only_requests evs
      /\ map event_url evs = firstn k (map (Enhanced.format pattern marketplace seller_id) pages)
      /\ match o with
         | Ret all' =>
             all' = fold_left enhanced_insert_new (enhanced_offered seller_id evs) all_products
         | Raise _ => True
         end.
Proof.
  induction pages as [|page rest IH];
    intros pattern seller_id marketplace all_products w w' o E.
  - simpl in E. inversion E; subst. exists [], 0%nat.
    rewrite extend_nil. simpl. repeat split; auto. constructor.
  - rewrite extra_pages_cons in E. cbv zeta in E.
    set (url := Enhanced.format pattern marketplace seller_id page) in *.
    destruct (enhanced_fetched w url) as [resp|].
    + destruct (Enhanced.extract_products_from_search_page (r_text resp) seller_id)
        as [|p0 pp] eqn:Ex.
      * inversion E; subst. exists [EvRequest url (Some resp)], 1%nat.
        simpl. rewrite Ex. simpl. repeat split; auto.
        constructor; [eauto|constructor].
      * pose proof (add_new_products_world (p0 :: pp) all_products
                      (extend w [EvRequest url (Some resp)])) as Hw.
        destruct (Enhanced.add_new_products (p0 :: pp) all_products
                    (extend w [EvRequest url (Some resp)])) as [[all1|e] w1] eqn:Eadd;
          simpl in Hw; subst w1.
        -- apply add_new_products_ret in Eadd.
           destruct (IH _ _ _ _ _ _ _ E) as (evs & k & Hw' & Hreq & Hurls & Hres).
           exists (EvRequest url (Some resp) :: evs), (S k).
           rewrite Hw', extend_extend. simpl app.
           split; [reflexivity|].
           split; [constructor; [eauto|exact Hreq]|].
           split; [simpl; f_equal; exact Hurls|].
           destruct o as [all'|e]; [|exact I].
           change (enhanced_offered seller_id (EvRequest url (Some resp) :: evs))
             with (Enhanced.extract_products_from_search_page (r_text resp) seller_id
                   ++ enhanced_offered seller_id evs)%list.
           rewrite Ex, fold_left_app, <- Eadd. exact Hres.
        -- inversion E; subst.
           exists [EvRequest url (Some resp)], 1%nat. simpl.
           repeat split; auto. constructor; [eauto|constructor].
    + inversion E; subst. exists [EvRequest url None], 1%nat. simpl.
      repeat split; auto. constructor; [eauto|constructor].
Qed.

Lemma subseq_refl {A : Type} (l : list A) : subseq l l.
Proof. induction l; [constructor|apply subseq_keep; assumption]. Qed.

Lemma subseq_nil_l {A : Type} (l : list A) : subseq [] l.
Proof. induction l; constructor; assumption. Qed.

Lemma subseq_firstn {A : Type} (k : nat) (l : list A) : subseq (firstn k l) l.
Proof.
  revert k. induction l as [|x l IH]; intros [|k]; simpl.
  - constructor.
  - constructor.
  - apply subseq_nil_l.
  - apply subseq_keep. apply IH.
Qed.

Lemma subseq_app {A : Type} (a l1 b l2 : list A) :
  subseq a l1 -> subseq b l2 -> subseq (a ++ b) (l1 ++ l2).
Proof.
  intros Ha Hb. induction Ha; simpl.
  - exact Hb.
  - apply subseq_skip. exact IHHa.
  - apply subseq_keep. exact IHHa.
Qed.

Lemma subseq_length {A : Type} (sub l : list A) :
  subseq sub l -> (List.length sub <= List.length l)%nat.
Proof. intros Hs. induction Hs; simpl; lia. Qed.

Lemma only_requests_app (a b : list Event) :
  only_requests a -> only_requests b -> only_requests (a ++ b).
Proof. unfold only_requests. intros. apply Forall_app. auto. Qed.

(** One pattern: the requests come, in order, from its pages 1 to 15. *)
Lemma scan_pattern_trace (pattern : Enhanced.url_pattern) (seller_id marketplace : string)
    (all_products : Enhanced.product_map) (w w' : World) (o : outcome Enhanced.product_map) :
  Enhanced.scan_pattern pattern seller_id marketplace all_products w = (o, w') ->
  exists evs : list Event,
    w' = extend w evs
    /\ only_requests evs
    /\ subseq (map event_url evs)
              (map (Enhanced.format pattern marketplace seller_id) (py_range 1 16))
    /\ match o with
       | Ret all' =>
           all' = fold_left enhanced_insert_new (enhanced_offered seller_id evs) all_products
       | Raise _ => True
       end.
Proof.
  unfold Enhanced.scan_pattern, bind. intros E.
  destruct (Enhanced.first_pages (py_range 1 8) pattern seller_id marketplace all_products 0 w)
    as [o1 w1] eqn:E1.
  destruct (first_pages_trace _ _ _ _ _ _ _ _ _ E1) as (evs1 & k1 & Hw1 & Hreq1 & Hurls1 & Hres1).
  change (py_range 1 16) with (py_range 1 8 ++ py_range 8 16)%list.
  rewrite map_app.
  destruct o1 as [[all1 count]|e].
  - destruct Hres1 as [Hall1 _].
    destruct (count >=? 100).
    + destruct (extra_pages_trace _ _ _ _ _ _ _ _ E) as (evs2 & k2 & Hw2 & Hreq2 & Hurls2 & Hres2).
      exists (evs1 ++ evs2)%list.
      rewrite Hw2, Hw1, extend_extend.
      split; [reflexivity|].
      split; [apply only_requests_app; assumption|].
      split.
      * rewrite map_app, Hurls1, Hurls2. apply subseq_app; apply subseq_firstn.
      * destruct o as [all'|e]; [|exact I].
        rewrite enhanced_offered_app, fold_left_app, <- Hall1. exact Hres2.
    + inversion E; subst.
      exists evs1.
      split; [reflexivity|].
      split; [assumption|].
      split; [|reflexivity].
      rewrite Hurls1, <- (app_nil_r (firstn k1 _)).
      apply subseq_app; [apply subseq_firstn|apply subseq_nil_l].
  - inversion E; subst.
    exists evs1.
    split; [reflexivity|].
    split; [assumption|].
    split; [|exact I].
    rewrite Hurls1, <- (app_nil_r (firstn k1 _)).
    apply subseq_app; [apply subseq_firstn|apply subseq_nil_l].
Qed.

(** All patterns: the requests come, in order, from the catalog, and the
    dict returned holds the extracted records inserted in the order met. *)
Lemma scan_patterns_trace (patterns : list Enhanced.url_pattern) :
  forall (seller_id marketplace : string) (all_products : Enhanced.product_map)
         (w w' : World) (o : outcome Enhanced.product_map),
    Enhanced.scan_patterns patterns seller_id marketplace all_products w = (o, w') ->
    exists evs : list Event,
      w' = extend w evs
      /\ only_requests evs
      /\ subseq (map event_url evs)
                (flat_map (fun pattern =>
                             map (Enhanced.format pattern marketplace seller_id) (py_range 1 16))
                          patterns)
      /\ match o with
         | Ret all' =>
             all' = fold_left enhanced_insert_new (enhanced_offered seller_id evs) all_products
         | Raise _ => True
         end.
Proof.
  induction patterns as [|pattern rest IH]; intros seller_id marketplace all_products w w' o E.
  - simpl in E. inversion E; subst. exists []. rewrite extend_nil.
    repeat split; try constructor.
  - cbn [Enhanced.scan_patterns] in E. unfold bind in E.
    destruct (Enhanced.scan_pattern pattern seller_id marketplace all_products w)
      as [o1 w1] eqn:E1.
    destruct (scan_pattern_trace _ _ _ _ _ _ _ E1) as (evs1 & Hw1 & Hreq1 & Hsub1 & Hres1).
    destruct o1 as [all1|e].
    + destruct (IH _ _ _ _ _ _ E) as (evs2 & Hw2 & Hreq2 & Hsub2 & Hres2).
      exists (evs1 ++ evs2)%list.
      rewrite Hw2, Hw1, extend_extend.
      split; [reflexivity|].
      split; [apply only_requests_app; assumption|].
      split.
      * rewrite map_app. cbn [flat_map]. apply subseq_app; assumption.
      * destruct o as [all'|e]; [|exact I].
        rewrite enhanced_offered_app, fold_left_app, <- Hres1. exact Hres2.
    + inversion E; subst.
      exists evs1.
      split; [reflexivity|].
      split; [assumption|].
      split; [|exact I].
      cbn [flat_map]. rewrite <- (app_nil_r (map event_url evs1)).
      apply subseq_app; [assumption|apply subseq_nil_l].
Qed.

Lemma enhanced_known_key (p : Enhanced.Product) (all_products : Enhanced.product_map) :
  keys_ok all_products ->
  existsb (fun entry => key_eqb (Enhanced.p_asin p) (fst entry)) all_products
  = existsb (enhanced_same_asin p) (map snd all_products).
Proof.
  induction 1 as [|entry rest Hentry _ IH]; simpl; [reflexivity|].
  rewrite IH, Hentry. reflexivity.
Qed.

Lemma enhanced_fold_values (l : list Enhanced.Product) :
  forall all_products : Enhanced.product_map,
    keys_ok all_products ->
    map snd (fold_left enhanced_insert_new l all_products)
    = fold_left (insert_new enhanced_same_asin) l (map snd all_products).
Proof.
  induction l as [|p rest IH]; intros all_products Hok; simpl; [reflexivity|].
  unfold enhanced_insert_new at 2. unfold insert_new at 2.
  rewrite (enhanced_known_key p all_products Hok).
  destruct (existsb (enhanced_same_asin p) (map snd all_products)).
  - apply IH. exact Hok.
  - rewrite IH.
    + rewrite map_app. reflexivity.
    + apply Forall_app. split; [exact Hok|]. constructor; [reflexivity|constructor].
Qed.

(** Started empty, the dict ends up holding the first-seen records. *)
Lemma enhanced_fold_first_seen (l : list Enhanced.Product) :
  map snd (fold_left enhanced_insert_new l []) = first_seen enhanced_same_asin l.
Proof.
  rewrite enhanced_fold_values by constructor.
  apply fold_insert_new_nil.
  - exact enhanced_same_asin_sym.
  - exact enhanced_same_asin_trans.
Qed.

Lemma enhanced_get_seller_name_step (seller_id marketplace : string) (w : World) :
  let url := "https://www.amazon." ++ marketplace ++ "/sp?seller=" ++ seller_id in
  let r := enhanced_fetched w url in
  Enhanced.get_seller_name seller_id marketplace w
  = (Ret match r with
         | Some resp => first_text (BeautifulSoup (r_text resp)) Enhanced.seller_name_selectors
         | None => None
         end,
     extend w [EvRequest url r]).
Proof.
  cbv zeta. unfold Enhanced.get_seller_name, try_except.
  rewrite (bind_ret_step _ _ _ _ _ (enhanced_make_request_step _ w)).
  destruct (enhanced_fetched w _); reflexivity.
Qed.

(** The world [save_to_cache] leaves: one clock reading taken and, where
    the file can be written, one file replaced.  A failed write is swallowed
    and leaves the cache directory as it was. *)
Lemma enhanced_save_to_cache_exact (seller_id marketplace : string)
    (data : list (string * pyval)) (w : World) :
  Enhanced.save_to_cache seller_id marketplace data w
  = (Ret tt,
     if w_writable w (Enhanced.get_cache_path seller_id marketplace)
     then mkWorld (w_http w) (w_download w) (w_clock w) (S (w_ticks w))
                  (fun p => if String.eqb p (Enhanced.get_cache_path seller_id marketplace)
                            then Some (json_dumps
                                         (PDict (enhanced_stamped data (w_clock w (w_ticks w)))))
                            else w_files w p)
                  (w_log w) (w_writable w)
     else snd (clock_now w)).
Proof.
  unfold Enhanced.save_to_cache, try_except, bind, clock_now, write_file, py_get, ret,
    enhanced_stamped.
  cbv zeta. cbn [w_writable].
  destruct (w_writable w (Enhanced.get_cache_path seller_id marketplace)); [|reflexivity].
  destruct (match assoc "products" (dict_set "timestamp" _ data) with
            | Some x => x
            | None => PList []
            end); reflexivity.
Qed.

Lemma enhanced_save_to_cache_step (seller_id marketplace : string)
    (data : list (string * pyval)) (w : World) :
  exists w',
    Enhanced.save_to_cache seller_id marketplace data w = (Ret tt, w')
    /\ w_log w' = w_log w
    /\ (w_writable w (Enhanced.get_cache_path seller_id marketplace) = true ->
        w_files w' (Enhanced.get_cache_path seller_id marketplace)
        = Some (json_dumps (PDict (dict_set "timestamp"
                                            (PStr (isoformat (w_clock w (w_ticks w)))) data)))).
Proof.
  rewrite enhanced_save_to_cache_exact. eexists. split; [reflexivity|].
  destruct (w_writable w (Enhanced.get_cache_path seller_id marketplace)).
  - split; [reflexivity|]. intros _. cbn [w_files]. rewrite String.eqb_refl. reflexivity.
  - split; [reflexivity|discriminate].
Qed.

(** The scan proper: one request for the seller name, then requests taken
    in order from the catalog; the product list returned is the first-seen
    list of the records extracted from those requests, and the same list is
    what the cache file receives. *)
Lemma enhanced_fresh_scan_trace (seller_id marketplace : string) (w w' : World)
    (o : outcome (pyval * pyval)) :
  Enhanced.fresh_scan seller_id marketplace w = (o, w') ->
  exists (r : option Response) (evs : list Event),
    w_log w' = (w_log w
                ++ EvRequest ("https://www.amazon." ++ marketplace ++ "/sp?seller=" ++ seller_id) r
                   :: evs)%list
    /\ only_requests evs
    /\ subseq (map event_url evs) (enhanced_catalog seller_id marketplace)
    /\ match o with
       | Ret (products, seller_name) =>
           products = PList (map Enhanced.product_dict
                                 (first_seen enhanced_same_asin (enhanced_offered seller_id evs)))
           /\ (w_writable w (Enhanced.get_cache_path seller_id marketplace) = true ->
               exists stamp : string,
                 w_files w' (Enhanced.get_cache_path seller_id marketplace)
                 = Some (json_dumps (PDict [ ("seller_id", PStr seller_id);
                                             ("seller_name", seller_name);
                                             ("products", products);
                                             ("marketplace", PStr marketplace);
                                             ("timestamp", PStr stamp) ])))
       | Raise _ => True
       end.
Proof.
  unfold Enhanced.fresh_scan. intros E.
  rewrite (bind_ret_step _ _ _ _ _ (enhanced_get_seller_name_step seller_id marketplace w)) in E.
  set (url := "https://www.amazon." ++ marketplace ++ "/sp?seller=" ++ seller_id) in *.
  set (r := enhanced_fetched w url) in *.
  unfold bind at 1 in E.
  destruct (Enhanced.scan_patterns Enhanced.SELLER_URL_PATTERNS seller_id marketplace []
              (extend w [EvRequest url r])) as [o1 w1] eqn:E1.
  destruct (scan_patterns_trace _ _ _ _ _ _ _ E1) as (evs & Hw1 & Hreq & Hsub & Hres).
  exists r, evs.
  destruct o1 as [all_products|e].
  - cbv zeta in E.
    match type of E with
    | bind (Enhanced.save_to_cache ?s ?m ?data) _ _ = _ =>
        destruct (enhanced_save_to_cache_step s m data w1) as (w2 & Hsave & Hlog & Hfile)
    end.
    rewrite (bind_ret_step _ _ _ _ _ Hsave) in E.
    inversion E; subst o w'. clear E.
    split; [rewrite Hlog, Hw1; simpl; rewrite <- app_assoc; reflexivity|].
    split; [exact Hreq|].
    split; [exact Hsub|].
    rewrite <- map_map, Hres, enhanced_fold_first_seen.
    split; [reflexivity|].
    intros Hwritable. rewrite Hw1 in Hfile. specialize (Hfile Hwritable).
    eexists. rewrite <- Hw1 in Hfile. rewrite Hfile.
    rewrite <- map_map, Hres, enhanced_fold_first_seen. reflexivity.
  - inversion E; subst o w'. clear E.
    split; [rewrite Hw1; simpl; rewrite <- app_assoc; reflexivity|].
    split; [exact Hreq|].
    split; [exact Hsub|exact I].
Qed.

End EnhancedWalk.

(** ** The walker of amazon_scraper *)

Section BasicWalk.
Context `{Platform}.

Import Basic.AmazonSellerScraper.

(** The retry loop raises nothing and leaves the world as it is. *)
Lemma basic_request_attempt_quiet (url : string) (attempt : nat) (w : World) :
  exists r, request_attempt url attempt w = (Ret r, w).
Proof.
  unfold request_attempt, try_except, bind, session_get.
  destruct (w_http w (List.length (w_log w)) url attempt) as [status_code response|].
  - destruct (status_code =? 200); [|destruct (status_code =? 503); [|destruct (status_code =? 403)]];
      eexists; reflexivity.
  - eexists. reflexivity.
Qed.

Lemma basic_request_loop_quiet (remaining : nat) :
  forall (attempt : nat) (url : string) (w : World),
    exists r, request_loop remaining attempt url w = (Ret r, w).
Proof.
  induction remaining as [|n IH]; intros attempt url w; simpl.
  - eexists. reflexivity.
  - destruct (basic_request_attempt_quiet url attempt w) as [found Hfound].
    rewrite (bind_ret_step _ _ _ _ _ Hfound).
    destruct found; [eexists; reflexivity|apply IH].
Qed.

(** One call of the fetcher: its result, and one entry in the log. *)
Lemma basic_make_request_step (self : Scraper) (url : string) (w : World) :
  _make_request self url w
  = (Ret (basic_fetched self w url), extend w [EvRequest url (basic_fetched self w url)]).
Proof.
  unfold basic_fetched, _make_request.
  destruct (basic_request_loop_quiet (max_retries self) 0 url w) as [r Hr].
  rewrite (bind_ret_step _ _ _ _ _ Hr). reflexivity.
Qed.

Lemma basic_request_loop_offline (remaining : nat) :
  forall (attempt : nat) (url : string) (w : World),
    offline w -> request_loop remaining attempt url w = (Ret None, w).
Proof.
  induction remaining as [|n IH]; intros attempt url w Hoff; simpl; [reflexivity|].
  assert (Hfound : request_attempt url attempt w = (Ret None, w)).
  { unfold request_attempt, try_except, bind, session_get.
    destruct Hoff as [Hh _]. specialize (Hh (List.length (w_log w)) url attempt).
    destruct (w_http w (List.length (w_log w)) url attempt) as [status_code response|].
    - simpl in Hh. apply Z.eqb_neq in Hh. rewrite Hh.
      destruct (status_code =? 503); [|destruct (status_code =? 403)]; reflexivity.
    - reflexivity. }
  rewrite (bind_ret_step _ _ _ _ _ Hfound). apply IH. exact Hoff.
Qed.

Lemma basic_fetched_offline (self : Scraper) (url : string) (w : World) :
  offline w -> basic_fetched self w url = None.
Proof.
  intros Hoff. unfold basic_fetched, _make_request.
  rewrite (bind_ret_step _ _ _ _ _ (basic_request_loop_offline _ 0 url w Hoff)).
  reflexivity.
Qed.

Lemma has_asin_same (p : Basic.Product) (products : list Basic.Product) :
  has_asin (Basic.p_asin p) products = existsb (basic_same_asin p) products.
Proof.
  unfold has_asin, basic_same_asin.
  induction products as [|q rest IH]; simpl; [reflexivity|].
  rewrite IH, (String.eqb_sym (Basic.p_asin q)). reflexivity.
Qed.

Lemma process_elements_fold (self : Scraper) (product_elements : list Tag)
    (seller_id seller_name : string) :
  forall page_products : list Basic.Product,
    process_elements self product_elements seller_id seller_name page_products
    = fold_left (insert_new basic_same_asin)
                (basic_products_of_elements self product_elements seller_id seller_name)
                page_products.
Proof.
  induction product_elements as [|element rest IH]; intros page_products; simpl; [reflexivity|].
  destruct (product_of_element self element seller_id seller_name) as [product|]; simpl.
  - unfold insert_new at 2. rewrite has_asin_same.
    destruct (existsb (basic_same_asin product) page_products); apply IH.
  - apply IH.
Qed.

Lemma add_unique_fold (page_products : list Basic.Product) :
  forall products : list Basic.Product,
    add_unique page_products products
    = fold_left (insert_new basic_same_asin) page_products products.
Proof.
  induction page_products as [|product rest IH]; intros products; simpl; [reflexivity|].
  unfold insert_new at 2. rewrite has_asin_same.
  destruct (existsb (basic_same_asin product) products); apply IH.
Qed.

Lemma basic_offered_app (self : Scraper) (seller_id seller_name : string) (a b : list Event) :
  basic_offered self seller_id seller_name (a ++ b)
  = (basic_offered self seller_id seller_name a ++ basic_offered self seller_id seller_name b)%list.
Proof. unfold basic_offered. apply flat_map_app. Qed.

(** One iteration: one request, never an exception, and the records of
    the response inserted into [page_products]. *)
Lemma crawl_page_step (self : Scraper) (base_url : string) (page : Z)
    (seller_id seller_name : string) (page_products : list Basic.Product) (total : Z) (w : World) :
  let r := basic_fetched self w (page_url base_url page) in
  exists (more : bool) (total' : Z),
    crawl_page self base_url page seller_id seller_name page_products total w
    = (Ret (more,
            fold_left (insert_new basic_same_asin)
                      (basic_offered self seller_id seller_name
                                     [EvRequest (page_url base_url page) r])
                      page_products,
            total'),
       extend w [EvRequest (page_url base_url page) r])
    /\ (r = None -> more = false).
Proof.
  cbv zeta. unfold crawl_page, try_except.
  fold (page_url base_url page).
  rewrite (bind_ret_step _ _ _ _ _ (basic_make_request_step self _ w)).
  destruct (basic_fetched self w (page_url base_url page)) as [resp|].
  - unfold basic_offered. cbn [flat_map]. rewrite app_nil_r.
    unfold basic_candidates.
    destruct (is_invalid_page (r_text resp)).
    + exists false, total. split; [reflexivity|discriminate].
    + destruct (first_matches (BeautifulSoup (r_content resp)) product_selectors)
        as [|e0 es] eqn:Em.
      * exists false, total. split; [reflexivity|discriminate].
      * eexists. eexists. split; [|discriminate].
        rewrite process_elements_fold. reflexivity.
  - exists false, total. split; [reflexivity|reflexivity].
Qed.

(** The loop over the pages of one variant. *)
Lemma crawl_pages_trace (remaining : nat) :
  forall (self : Scraper) (base_url : string) (page : Z) (seller_id seller_name : string)
         (page_products : list Basic.Product) (total : Z) (w : World),
  exists (evs : list Event) (total' : Z) (k : nat),
    crawl_pages remaining self base_url page seller_id seller_name page_products total w
    = (Ret (fold_left (insert_new basic_same_asin)
                      (basic_offered self seller_id seller_name evs) page_products,
            total'),
       extend w evs)
    /\ only_requests evs
    /\ map event_url evs = page_urls base_url page k
    /\ (k <= remaining)%nat
    /\ (offline w -> remaining <> O -> evs = [EvRequest (page_url base_url page) None])
    /\ (remaining <> O -> (1 <= k)%nat).
Proof.
  induction remaining as [|n IH];
    intros self base_url page seller_id seller_name page_products total w.
  - exists [], total, 0%nat. simpl. rewrite extend_nil.
    repeat split; auto; try (intros; contradiction). constructor.
  - cbn [crawl_pages].
    destruct (crawl_page_step self base_url page seller_id seller_name page_products total w)
      as (more & total1 & Hstep & Hnone).
    cbv zeta in Hstep, Hnone.
    rewrite (bind_ret_step _ _ _ _ _ Hstep).
    set (ev := EvRequest (page_url base_url page) _) in *.
    destruct more.
    + destruct (IH self base_url (page + 1) seller_id seller_name
                   (fold_left (insert_new basic_same_asin)
                              (basic_offered self seller_id seller_name [ev]) page_products)
                   total1 (extend w [ev]))
        as (evs & total' & k & Hrec & Hreq & Hurls & Hk & _).
      exists (ev :: evs), total', (S k).
      rewrite Hrec, extend_extend.
      change (ev :: evs) with ([ev] ++ evs)%list.
      rewrite basic_offered_app, fold_left_app.
      split; [reflexivity|].
      split; [constructor; [unfold ev; eauto|exact Hreq]|].
      split; [simpl; f_equal; exact Hurls|].
      split; [lia|].
      split; [|intros _; lia].
      intros Hoff _. specialize (Hnone (basic_fetched_offline _ _ _ Hoff)). discriminate.
    + exists [ev], total1, 1%nat.
      split; [reflexivity|].
      split; [constructor; [unfold ev; eauto|constructor]|].
      split; [reflexivity|].
      split; [lia|].
      split; [|intros _; lia].
      intros Hoff _. unfold ev. rewrite (basic_fetched_offline _ _ _ Hoff). reflexivity.
Qed.

(** The loop over the variants: the list returned is the list it got with
    the extracted records inserted in the order met. *)
Lemma crawl_urls_trace (urls : list string) :
  forall (self : Scraper) (seller_id seller_name : string)
         (products : list Basic.Product) (total : Z) (w : World),
  exists (evs : list Event) (total' : Z),
    crawl_urls self urls seller_id seller_name products total w
    = (Ret (fold_left (insert_new basic_same_asin)
                      (basic_offered self seller_id seller_name evs) products,
            total'),
       extend w evs)
    /\ only_requests evs
    /\ (List.length evs <= 100 * List.length urls)%nat
    /\ (offline w -> evs = map (fun url => EvRequest url None) urls).
Proof.
  induction urls as [|base_url rest IH]; intros self seller_id seller_name products total w.
  - exists [], total. simpl. rewrite extend_nil. repeat split; auto. constructor.
  - cbn [crawl_urls].
    destruct (crawl_pages_trace 100 self base_url 1 seller_id seller_name [] total w)
      as (evs1 & total1 & k & Hpages & Hreq1 & Hurls1 & Hk & Hoff1 & _).
    rewrite (bind_ret_step _ _ _ _ _ Hpages).
    rewrite add_unique_fold.
    rewrite (fold_insert_new_nil _ _ basic_same_asin_sym basic_same_asin_trans).
    rewrite (fold_insert_new_first_seen _ _ basic_same_asin_sym basic_same_asin_trans).
    destruct (IH self seller_id seller_name
                 (fold_left (insert_new basic_same_asin)
                            (basic_offered self seller_id seller_name evs1) products)
                 total1 (extend w evs1))
      as (evs2 & total' & Hrec & Hreq2 & Hlen2 & Hoff2).
    exists (evs1 ++ evs2)%list, total'.
    rewrite Hrec, extend_extend, basic_offered_app, fold_left_app.
    split; [reflexivity|].
    split; [apply only_requests_app; assumption|].
    split.
    + rewrite length_app.
      change (List.length (base_url :: rest)) with (S (List.length rest)).
      assert (List.length evs1 = k).
      { rewrite <- (length_map event_url), Hurls1. clear. revert base_url.
        generalize 1. induction k; simpl; intros; [reflexivity|]. f_equal. apply IHk. }
      lia.
    + intros Hoff. rewrite (Hoff1 Hoff) by discriminate.
      rewrite Hoff2 by (apply offline_extend; exact Hoff).
      reflexivity.
Qed.

(** Resolving the seller name: a download, then at most one request; no
    exception leaves it. *)
Lemma basic_get_seller_name_step (self : Scraper) (seller_id : string) (w : World) :
  exists (found : option string) (evs : list Event),
    get_seller_name self seller_id w = (Ret found, extend w evs)
    /\ (List.length evs <= 2)%nat
    /\ (offline w ->
        found = None
        /\ evs = [ EvDownload (base_url self ++ "/sp?seller=" ++ seller_id) None;
                   EvRequest (base_url self ++ "/sp?seller=" ++ seller_id) None ]).
Proof.
  unfold get_seller_name. cbv zeta.
  set (url := base_url self ++ "/sp?seller=" ++ seller_id).
  assert (Hrequest : forall w1 : World,
             exists found,
               bind (_make_request self url)
                    (fun response =>
                       match response with
                       | Some r => ret (name_in_page (BeautifulSoup (r_content r)))
                       | None => ret None
                       end) w1
               = (Ret found, extend w1 [EvRequest url (basic_fetched self w1 url)])
               /\ (basic_fetched self w1 url = None -> found = None)).
  { intros w1. rewrite (bind_ret_step _ _ _ _ _ (basic_make_request_step self url w1)).
    destruct (basic_fetched self w1 url); eexists; (split; [reflexivity|]);
      [discriminate|reflexivity]. }
  unfold try_except at 1. unfold bind at 1. unfold try_except at 1. unfold bind at 1.
  unfold fetch_url. rewrite record_event_extend.
  destruct (w_download w (List.length (w_log w)) url) as [content|] eqn:Ed.
  - destruct (nonempty content).
    + destruct (Basic.search_title content) as [g|].
      * exists (Some (strip g)), [EvDownload url (Some content)].
        split; [reflexivity|]. split; [simpl; lia|].
        intros [_ Hoff]. rewrite Hoff in Ed. discriminate.
      * cbn [ret fst snd].
        destruct (Hrequest (extend w [EvDownload url (Some content)])) as (found & Hf & _).
        rewrite Hf, extend_extend. eexists. eexists.
        split; [reflexivity|]. split; [simpl; lia|].
        intros [_ Hoff]. rewrite Hoff in Ed. discriminate.
    + cbn [ret fst snd].
      destruct (Hrequest (extend w [EvDownload url (Some content)])) as (found & Hf & _).
      rewrite Hf, extend_extend. eexists. eexists.
      split; [reflexivity|]. split; [simpl; lia|].
      intros [_ Hoff]. rewrite Hoff in Ed. discriminate.
  - cbn [ret fst snd].
    destruct (Hrequest (extend w [EvDownload url None])) as (found & Hf & Hnone).
    rewrite Hf, extend_extend. eexists. eexists.
    split; [reflexivity|]. split; [simpl; lia|].
    intros Hoff.
    assert (Hfetched : basic_fetched self (extend w [EvDownload url None]) url = None).
    { apply basic_fetched_offline. apply offline_extend. exact Hoff. }
    rewrite (Hnone Hfetched), Hfetched. split; reflexivity.
Qed.

(** The world [_save_to_cache] leaves: one clock reading taken and, where
    the file can be written, one file replaced.  A failed write is swallowed
    and leaves the cache directory as it was. *)
Lemma basic_save_to_cache_exact (self : Scraper) (seller_id : string)
    (data : list (string * pyval)) (w : World) :
  _save_to_cache self seller_id data w
  = (Ret tt,
     if w_writable w (_get_cache_path self seller_id)
     then mkWorld (w_http w) (w_download w) (w_clock w) (S (w_ticks w))
                  (fun p => if String.eqb p (_get_cache_path self seller_id)
                            then Some (json_dumps_indent
                                         (PDict (basic_stamped data (w_clock w (w_ticks w)))))
                            else w_files w p)
                  (w_log w) (w_writable w)
     else snd (clock_now w)).
Proof.
  unfold _save_to_cache, try_except, bind, clock_now, write_file, basic_stamped.
  cbv zeta. cbn [w_writable].
  destruct (w_writable w (_get_cache_path self seller_id)); reflexivity.
Qed.

Lemma basic_save_to_cache_step (self : Scraper) (seller_id : string)
    (data : list (string * pyval)) (w : World) :
  exists w',
    _save_to_cache self seller_id data w = (Ret tt, w')
    /\ w_log w' = w_log w
    /\ (w_writable w (_get_cache_path self seller_id) = true ->
        w_files w' (_get_cache_path self seller_id)
        = Some (json_dumps_indent
                  (PDict (dict_set "timestamp" (PInt (w_clock w (w_ticks w))) data)))).
Proof.
  rewrite basic_save_to_cache_exact. eexists. split; [reflexivity|].
  destruct (w_writable w (_get_cache_path self seller_id)).
  - split; [reflexivity|]. intros _. cbn [w_files]. rewrite String.eqb_refl. reflexivity.
  - split; [reflexivity|discriminate].
Qed.

(** The scan proper of amazon_scraper never raises.  After the clock
    reading of the URL list and the resolution of the seller name, it
    makes requests only; the product list returned is the first-seen list of
    the records extracted from those requests; a non-empty list is what the
    cache file receives. *)
Lemma basic_fresh_scan_trace (self : Scraper) (seller_id : string) (w : World) :
  exists (urls : list string) (found : option string) (name_evs evs : list Event)
         (products : list Basic.Product) (w' : World),
    urls_to_try self seller_id w = (Ret urls, snd (clock_now w))
    /\ get_seller_name self seller_id (snd (clock_now w))
       = (Ret found, extend (snd (clock_now w)) name_evs)
    /\ fresh_scan self seller_id w = (Ret (PList (map Basic.product_dict products)), w')
    /\ products = first_seen basic_same_asin
                             (basic_offered self seller_id (or_default found "Unknown Seller") evs)
    /\ w_log w' = (w_log w ++ name_evs ++ evs)%list
    /\ only_requests evs
    /\ (List.length name_evs <= 2)%nat
    /\ (List.length evs <= 100 * List.length urls)%nat
    /\ (offline w ->
        name_evs = [ EvDownload (base_url self ++ "/sp?seller=" ++ seller_id) None;
                     EvRequest (base_url self ++ "/sp?seller=" ++ seller_id) None ]
        /\ evs = map (fun url => EvRequest url None) urls)
    /\ (products <> [] ->
        w_writable w (_get_cache_path self seller_id) = true ->
        exists d, w_files w' (_get_cache_path self seller_id) = Some (json_dumps_indent (PDict d))
                  /\ assoc "products" d = Some (PList (map Basic.product_dict products))
                  /\ assoc "product_count" d = Some (PInt (Z.of_nat (List.length products)))).
Proof.
  set (w1 := snd (clock_now w)).
  destruct (basic_get_seller_name_step self seller_id w1) as (found & name_evs & Hname & Hnlen & Hnoff).
  assert (Hurls : exists urls, urls_to_try self seller_id w = (Ret urls, w1)
                               /\ List.length urls = 14%nat).
  { eexists. split; [reflexivity|reflexivity]. }
  destruct Hurls as (urls & Hurls & Hulen).
  destruct (crawl_urls_trace urls self seller_id (or_default found "Unknown Seller") [] 0
              (extend w1 name_evs)) as (evs & total & Hcrawl & Hreq & Hlen & Hoff).
  rewrite (fold_insert_new_nil _ _ basic_same_asin_sym basic_same_asin_trans) in Hcrawl.
  set (products := first_seen basic_same_asin
                     (basic_offered self seller_id (or_default found "Unknown Seller") evs)) in *.
  assert (Hlog1 : w_log (extend (extend w1 name_evs) evs) = (w_log w ++ name_evs ++ evs)%list).
  { simpl. rewrite <- app_assoc. reflexivity. }
  assert (Hoffline : offline w -> offline w1).
  { intros [Hh Hd]. split; simpl; auto. }
  assert (Hscan : exists w',
             fresh_scan self seller_id w = (Ret (PList (map Basic.product_dict products)), w')
             /\ w_log w' = (w_log w ++ name_evs ++ evs)%list
             /\ (products <> [] ->
                 w_writable w (_get_cache_path self seller_id) = true ->
                 exists d, w_files w' (_get_cache_path self seller_id)
                           = Some (json_dumps_indent (PDict d))
                           /\ assoc "products" d = Some (PList (map Basic.product_dict products))
                           /\ assoc "product_count" d
                              = Some (PInt (Z.of_nat (List.length products))))).
  { unfold fresh_scan.
    rewrite (bind_ret_step _ _ _ _ _ Hurls).
    rewrite (bind_ret_step _ _ _ _ _ Hname).
    cbv zeta.
    rewrite (bind_ret_step _ _ _ _ _ Hcrawl).
    destruct products as [|p0 ps] eqn:Eps.
    - eexists. split; [reflexivity|]. split; [exact Hlog1|]. intros Hne. contradiction.
    - unfold bind at 1. unfold bind at 1. unfold clock_now at 1.
      match goal with
      | |- context [_save_to_cache ?s ?i ?data ?w0] =>
          destruct (basic_save_to_cache_step s i data w0) as (w2 & Hsave & Hlog2 & Hfile2)
      end.
      rewrite Hsave. cbn [ret].
      eexists. split; [reflexivity|]. split; [rewrite Hlog2; exact Hlog1|].
      intros _ Hwritable. eexists. split; [exact (Hfile2 Hwritable)|]. split; reflexivity. }
  destruct Hscan as (w' & Hscan & Hlog & Hcache).
  exists urls, found, name_evs, evs, products, w'.
  split; [exact Hurls|].
  split; [exact Hname|].
  split; [exact Hscan|].
  split; [reflexivity|].
  split; [exact Hlog|].
  split; [exact Hreq|].
  split; [exact Hnlen|].
  split; [exact Hlen|].
  split; [|exact Hcache].
  intros Hw. destruct (Hnoff (Hoffline Hw)) as [_ Hn].
  split; [exact Hn|].
  apply Hoff. apply offline_extend. apply Hoffline. exact Hw.
Qed.

End BasicWalk.

(** ** Deduplication, termination and the query catalog *)

Section WalkerClaims.
Context `{Platform}.

(** With every fetch failing, one pattern costs one request and changes
    nothing. *)
Lemma scan_pattern_offline (pattern : Enhanced.url_pattern) (seller_id marketplace : string)
    (all_products : Enhanced.product_map) (w : World) :
  offline w ->
  Enhanced.scan_pattern pattern seller_id marketplace all_products w
  = (Ret all_products,
     extend w [EvRequest (Enhanced.format pattern marketplace seller_id 1) None]).
Proof.
  intros Hoff. unfold Enhanced.scan_pattern, bind.
  change (py_range 1 8) with (1 :: py_range 2 8).
  rewrite first_pages_cons. cbv zeta. rewrite (enhanced_fetched_offline _ _ Hoff). reflexivity.
Qed.

Lemma scan_patterns_offline (patterns : list Enhanced.url_pattern) :
  forall (seller_id marketplace : string) (all_products : Enhanced.product_map) (w : World),
    offline w ->
    Enhanced.scan_patterns patterns seller_id marketplace all_products w
    = (Ret all_products,
       extend w (map (fun pattern =>
                        EvRequest (Enhanced.format pattern marketplace seller_id 1) None)
                     patterns)).
Proof.
  induction patterns as [|pattern rest IH]; intros seller_id marketplace all_products w Hoff.
  - simpl. rewrite extend_nil. reflexivity.
  - cbn [Enhanced.scan_patterns].
    rewrite (bind_ret_step _ _ _ _ _ (scan_pattern_offline pattern _ _ _ _ Hoff)).
    rewrite IH by (apply offline_extend; exact Hoff).
    rewrite extend_extend. reflexivity.
Qed.

Lemma enhanced_fresh_scan_offline (seller_id marketplace : string) (w : World) :
  offline w ->
  exists w',
    Enhanced.fresh_scan seller_id marketplace w = (Ret (PList [], PStr "Unknown Seller"), w')
    /\ w_log w'
       = (w_log w
          ++ EvRequest ("https://www.amazon." ++ marketplace ++ "/sp?seller=" ++ seller_id) None
             :: map (fun pattern =>
                       EvRequest (Enhanced.format pattern marketplace seller_id 1) None)
                    Enhanced.SELLER_URL_PATTERNS)%list.
Proof.
  intros Hoff. unfold Enhanced.fresh_scan.
  rewrite (bind_ret_step _ _ _ _ _ (enhanced_get_seller_name_step seller_id marketplace w)).
  rewrite (enhanced_fetched_offline _ _ Hoff).
  assert (Hoff1 : offline (extend w [EvRequest ("https://www.amazon." ++ marketplace
                                                ++ "/sp?seller=" ++ seller_id) None])).
  { apply offline_extend. exact Hoff. }
  rewrite (bind_ret_step _ _ _ _ _ (scan_patterns_offline _ seller_id marketplace [] _ Hoff1)).
  cbv zeta.
  match goal with
  | |- context [Enhanced.save_to_cache ?s ?m ?data] =>
      destruct (enhanced_save_to_cache_step s m data
                  (extend (extend w [EvRequest ("https://www.amazon." ++ marketplace
                                                ++ "/sp?seller=" ++ seller_id) None])
                          (map (fun pattern =>
                                  EvRequest (Enhanced.format pattern marketplace seller_id 1) None)
                               Enhanced.SELLER_URL_PATTERNS)))
        as (w2 & Hsave & Hlog & _)
  end.
  rewrite (bind_ret_step _ _ _ _ _ Hsave).
  exists w2. split; [reflexivity|].
  rewrite Hlog. simpl. rewrite <- app_assoc. reflexivity.
Qed.

(** When the scan proper runs, it starts from a world with the network of
    the call. *)
Lemma enhanced_scan_when_runs (seller_id marketplace : string) (force_refresh : bool) (w : World) :
  enhanced_scan_runs seller_id marketplace force_refresh w ->
  exists w0 : World,
    same_network w w0
    /\ Enhanced.scan_seller_inventory seller_id marketplace force_refresh w
       = Enhanced.fresh_scan seller_id marketplace w0.
Proof.
  intros Hruns. unfold Enhanced.scan_seller_inventory.
  destruct force_refresh; simpl negb; cbv iota.
  - exists w. split; [apply same_network_refl|reflexivity].
  - destruct Hruns as [Hf|Hmiss]; [discriminate|].
    pose proof (quiet_enhanced_cached_inventory seller_id marketplace w) as Hquiet.
    destruct (Enhanced.cached_inventory seller_id marketplace w) as [o w0] eqn:Hc.
    simpl in Hmiss, Hquiet. subst o.
    exists w0. split; [exact Hquiet|].
    rewrite (bind_ret_step _ _ _ _ _ Hc). reflexivity.
Qed.

Lemma basic_scan_when_runs (self : Basic.AmazonSellerScraper.Scraper) (seller_id : string)
    (force_refresh : bool) (w : World) :
  basic_scan_runs self seller_id force_refresh w ->
  exists w0 : World,
    same_network w w0
    /\ Basic.AmazonSellerScraper.get_seller_products self seller_id force_refresh w
       = Basic.AmazonSellerScraper.fresh_scan self seller_id w0.
Proof.
  intros Hruns. unfold Basic.AmazonSellerScraper.get_seller_products.
  destruct force_refresh; simpl negb; cbv iota.
  - exists w. split; [apply same_network_refl|reflexivity].
  - destruct Hruns as [Hf|Hmiss]; [discriminate|].
    pose proof (quiet_basic_cached_products self seller_id w) as Hquiet.
    destruct (Basic.AmazonSellerScraper.cached_products self seller_id w) as [o w0] eqn:Hc.
    simpl in Hmiss, Hquiet. subst o.
    exists w0. split; [exact Hquiet|].
    rewrite (bind_ret_step _ _ _ _ _ Hc). reflexivity.
Qed.

(** C4.  With a fetcher that fails on every URL, a scan (forced, or run
    because the cache gave nothing) raises nothing, returns the empty
    product list, and spends one attempt on the seller name and one on the
    first page of each variant: per-URL failures end a variant, never the
    scan, and the attempts stay below variant count times page ceiling
    (15 x 7 in enhanced_amazon_scraper, 14 x 100 in amazon_scraper). *)
Theorem failing_fetcher_scan_is_empty_and_bounded :
  (forall (seller_id marketplace : string) (force_refresh : bool) (w : World),
      offline w ->
      enhanced_scan_runs seller_id marketplace force_refresh w ->
      exists w',
        Enhanced.scan_seller_inventory seller_id marketplace force_refresh w
        = (Ret (PList [], PStr "Unknown Seller"), w')
        /\ w_log w'
           = (w_log w
              ++ EvRequest ("https://www.amazon." ++ marketplace ++ "/sp?seller=" ++ seller_id) None
                 :: map (fun pattern =>
                           EvRequest (Enhanced.format pattern marketplace seller_id 1) None)
                        Enhanced.SELLER_URL_PATTERNS)%list
        /\ (List.length (w_log w') - List.length (w_log w)
            <= List.length Enhanced.SELLER_URL_PATTERNS * 7)%nat)
  /\
  (forall (self : Basic.AmazonSellerScraper.Scraper) (seller_id : string)
          (force_refresh : bool) (w : World),
      offline w ->
      basic_scan_runs self seller_id force_refresh w ->
      exists (w0 : World) (urls : list string) (w' : World),
        same_network w w0
        /\ fst (Basic.AmazonSellerScraper.urls_to_try self seller_id w0) = Ret urls
        /\ Basic.AmazonSellerScraper.get_seller_products self seller_id force_refresh w
           = (Ret (PList []), w')
        /\ w_log w'
           = (w_log w
              ++ [ EvDownload (Basic.AmazonSellerScraper.base_url self ++ "/sp?seller=" ++ seller_id)
                              None;
                   EvRequest (Basic.AmazonSellerScraper.base_url self ++ "/sp?seller=" ++ seller_id)
                             None ]
              ++ map (fun url => EvRequest url None) urls)%list
        /\ (List.length (w_log w') - List.length (w_log w) <= List.length urls * 100)%nat).
Proof.
  split.
  - intros seller_id marketplace force_refresh w Hoff Hruns.
    destruct (enhanced_scan_when_runs _ _ _ _ Hruns) as (w0 & Hnet & Hscan).
    destruct (enhanced_fresh_scan_offline seller_id marketplace w0
                (same_network_offline _ _ Hnet Hoff)) as (w' & Hfresh & Hlog).
    destruct Hnet as (_ & _ & Hlog0 & Hwritable0). rewrite Hlog0 in Hlog.
    exists w'.
    split; [rewrite Hscan; exact Hfresh|].
    split; [exact Hlog|].
    rewrite Hlog, length_app. simpl. lia.
  - intros self seller_id force_refresh w Hoff Hruns.
    destruct (basic_scan_when_runs _ _ _ _ Hruns) as (w0 & Hnet & Hscan).
    destruct (basic_fresh_scan_trace self seller_id w0)
      as (urls & found & name_evs & evs & products & w' &
          Hurls & Hname & Hfresh & Hproducts & Hlog & _ & _ & _ & Hoffline & _).
    destruct (Hoffline (same_network_offline _ _ Hnet Hoff)) as [Hn He]. subst name_evs evs.
    assert (Hempty : products = []).
    { rewrite Hproducts. clear. induction urls; simpl; auto. }
    rewrite Hempty in Hfresh. simpl map in Hfresh.
    assert (Hlen : List.length urls = 14%nat).
    { unfold Basic.AmazonSellerScraper.urls_to_try, bind, clock_now, ret in Hurls.
      inversion Hurls. reflexivity. }
    pose proof Hnet as (_ & _ & Hlog0 & Hwritable0). rewrite Hlog0 in Hlog.
    exists w0, urls, w'.
    split; [exact Hnet|].
    split; [rewrite Hurls; reflexivity|].
    split; [rewrite Hscan; exact Hfresh|].
    split; [exact Hlog|].
    rewrite Hlog, !length_app, length_map, Hlen. simpl. lia.
Qed.

(** Whatever the fetcher answers, a scan stays within its budget of
    requests: the seller name, then at most fifteen pages for each of the
    fifteen patterns in enhanced_amazon_scraper, and at most a hundred pages
    for each of the fourteen variants in amazon_scraper. *)
Lemma scan_request_budget :
  (forall (seller_id marketplace : string) (w : World),
      (List.length (w_log (snd (Enhanced.fresh_scan seller_id marketplace w)))
       <= List.length (w_log w) + 1 + 15 * 15)%nat)
  /\
  (forall (self : Basic.AmazonSellerScraper.Scraper) (seller_id : string) (w : World),
      (List.length (w_log (snd (Basic.AmazonSellerScraper.fresh_scan self seller_id w)))
       <= List.length (w_log w) + 2 + 14 * 100)%nat).
Proof.
  split.
  - intros seller_id marketplace w.
    destruct (Enhanced.fresh_scan seller_id marketplace w) as [o w'] eqn:Hscan.
    destruct (enhanced_fresh_scan_trace _ _ _ _ _ Hscan) as (r & evs & Hlog & _ & Hsub & _).
    simpl snd. rewrite Hlog, length_app. simpl.
    apply subseq_length in Hsub. rewrite length_map in Hsub.
    assert (Hcat : List.length (enhanced_catalog seller_id marketplace) = 225%nat) by reflexivity.
    lia.
  - intros self seller_id w.
    destruct (basic_fresh_scan_trace self seller_id w)
      as (urls & found & name_evs & evs & products & w' &
          Hurls & _ & Hfresh & _ & Hlog & _ & Hnlen & Hlen & _ & _).
    rewrite Hfresh. simpl snd. rewrite Hlog, !length_app.
    assert (Hulen : List.length urls = 14%nat).
    { unfold Basic.AmazonSellerScraper.urls_to_try, bind, clock_now, ret in Hurls.
      inversion Hurls. reflexivity. }
    lia.
Qed.

(** C1.  The product list a scan returns is the first-seen list of the
    records its requests brought: for every identifier the first record met
    is kept as it is, every later one is dropped, so no identifier occurs
    twice; and where the cache file can be written, it receives that same
    list. *)
Theorem scan_keeps_first_seen_record_per_identifier :
  (forall (seller_id marketplace : string) (force_refresh : bool) (w w' : World)
          (products seller_name : pyval),
      enhanced_scan_runs seller_id marketplace force_refresh w ->
      Enhanced.scan_seller_inventory seller_id marketplace force_refresh w
      = (Ret (products, seller_name), w') ->
      exists (r : option Response) (evs : list Event),
        w_log w'
        = (w_log w
           ++ EvRequest ("https://www.amazon." ++ marketplace ++ "/sp?seller=" ++ seller_id) r
              :: evs)%list
        /\ only_requests evs
        /\ products
           = PList (map Enhanced.product_dict
                        (first_seen enhanced_same_asin (enhanced_offered seller_id evs)))
        /\ distinct enhanced_same_asin
                    (first_seen enhanced_same_asin (enhanced_offered seller_id evs))
        /\ (w_writable w (Enhanced.get_cache_path seller_id marketplace) = true ->
            exists d : list (string * pyval),
              w_files w' (Enhanced.get_cache_path seller_id marketplace)
              = Some (json_dumps (PDict d))
              /\ assoc "products" d = Some products))
  /\
  (forall (self : Basic.AmazonSellerScraper.Scraper) (seller_id : string)
          (force_refresh : bool) (w : World),
      basic_scan_runs self seller_id force_refresh w ->
      exists (w0 : World) (found : option string) (name_evs evs : list Event)
             (products : list Basic.Product) (w' : World),
        w_log w0 = w_log w
        /\ Basic.AmazonSellerScraper.get_seller_name self seller_id w0
           = (Ret found, extend w0 name_evs)
        /\ Basic.AmazonSellerScraper.get_seller_products self seller_id force_refresh w
           = (Ret (PList (map Basic.product_dict products)), w')
        /\ w_log w' = (w_log w ++ name_evs ++ evs)%list
        /\ only_requests evs
        /\ products
           = first_seen basic_same_asin
                        (basic_offered self seller_id (or_default found "Unknown Seller") evs)
        /\ distinct basic_same_asin products
        /\ (products <> [] ->
            w_writable w (Basic.AmazonSellerScraper._get_cache_path self seller_id) = true ->
            exists d : list (string * pyval),
              w_files w' (Basic.AmazonSellerScraper._get_cache_path self seller_id)
              = Some (json_dumps_indent (PDict d))
              /\ assoc "products" d = Some (PList (map Basic.product_dict products)))).
Proof.
  split.
  - intros seller_id marketplace force_refresh w w' products seller_name Hruns Hscan.
    destruct (enhanced_scan_when_runs _ _ _ _ Hruns) as (w0 & (_ & _ & Hlog0 & Hwritable0) & Heq).
    rewrite Heq in Hscan.
    destruct (enhanced_fresh_scan_trace _ _ _ _ _ Hscan) as (r & evs & Hlog & Hreq & _ & Hres).
    destruct Hres as [Hproducts Hfile].
    exists r, evs.
    split; [rewrite Hlog, Hlog0; reflexivity|].
    split; [exact Hreq|].
    split; [exact Hproducts|].
    split; [apply first_seen_distinct|].
    intros Hwritable. rewrite <- Hwritable0 in Hwritable.
    destruct (Hfile Hwritable) as [stamp Hstored].
    eexists. split; [exact Hstored|]. reflexivity.
  - intros self seller_id force_refresh w Hruns.
    destruct (basic_scan_when_runs _ _ _ _ Hruns) as (w0 & (_ & _ & Hlog0 & Hwritable0) & Heq).
    destruct (basic_fresh_scan_trace self seller_id w0)
      as (urls & found & name_evs & evs & products & w' &
          _ & Hname & Hfresh & Hproducts & Hlog & Hreq & _ & _ & _ & Hcache).
    exists (snd (clock_now w0)), found, name_evs, evs, products, w'.
    split; [exact Hlog0|].
    split; [exact Hname|].
    split; [rewrite Heq; exact Hfresh|].
    split; [rewrite Hlog, Hlog0; reflexivity|].
    split; [exact Hreq|].
    split; [exact Hproducts|].
    split; [rewrite Hproducts; apply first_seen_distinct|].
    intros Hne Hwritable. rewrite <- Hwritable0 in Hwritable.
    destruct (Hcache Hne Hwritable) as (d & Hfile & Hps & _). eauto.
Qed.

(** C8, as amended.  In enhanced_amazon_scraper the URLs a scan requests
    after the seller-name request are taken, in order, from a catalog that
    depends on the seller and the marketplace only.  In amazon_scraper two
    runs agree on the first eight and the last five variants, and the ninth
    carries the clock reading of the run. *)
Theorem query_variants_fixed_but_for_the_time_stamped_one :
  (forall (seller_id marketplace : string) (w : World),
      exists (r : option Response) (evs : list Event),
        w_log (snd (Enhanced.scan_seller_inventory seller_id marketplace true w))
        = (w_log w
           ++ EvRequest ("https://www.amazon." ++ marketplace ++ "/sp?seller=" ++ seller_id) r
              :: evs)%list
        /\ subseq (map event_url evs) (enhanced_catalog seller_id marketplace))
  /\
  (forall (self : Basic.AmazonSellerScraper.Scraper) (seller_id : string) (w1 w2 : World),
      exists urls1 urls2 : list string,
        fst (Basic.AmazonSellerScraper.urls_to_try self seller_id w1) = Ret urls1
        /\ fst (Basic.AmazonSellerScraper.urls_to_try self seller_id w2) = Ret urls2
        /\ List.length urls1 = 14%nat
        /\ List.length urls2 = 14%nat
        /\ firstn 8 urls1 = firstn 8 urls2
        /\ skipn 9 urls1 = skipn 9 urls2
        /\ nth_error urls1 8
           = Some (Basic.AmazonSellerScraper.base_url self ++ "/s?i=merchant-items&me="
                   ++ seller_id ++ "&qid=" ++ str_of_int (w_clock w1 (w_ticks w1)))
        /\ nth_error urls2 8
           = Some (Basic.AmazonSellerScraper.base_url self ++ "/s?i=merchant-items&me="
                   ++ seller_id ++ "&qid=" ++ str_of_int (w_clock w2 (w_ticks w2)))).
Proof.
  split.
  - intros seller_id marketplace w.
    destruct (Enhanced.scan_seller_inventory seller_id marketplace true w) as [o w'] eqn:Hscan.
    unfold Enhanced.scan_seller_inventory in Hscan.
    simpl negb in Hscan. cbv iota in Hscan.
    unfold bind at 1 in Hscan. unfold ret at 1 in Hscan.
    destruct (enhanced_fresh_scan_trace _ _ _ _ _ Hscan) as (r & evs & Hlog & _ & Hsub & _).
    exists r, evs. split; [exact Hlog|exact Hsub].
  - intros self seller_id w1 w2.
    eexists. eexists.
    split; [reflexivity|].
    split; [reflexivity|].
    repeat split; reflexivity.
Qed.

(** C9, as amended.  After the first loop over pages 1 to 7 of a pattern,
    the counter is the number of records extracted on those pages, every
    duplicate counted; the walker goes on to pages 8 to 15 of the pattern
    exactly when that counter has reached 100, and otherwise makes no
    further request for the pattern. *)
Theorem extra_pages_walked_iff_hundred_records_extracted
    (pattern : Enhanced.url_pattern) (seller_id marketplace : string)
    (all_products all1 : Enhanced.product_map) (count : Z) (w w1 : World) :
  Enhanced.first_pages (py_range 1 8) pattern seller_id marketplace all_products 0 w
  = (Ret (all1, count), w1) ->
  exists evs1 : list Event,
    w1 = extend w evs1
    /\ count = Z.of_nat (List.length (enhanced_offered seller_id evs1))
    /\ (100 <= count ->
        exists (evs2 : list Event) (k : nat),
          snd (Enhanced.scan_pattern pattern seller_id marketplace all_products w)
          = extend w1 evs2
          /\ map event_url evs2
             = firstn (S k) (map (Enhanced.format pattern marketplace seller_id) (py_range 8 16)))
    /\ (count < 100 ->
        Enhanced.scan_pattern pattern seller_id marketplace all_products w = (Ret all1, w1)).
Proof.
  intros E1.
  destruct (first_pages_trace _ _ _ _ _ _ _ _ _ E1) as (evs1 & k1 & Hw1 & _ & _ & _ & Hcount).
  exists evs1.
  split; [exact Hw1|].
  split; [lia|].
  unfold Enhanced.scan_pattern, bind. rewrite E1.
  split.
  - intros Hge.
    replace (count >=? 100) with true by (symmetry; rewrite Z.geb_leb; apply Z.leb_le; lia).
    change (py_range 8 16) with (8 :: py_range 9 16).
    rewrite extra_pages_cons. cbv zeta.
    set (url := Enhanced.format pattern marketplace seller_id 8).
    destruct (enhanced_fetched w1 url) as [resp|].
    + destruct (Enhanced.extract_products_from_search_page (r_text resp) seller_id) as [|p0 pp].
      * exists [EvRequest url (Some resp)], 0%nat. split; reflexivity.
      * pose proof (add_new_products_world (p0 :: pp) all1
                      (extend w1 [EvRequest url (Some resp)])) as Hadd.
        destruct (Enhanced.add_new_products (p0 :: pp) all1 _) as [[all2|e] w3];
          simpl in Hadd; subst w3.
        -- destruct (Enhanced.extra_pages (py_range 9 16) pattern seller_id marketplace all2
                       (extend w1 [EvRequest url (Some resp)])) as [o3 w3] eqn:E3.
           destruct (extra_pages_trace _ _ _ _ _ _ _ _ E3) as (evs3 & k3 & Hw3 & _ & Hurls3 & _).
           exists (EvRequest url (Some resp) :: evs3), k3.
           split.
           ++ simpl snd. rewrite Hw3, extend_extend. reflexivity.
           ++ simpl. f_equal. exact Hurls3.
        -- exists [EvRequest url (Some resp)], 0%nat. split; reflexivity.
    + exists [EvRequest url None], 0%nat. split; reflexivity.
  - intros Hlt.
    replace (count >=? 100) with false by (symmetry; rewrite Z.geb_leb; apply Z.leb_gt; lia).
    reflexivity.
Qed.

End WalkerClaims.

Lemma offline_sample (now : Z) (files : list (string * string)) :
  offline (Sample.offline_world now files).
Proof. split; intros; reflexivity. Qed.

Lemma failing_fetcher_scan_witness :
  (exists w',
      Enhanced.scan_seller_inventory "S1" "co.uk" true (Sample.offline_world 0 [])
      = (Ret (PList [], PStr "Unknown Seller"), w')
      /\ w_log w'
         = (w_log (Sample.offline_world 0 [])
            ++ EvRequest ("https://www.amazon." ++ "co.uk" ++ "/sp?seller=" ++ "S1") None
               :: map (fun pattern => EvRequest (Enhanced.format pattern "co.uk" "S1" 1) None)
                      Enhanced.SELLER_URL_PATTERNS)%list
      /\ (List.length (w_log w') - List.length (w_log (Sample.offline_world 0 []))
          <= List.length Enhanced.SELLER_URL_PATTERNS * 7)%nat)
  /\
  (exists (w0 : World) (urls : list string) (w' : World),
      same_network (Sample.offline_world 0 []) w0
      /\ fst (Basic.AmazonSellerScraper.urls_to_try Sample.scraper "S1" w0) = Ret urls
      /\ Basic.AmazonSellerScraper.get_seller_products Sample.scraper "S1" false
                                                       (Sample.offline_world 0 [])
         = (Ret (PList []), w')
      /\ w_log w'
         = (w_log (Sample.offline_world 0 [])
            ++ [ EvDownload (Basic.AmazonSellerScraper.base_url Sample.scraper
                             ++ "/sp?seller=" ++ "S1") None;
                 EvRequest (Basic.AmazonSellerScraper.base_url Sample.scraper
                            ++ "/sp?seller=" ++ "S1") None ]
            ++ map (fun url => EvRequest url None) urls)%list
      /\ (List.length (w_log w') - List.length (w_log (Sample.offline_world 0 []))
          <= List.length urls * 100)%nat).
Proof.
  split.
  - apply (proj1 (@failing_fetcher_scan_is_empty_and_bounded Sample.platform)
             "S1" "co.uk" true (Sample.offline_world 0 [])).
    + apply offline_sample.
    + left. reflexivity.
  - apply (proj2 (@failing_fetcher_scan_is_empty_and_bounded Sample.platform)
             Sample.scraper "S1" false (Sample.offline_world 0 [])).
    + apply offline_sample.
    + right. reflexivity.
Defined.

(** The scenario of the specification, run: two unique products, both
    from the first variant; the later record for the first identifier, with
    its other title, is gone. *)
Example enhanced_scenario_two_unique_products :
  fst (Enhanced.scan_seller_inventory "S1" "co.uk" true Sample.duplicate_world)
  = Ret (PList [Enhanced.product_dict Sample.kettle; Enhanced.product_dict Sample.toaster],
         PStr "Unknown Seller").
Proof. vm_compute. reflexivity. Qed.

Example basic_scenario_two_unique_products :
  fst (Basic.AmazonSellerScraper.get_seller_products Sample.scraper "S1" true
                                                     Sample.basic_duplicate_world)
  = Ret (PList [Basic.product_dict Sample.basic_kettle; Basic.product_dict Sample.basic_toaster]).
Proof. vm_compute. reflexivity. Qed.

Lemma scan_keeps_first_seen_witness :
  (exists (r : option Response) (evs : list Event),
      w_log (snd (Enhanced.scan_seller_inventory "S1" "co.uk" true Sample.duplicate_world))
      = (w_log Sample.duplicate_world
         ++ EvRequest ("https://www.amazon." ++ "co.uk" ++ "/sp?seller=" ++ "S1") r :: evs)%list
      /\ only_requests evs
      /\ PList [Enhanced.product_dict Sample.kettle; Enhanced.product_dict Sample.toaster]
         = PList (map Enhanced.product_dict
                      (first_seen enhanced_same_asin (enhanced_offered "S1" evs)))
      /\ distinct enhanced_same_asin (first_seen enhanced_same_asin (enhanced_offered "S1" evs))
      /\ exists d : list (string * pyval),
           w_files (snd (Enhanced.scan_seller_inventory "S1" "co.uk" true Sample.duplicate_world))
                   (Enhanced.get_cache_path "S1" "co.uk")
           = Some (json_dumps (PDict d))
           /\ assoc "products" d
              = Some (PList [Enhanced.product_dict Sample.kettle;
                             Enhanced.product_dict Sample.toaster]))
  /\
  (exists (w0 : World) (found : option string) (name_evs evs : list Event)
          (products : list Basic.Product) (w' : World),
      w_log w0 = w_log Sample.basic_duplicate_world
      /\ Basic.AmazonSellerScraper.get_seller_name Sample.scraper "S1" w0
         = (Ret found, extend w0 name_evs)
      /\ Basic.AmazonSellerScraper.get_seller_products Sample.scraper "S1" true
                                                       Sample.basic_duplicate_world
         = (Ret (PList (map Basic.product_dict products)), w')
      /\ w_log w' = (w_log Sample.basic_duplicate_world ++ name_evs ++ evs)%list
      /\ only_requests evs
      /\ products
         = first_seen basic_same_asin
                      (basic_offered Sample.scraper "S1" (or_default found "Unknown Seller") evs)
      /\ distinct basic_same_asin products
      /\ (products <> [] ->
          exists d : list (string * pyval),
            w_files w' (Basic.AmazonSellerScraper._get_cache_path Sample.scraper "S1")
            = Some (json_dumps_indent (PDict d))
            /\ assoc "products" d = Some (PList (map Basic.product_dict products)))).
Proof.
  split.
  - assert (Hscan : Enhanced.scan_seller_inventory "S1" "co.uk" true Sample.duplicate_world
                    = (Ret (PList [Enhanced.product_dict Sample.kettle;
                                   Enhanced.product_dict Sample.toaster],
                            PStr "Unknown Seller"),
                       snd (Enhanced.scan_seller_inventory "S1" "co.uk" true
                                                           Sample.duplicate_world))).
    { apply pair_of_fst_snd.
      - vm_compute. reflexivity.
      - reflexivity. }
    destruct (proj1 (@scan_keeps_first_seen_record_per_identifier Sample.platform)
                "S1" "co.uk" true Sample.duplicate_world _ _ _ (or_introl eq_refl) Hscan)
      as (r & evs & Hlog & Hreq & Hproducts & Hdistinct & Hfile).
    exists r, evs.
    split; [exact Hlog|]. split; [exact Hreq|]. split; [exact Hproducts|].
    split; [exact Hdistinct|]. apply Hfile. reflexivity.
  - destruct (proj2 (@scan_keeps_first_seen_record_per_identifier Sample.platform)
                Sample.scraper "S1" true Sample.basic_duplicate_world (or_introl eq_refl))
      as (w0 & found & name_evs & evs & products & w' &
          Hlog0 & Hname & Hrun & Hlog & Hreq & Hproducts & Hdistinct & Hfile).
    exists w0, found, name_evs, evs, products, w'.
    split; [exact Hlog0|]. split; [exact Hname|]. split; [exact Hrun|]. split; [exact Hlog|].
    split; [exact Hreq|]. split; [exact Hproducts|]. split; [exact Hdistinct|].
    intros Hne. apply (Hfile Hne). reflexivity.
Defined.

(** C8, as stated, fails in amazon_scraper: the same seller and
    marketplace at two clock readings give two different URL lists. *)
Lemma basic_variants_depend_on_the_clock :
  fst (Basic.AmazonSellerScraper.urls_to_try Sample.scraper "S1" (Sample.offline_world 1000 []))
  <> fst (Basic.AmazonSellerScraper.urls_to_try Sample.scraper "S1" (Sample.offline_world 2000 [])).
Proof. vm_compute. discriminate. Qed.

(** C9, as stated, fails: one page of a hundred records that all carry the
    same identifier adds a single new product to the deduplication dict,
    far below the threshold, and yet the walker goes on to page 8. *)
Lemma extra_pages_walked_with_one_new_product :
  (exists all1 : Enhanced.product_map,
      fst (Enhanced.first_pages (py_range 1 8) Sample.first_pattern "S1" "co.uk" [] 0
                                Sample.hundred_world)
      = Ret (all1, 100)
      /\ List.length all1 = 1%nat)
  /\ map event_url
         (w_log (snd (Enhanced.scan_pattern Sample.first_pattern "S1" "co.uk" []
                                            Sample.hundred_world)))
     = [ "https://www.amazon.co.uk/s?i=merchant-items&me=S1&page=1";
         "https://www.amazon.co.uk/s?i=merchant-items&me=S1&page=2";
         "https://www.amazon.co.uk/s?i=merchant-items&me=S1&page=8" ].
Proof.
  split.
  - eexists. split; vm_compute; reflexivity.
  - vm_compute. reflexivity.
Qed.

Lemma extra_pages_walked_witness :
  exists evs1 : list Event,
    snd (Enhanced.first_pages (py_range 1 8) Sample.first_pattern "S1" "co.uk" [] 0
                              Sample.hundred_world)
    = extend Sample.hundred_world evs1
    /\ 100 = Z.of_nat (List.length (enhanced_offered "S1" evs1))
    /\ (100 <= 100 ->
        exists (evs2 : list Event) (k : nat),
          snd (Enhanced.scan_pattern Sample.first_pattern "S1" "co.uk" [] Sample.hundred_world)
          = extend (snd (Enhanced.first_pages (py_range 1 8) Sample.first_pattern "S1" "co.uk"
                                              [] 0 Sample.hundred_world)) evs2
          /\ map event_url evs2
             = firstn (S k) (map (Enhanced.format Sample.first_pattern "co.uk" "S1")
                                 (py_range 8 16)))
    /\ (100 < 100 ->
        Enhanced.scan_pattern Sample.first_pattern "S1" "co.uk" [] Sample.hundred_world
        = (Ret [(PStr "B000000001", Sample.kettle)],
           snd (Enhanced.first_pages (py_range 1 8) Sample.first_pattern "S1" "co.uk" [] 0
                                     Sample.hundred_world))).
Proof.
  apply (@extra_pages_walked_iff_hundred_records_extracted Sample.platform
           Sample.first_pattern "S1" "co.uk" [] [(PStr "B000000001", Sample.kettle)] 100
           Sample.hundred_world).
  apply pair_of_fst_snd.
  - vm_compute. reflexivity.
  - reflexivity.
Defined.

(** ** Page extraction *)

Section Extraction.
Context `{Platform}.

(** [first_text] answers with the stripped text of the first selector, in
    list order, that finds non-blank text. *)
Lemma first_text_some (element : Tag) (selectors : list string) (t : string) :
  first_text element selectors = Some t ->
  exists (before : list string) (selector : string) (after : list string) (e : Tag),
    selectors = (before ++ selector :: after)%list
    /\ Forall (blank_under element) before
    /\ select_one element selector = Some e
    /\ t = strip (tag_text e)
    /\ nonempty t = true.
Proof.
  induction selectors as [|selector rest IH]; simpl; [discriminate|].
  destruct (select_one element selector) as [e|] eqn:Esel.
  - destruct (nonempty (strip (tag_text e))) eqn:Ene.
    + intros E. inversion E; subst.
      exists [], selector, rest, e. repeat split; auto.
    + intros E. destruct (IH E) as (before & sel & after & e' & Hl & Hb & Hs & Ht & Hn).
      exists (selector :: before), sel, after, e'. subst rest.
      repeat split; auto.
      constructor; [|exact Hb]. unfold blank_under. rewrite Esel. exact Ene.
  - intros E. destruct (IH E) as (before & sel & after & e' & Hl & Hb & Hs & Ht & Hn).
    exists (selector :: before), sel, after, e'. subst rest.
    repeat split; auto.
    constructor; [|exact Hb]. unfold blank_under. rewrite Esel. exact I.
Qed.

Lemma first_text_none (element : Tag) (selectors : list string) :
  first_text element selectors = None <-> Forall (blank_under element) selectors.
Proof.
  induction selectors as [|selector rest IH]; simpl.
  - split; [constructor|reflexivity].
  - unfold blank_under at 1.
    destruct (select_one element selector) as [e|] eqn:Esel.
    + destruct (nonempty (strip (tag_text e))) eqn:Ene.
      * split; [discriminate|]. intros Hall. inversion Hall as [|? ? Hb _]; subst.
        unfold blank_under in Hb. rewrite Esel in Hb. congruence.
      * rewrite IH. split.
        -- intros Hall. constructor; [|exact Hall]. unfold blank_under. rewrite Esel. exact Ene.
        -- intros Hall. inversion Hall; assumption.
    + rewrite IH. split.
      * intros Hall. constructor; [|exact Hall]. unfold blank_under. rewrite Esel. exact I.
      * intros Hall. inversion Hall; assumption.
Qed.

(** What decides the fate of an element in amazon_scraper. *)
Lemma basic_product_of_element_cases (self : Basic.AmazonSellerScraper.Scraper)
    (element : Tag) (seller_id seller_name : string) :
  Basic.AmazonSellerScraper.product_of_element self element seller_id seller_name
  = if Nat.eqb (String.length (data_asin element)) 10
    then match first_text element Basic.AmazonSellerScraper.title_selectors with
         | Some title =>
             Some (Basic.mkProduct
                     (data_asin element) title
                     (Basic.AmazonSellerScraper.base_url self ++ "/dp/" ++ data_asin element)
                     ("Amazon " ++ str_upper (Basic.AmazonSellerScraper.marketplace self))
                     seller_id seller_name
                     (first_text element Basic.AmazonSellerScraper.price_selectors))
         | None => None
         end
    else None.
Proof.
  unfold Basic.AmazonSellerScraper.product_of_element, data_asin.
  destruct (assoc "data-asin" (tag_attrs element)) as [a|]; cbv zeta.
  - destruct a as [|c a']; [reflexivity|].
    cbn [nonempty negb orb].
    destruct (Nat.eqb (String.length (String c a')) 10); reflexivity.
  - reflexivity.
Qed.


(** C7, as amended.  amazon_scraper takes the title from the first
    sub-selector, in list order, that finds non-blank text; it emits no
    record when none does, so its titles are never empty.
    enhanced_amazon_scraper takes the stripped text of the first element
    that its one grouped selector finds, and the placeholder
    "Unknown Title" when it finds none; it rejects no element for its
    title. *)
Theorem title_resolution_of_the_extractors :
  (forall (self : Basic.AmazonSellerScraper.Scraper) (element : Tag)
          (seller_id seller_name : string) (p : Basic.Product),
      Basic.AmazonSellerScraper.product_of_element self element seller_id seller_name = Some p ->
      exists (before : list string) (selector : string) (after : list string) (e : Tag),
        Basic.AmazonSellerScraper.title_selectors = (before ++ selector :: after)%list
        /\ Forall (blank_under element) before
        /\ select_one element selector = Some e
        /\ Basic.p_title p = strip (tag_text e)
        /\ nonempty (Basic.p_title p) = true)
  /\
  (forall (self : Basic.AmazonSellerScraper.Scraper) (element : Tag)
          (seller_id seller_name : string),
      Forall (blank_under element) Basic.AmazonSellerScraper.title_selectors ->
      Basic.AmazonSellerScraper.product_of_element self element seller_id seller_name = None)
  /\
  (forall (product : Tag) (seller_id : string) (p : Enhanced.Product),
      Enhanced.product_of_element product seller_id = Some p ->
      Enhanced.p_title p
      = match select_one product Enhanced.title_selector with
        | Some title_elem => strip (tag_text title_elem)
        | None => "Unknown Title"
        end).
Proof.
  split; [|split].
  - intros self element seller_id seller_name p Hp.
    rewrite basic_product_of_element_cases in Hp.
    destruct (Nat.eqb (String.length (data_asin element)) 10); [|discriminate].
    destruct (first_text element Basic.AmazonSellerScraper.title_selectors) as [title|] eqn:Et;
      [|discriminate].
    inversion Hp; subst. simpl.
    apply first_text_some. exact Et.
  - intros self element seller_id seller_name Hblank.
    rewrite basic_product_of_element_cases.
    apply first_text_none in Hblank. rewrite Hblank.
    destruct (Nat.eqb (String.length (data_asin element)) 10); reflexivity.
  - intros product seller_id p Hp. unfold Enhanced.product_of_element in Hp.
    destruct (Enhanced.is_sponsored product); [discriminate|].
    cbv zeta in Hp.
    destruct (truthy (Enhanced.element_asin product)); [|discriminate].
    inversion Hp; subst. reflexivity.
Qed.

End Extraction.



(** C7, as stated, fails in enhanced_amazon_scraper: an element without
    any title element is emitted under the placeholder title, and one whose
    title element is blank is emitted with an empty title. *)
Lemma placeholder_and_empty_titles_emitted :
  (exists p : Enhanced.Product,
      Enhanced.product_of_element (Sample.untitled_item "B000000009") "S1" = Some p
      /\ Enhanced.p_title p = "Unknown Title")
  /\
  (exists p : Enhanced.Product,
      Enhanced.product_of_element (Sample.blank_title_item "B000000009") "S1" = Some p
      /\ Enhanced.p_title p = EmptyString).
Proof.
  split; eexists; (split; reflexivity).
Qed.

Lemma title_resolution_witness :
  (exists (before : list string) (selector : string) (after : list string) (e : Tag),
      Basic.AmazonSellerScraper.title_selectors = (before ++ selector :: after)%list
      /\ Forall (blank_under (Sample.item "B000000001" "Kettle")) before
      /\ select_one (Sample.item "B000000001" "Kettle") selector = Some e
      /\ Basic.p_title Sample.basic_kettle = strip (tag_text e)
      /\ nonempty (Basic.p_title Sample.basic_kettle) = true)
  /\ Basic.AmazonSellerScraper.product_of_element
       Sample.scraper (Sample.untitled_item "B000000009") "S1" "Unknown Seller" = None
  /\ Enhanced.p_title Sample.kettle
     = match select_one (Sample.item "B000000001" "Kettle") Enhanced.title_selector with
       | Some title_elem => strip (tag_text title_elem)
       | None => "Unknown Title"
       end.
Proof.
  destruct (@title_resolution_of_the_extractors Sample.platform) as (H1 & H2 & H3).
  split; [|split].
  - apply (H1 Sample.scraper (Sample.item "B000000001" "Kettle") "S1" "Unknown Seller").
    reflexivity.
  - apply H2. repeat constructor.
  - apply (H3 (Sample.item "B000000001" "Kettle") "S1"). reflexivity.
Defined.

(** ** The cache, written and read back *)

Lemma assoc_dict_set_same {A : Type} (k : string) (v : A) (d : list (string * A)) :
  assoc k (dict_set k v d) = Some v.
Proof.
  induction d as [|[k' v'] d IH]; simpl.
  - rewrite String.eqb_refl. reflexivity.
  - destruct (String.eqb k k') eqn:E; simpl.
    + rewrite String.eqb_refl. reflexivity.
    + rewrite E. exact IH.
Qed.

Lemma assoc_dict_set_other {A : Type} (k k' : string) (v : A) (d : list (string * A)) :
  k <> k' -> assoc k (dict_set k' v d) = assoc k d.
Proof.
  intros Hne. apply String.eqb_neq in Hne.
  induction d as [|[k0 v0] d IH]; simpl.
  - rewrite Hne. reflexivity.
  - destruct (String.eqb k' k0) eqn:E; simpl.
    + apply String.eqb_eq in E. subst k0. rewrite Hne. reflexivity.
    + rewrite IH. reflexivity.
Qed.

Section CacheRoundTrip.
Context `{Platform}.

(** Saving a snapshot never raises, whatever the snapshot holds and
    whether or not the file can be written; it makes no network call and
    touches no file but that of the seller.  Where the file can be written,
    it then holds the snapshot with its [timestamp] field set to the clock
    reading (an ISO text in enhanced_amazon_scraper, a number of seconds in
    amazon_scraper) and every other field as it was; where it cannot, the
    failure is swallowed and the file, if there is one, stays as it was. *)
Theorem saving_stamps_the_snapshot_and_touches_one_file :
  (forall (seller_id marketplace : string) (data : list (string * pyval)) (w : World),
      exists stored : list (string * pyval),
        fst (Enhanced.save_to_cache seller_id marketplace data w) = Ret tt
        /\ w_files (snd (Enhanced.save_to_cache seller_id marketplace data w))
                   (Enhanced.get_cache_path seller_id marketplace)
           = (if w_writable w (Enhanced.get_cache_path seller_id marketplace)
              then Some (json_dumps (PDict stored))
              else w_files w (Enhanced.get_cache_path seller_id marketplace))
        /\ assoc "timestamp" stored = Some (PStr (isoformat (w_clock w (w_ticks w))))
        /\ (forall k, k <> "timestamp" -> assoc k stored = assoc k data)
        /\ (forall path, path <> Enhanced.get_cache_path seller_id marketplace ->
                         w_files (snd (Enhanced.save_to_cache seller_id marketplace data w)) path
                         = w_files w path)
        /\ w_log (snd (Enhanced.save_to_cache seller_id marketplace data w)) = w_log w)
  /\
  (forall (self : Basic.AmazonSellerScraper.Scraper) (seller_id : string)
          (data : list (string * pyval)) (w : World),
      exists stored : list (string * pyval),
        fst (Basic.AmazonSellerScraper._save_to_cache self seller_id data w) = Ret tt
        /\ w_files (snd (Basic.AmazonSellerScraper._save_to_cache self seller_id data w))
                   (Basic.AmazonSellerScraper._get_cache_path self seller_id)
           = (if w_writable w (Basic.AmazonSellerScraper._get_cache_path self seller_id)
              then Some (json_dumps_indent (PDict stored))
              else w_files w (Basic.AmazonSellerScraper._get_cache_path self seller_id))
        /\ assoc "timestamp" stored = Some (PInt (w_clock w (w_ticks w)))
        /\ (forall k, k <> "timestamp" -> assoc k stored = assoc k data)
        /\ (forall path, path <> Basic.AmazonSellerScraper._get_cache_path self seller_id ->
                         w_files (snd (Basic.AmazonSellerScraper._save_to_cache
                                         self seller_id data w)) path
                         = w_files w path)
        /\ w_log (snd (Basic.AmazonSellerScraper._save_to_cache self seller_id data w))
           = w_log w).
Proof.
  split.
  - intros seller_id marketplace data w.
    exists (enhanced_stamped data (w_clock w (w_ticks w))).
    rewrite enhanced_save_to_cache_exact. cbn [fst snd].
    split; [reflexivity|].
    split.
    { destruct (w_writable w (Enhanced.get_cache_path seller_id marketplace)); cbn [w_files].
      - rewrite String.eqb_refl. reflexivity.
      - reflexivity. }
    split; [apply assoc_dict_set_same|].
    split; [intros k Hk; apply assoc_dict_set_other; exact Hk|].
    split.
    + intros path Hpath. apply String.eqb_neq in Hpath.
      destruct (w_writable w (Enhanced.get_cache_path seller_id marketplace)); cbn [w_files].
      * rewrite Hpath. reflexivity.
      * reflexivity.
    + destruct (w_writable w (Enhanced.get_cache_path seller_id marketplace)); reflexivity.
  - intros self seller_id data w.
    exists (basic_stamped data (w_clock w (w_ticks w))).
    rewrite basic_save_to_cache_exact. cbn [fst snd].
    split; [reflexivity|].
    split.
    { destruct (w_writable w (Basic.AmazonSellerScraper._get_cache_path self seller_id));
        cbn [w_files].
      - rewrite String.eqb_refl. reflexivity.
      - reflexivity. }
    split; [apply assoc_dict_set_same|].
    split; [intros k Hk; apply assoc_dict_set_other; exact Hk|].
    split.
    + intros path Hpath. apply String.eqb_neq in Hpath.
      destruct (w_writable w (Basic.AmazonSellerScraper._get_cache_path self seller_id));
        cbn [w_files].
      * rewrite Hpath. reflexivity.
      * reflexivity.
    + destruct (w_writable w (Basic.AmazonSellerScraper._get_cache_path self seller_id));
        reflexivity.
Qed.

(** A snapshot that enhanced_amazon_scraper could write, looked up at the
    next clock reading, comes back as it was stored, time stamp included, as
    long as no more than the window has passed between the two readings, and
    is refused after that; it is refused in any case when the window is no
    valid [timedelta].  The JSON and the ISO-date round trips of the
    libraries are the two assumptions. *)
Theorem enhanced_saved_snapshot_read_back (seller_id marketplace : string) (max_age_hours : Z)
    (data : list (string * pyval)) (w : World) :
  w_writable w (Enhanced.get_cache_path seller_id marketplace) = true ->
  json_loads (json_dumps (PDict (enhanced_stamped data (w_clock w (w_ticks w)))))
  = Some (PDict (enhanced_stamped data (w_clock w (w_ticks w)))) ->
  fromisoformat (isoformat (w_clock w (w_ticks w))) = IsoNaive (w_clock w (w_ticks w)) ->
  fst ((_ <- Enhanced.save_to_cache seller_id marketplace data ;;
        Enhanced.get_from_cache seller_id marketplace max_age_hours) w)
  = Ret (if Enhanced.window_hours_ok max_age_hours
         then if w_clock w (S (w_ticks w)) - w_clock w (w_ticks w) >? max_age_hours * 3600
              then None
              else Some (PDict (enhanced_stamped data (w_clock w (w_ticks w))))
         else None).
Proof.
  intros Hwritable Hjson Hiso.
  rewrite (bind_ret_step _ _ _ _ _ (enhanced_save_to_cache_exact seller_id marketplace data w)).
  rewrite Hwritable.
  rewrite enhanced_get_from_cache_spec. cbn [w_files w_clock w_ticks].
  rewrite String.eqb_refl.
  unfold lookup_spec, parse_entry. rewrite Hjson.
  unfold enhanced_entry_time, enhanced_stamped at 1.
  rewrite assoc_dict_set_same, Hiso. reflexivity.
Qed.

(** The same for amazon_scraper, whose window of 24 hours is open at its
    far end: the snapshot comes back while less than 86400 seconds have
    passed between the two readings.  The reading it is stamped with lies
    within the floats, as every reading of [time.time()] does. *)
Theorem basic_saved_snapshot_read_back (self : Basic.AmazonSellerScraper.Scraper)
    (seller_id : string) (data : list (string * pyval)) (w : World) :
  w_writable w (Basic.AmazonSellerScraper._get_cache_path self seller_id) = true ->
  fits_float (w_clock w (w_ticks w)) = true ->
  json_loads (json_dumps_indent (PDict (basic_stamped data (w_clock w (w_ticks w)))))
  = Some (PDict (basic_stamped data (w_clock w (w_ticks w)))) ->
  fst ((_ <- Basic.AmazonSellerScraper._save_to_cache self seller_id data ;;
        Basic.AmazonSellerScraper._get_from_cache self seller_id) w)
  = Ret (if w_clock w (S (w_ticks w)) - w_clock w (w_ticks w) <? 86400
         then Some (PDict (basic_stamped data (w_clock w (w_ticks w))))
         else None).
Proof.
  intros Hwritable Hfloat Hjson.
  rewrite (bind_ret_step _ _ _ _ _ (basic_save_to_cache_exact self seller_id data w)).
  rewrite Hwritable.
  rewrite basic_get_from_cache_spec. cbn [w_files w_clock w_ticks].
  rewrite String.eqb_refl.
  unfold lookup_spec, parse_entry. rewrite Hjson.
  unfold basic_entry_time, basic_stamped at 1.
  rewrite assoc_dict_set_same. cbn [as_number]. rewrite Hfloat.
  destruct (w_clock w (S (w_ticks w)) - w_clock w (w_ticks w) <? 86400); reflexivity.
Qed.

(** The two modules name their cache files alike but stamp them
    differently, so neither serves what the other has stored.  An entry
    whose time stamp is no text is a miss for the lookup of
    enhanced_amazon_scraper, and one whose time stamp is a text is a miss for
    the lookup of amazon_scraper, however fresh; so are, in particular, the
    document that the save of amazon_scraper writes (stamped with a number)
    for the former and the document that the save of enhanced_amazon_scraper
    writes (stamped with an ISO text) for the latter, wherever the lookup
    finds them. *)
Theorem snapshot_of_one_module_is_a_miss_for_the_other :
  (forall (seller_id marketplace : string) (max_age_hours : Z) (w : World)
          (content : string) (d : list (string * pyval)) (stamp : pyval),
      w_files w (Enhanced.get_cache_path seller_id marketplace) = Some content ->
      json_loads content = Some (PDict d) ->
      assoc "timestamp" d = Some stamp ->
      (forall text, stamp <> PStr text) ->
      fst (Enhanced.get_from_cache seller_id marketplace max_age_hours w) = Ret None)
  /\
  (forall (self : Basic.AmazonSellerScraper.Scraper) (seller_id : string) (w : World)
          (content : string) (d : list (string * pyval)) (text : string),
      w_files w (Basic.AmazonSellerScraper._get_cache_path self seller_id) = Some content ->
      json_loads content = Some (PDict d) ->
      assoc "timestamp" d = Some (PStr text) ->
      fst (Basic.AmazonSellerScraper._get_from_cache self seller_id w) = Ret None)
  /\
  (forall (seller_id marketplace : string) (max_age_hours : Z) (w : World)
          (content : string) (data : list (string * pyval)) (now : Z),
      w_files w (Enhanced.get_cache_path seller_id marketplace) = Some content ->
      json_loads content = Some (PDict (basic_stamped data now)) ->
      fst (Enhanced.get_from_cache seller_id marketplace max_age_hours w) = Ret None)
  /\
  (forall (self : Basic.AmazonSellerScraper.Scraper) (seller_id : string) (w : World)
          (content : string) (data : list (string * pyval)) (now : Z),
      w_files w (Basic.AmazonSellerScraper._get_cache_path self seller_id) = Some content ->
      json_loads content = Some (PDict (enhanced_stamped data now)) ->
      fst (Basic.AmazonSellerScraper._get_from_cache self seller_id w) = Ret None).
Proof.
  assert (Henhanced :
            forall (seller_id marketplace : string) (max_age_hours : Z) (w : World)
                   (content : string) (d : list (string * pyval)) (stamp : pyval),
              w_files w (Enhanced.get_cache_path seller_id marketplace) = Some content ->
              json_loads content = Some (PDict d) ->
              assoc "timestamp" d = Some stamp ->
              (forall text, stamp <> PStr text) ->
              fst (Enhanced.get_from_cache seller_id marketplace max_age_hours w) = Ret None).
  { intros seller_id marketplace max_age_hours w content d stamp Hfile Hjson Hstamp Hno.
    rewrite enhanced_get_from_cache_spec.
    destruct (Enhanced.window_hours_ok max_age_hours); [|reflexivity].
    unfold lookup_spec, parse_entry. rewrite Hfile, Hjson.
    unfold enhanced_entry_time. rewrite Hstamp.
    destruct stamp; try reflexivity. exfalso. apply (Hno s). reflexivity. }
  assert (Hbasic :
            forall (self : Basic.AmazonSellerScraper.Scraper) (seller_id : string) (w : World)
                   (content : string) (d : list (string * pyval)) (text : string),
              w_files w (Basic.AmazonSellerScraper._get_cache_path self seller_id)
              = Some content ->
              json_loads content = Some (PDict d) ->
              assoc "timestamp" d = Some (PStr text) ->
              fst (Basic.AmazonSellerScraper._get_from_cache self seller_id w) = Ret None).
  { intros self seller_id w content d text Hfile Hjson Hstamp.
    rewrite basic_get_from_cache_spec.
    unfold lookup_spec, parse_entry. rewrite Hfile, Hjson.
    unfold basic_entry_time. rewrite Hstamp. reflexivity. }
  split; [exact Henhanced|]. split; [exact Hbasic|]. split.
  - intros seller_id marketplace max_age_hours w content data now Hfile Hjson.
    apply (Henhanced _ _ _ _ _ _ (PInt now) Hfile Hjson).
    + apply assoc_dict_set_same.
    + discriminate.
  - intros self seller_id w content data now Hfile Hjson.
    apply (Hbasic _ _ _ _ _ (isoformat now) Hfile Hjson).
    apply assoc_dict_set_same.
Qed.

End CacheRoundTrip.

Lemma enhanced_saved_snapshot_read_back_witness :
  fst ((_ <- Enhanced.save_to_cache (H := RoundTrip.platform) "S1" "co.uk" [("products", PList [])] ;;
        Enhanced.get_from_cache (H := RoundTrip.platform) "S1" "co.uk" 12) RoundTrip.world)
  = Ret (Some (PDict RoundTrip.enhanced_doc)).
Proof.
  apply (enhanced_saved_snapshot_read_back (H := RoundTrip.platform)
           "S1" "co.uk" 12 [("products", PList [])] RoundTrip.world); reflexivity.
Defined.

(** Two days later the same snapshot is refused. *)
Example enhanced_saved_snapshot_expires :
  fst ((_ <- Enhanced.save_to_cache (H := RoundTrip.platform) "S1" "co.uk" [("products", PList [])] ;;
        Enhanced.get_from_cache (H := RoundTrip.platform) "S1" "co.uk" 12) RoundTrip.slow_world)
  = Ret None.
Proof. reflexivity. Qed.

(** Where the file cannot be written, the save is lost without a word and
    the lookup finds nothing. *)
Example enhanced_unwritable_snapshot_is_lost :
  fst (Enhanced.save_to_cache (H := RoundTrip.platform) "no/dir" "co.uk" [("products", PList [])]
                              RoundTrip.unwritable_world)
  = Ret tt
  /\ fst ((_ <- Enhanced.save_to_cache (H := RoundTrip.platform) "no/dir" "co.uk"
                  [("products", PList [])] ;;
           Enhanced.get_from_cache (H := RoundTrip.platform) "no/dir" "co.uk" 12)
            RoundTrip.unwritable_world)
     = Ret None.
Proof. split; reflexivity. Qed.

Lemma basic_saved_snapshot_read_back_witness :
  fst ((_ <- Basic.AmazonSellerScraper._save_to_cache (H := RoundTrip.platform) Sample.scraper "S1"
               [("products", PList [PDict [("asin", PStr "B000000001")]])] ;;
        Basic.AmazonSellerScraper._get_from_cache (H := RoundTrip.platform) Sample.scraper "S1")
         RoundTrip.world)
  = Ret (Some (PDict RoundTrip.basic_doc)).
Proof.
  apply (basic_saved_snapshot_read_back (H := RoundTrip.platform) Sample.scraper "S1"
           [("products", PList [PDict [("asin", PStr "B000000001")]])] RoundTrip.world);
    reflexivity.
Defined.

Lemma snapshot_of_one_module_is_a_miss_for_the_other_witness :
  fst (Enhanced.get_from_cache (H := RoundTrip.platform) "S1" "co.uk" 12
                               RoundTrip.basic_file_world)
  = Ret None
  /\ fst (Basic.AmazonSellerScraper._get_from_cache (H := RoundTrip.platform) Sample.scraper "S1"
                                                    RoundTrip.enhanced_file_world)
     = Ret None.
Proof.
  pose proof (snapshot_of_one_module_is_a_miss_for_the_other (H := RoundTrip.platform))
    as (_ & _ & Henhanced & Hbasic).
  split.
  - apply (Henhanced "S1" "co.uk" 12 RoundTrip.basic_file_world "indented2"
                     [("products", PList [PDict [("asin", PStr "B000000001")]])] 1000);
      reflexivity.
  - apply (Hbasic Sample.scraper "S1" RoundTrip.enhanced_file_world "doc2"
                  [("products", PList [])] 1000);
      reflexivity.
Defined.

(** ** Stripped text *)

Lemma lstrip_starts_clean (s : string) : starts_clean (lstrip s).
Proof.
  induction s as [|c s IH]; simpl; [exact I|].
  destruct (is_space c) eqn:E; [exact IH|exact E].
Qed.

Lemma lstrip_of_clean (s : string) : starts_clean s -> lstrip s = s.
Proof. destruct s as [|c s]; simpl; [reflexivity|]. intros E. rewrite E. reflexivity. Qed.

Lemma rstrip_starts_clean (s : string) : starts_clean s -> starts_clean (rstrip s).
Proof.
  destruct s as [|c s]; simpl; [auto|].
  intros E. destruct (rstrip s); [rewrite E|]; exact E.
Qed.

Lemma rstrip_idempotent (s : string) : rstrip (rstrip s) = rstrip s.
Proof.
  induction s as [|c s IH]; simpl; [reflexivity|].
  destruct (rstrip s) as [|c' r] eqn:E.
  - destruct (is_space c) eqn:Ec; simpl; [reflexivity|]. rewrite Ec. reflexivity.
  - change (rstrip (String c (String c' r)))
      with (match rstrip (String c' r) with
            | EmptyString => if is_space c then EmptyString else String c EmptyString
            | String c0 r0 => String c (String c0 r0)
            end).
    rewrite IH. reflexivity.
Qed.

(** [s.strip().strip()] is [s.strip()]. *)
Lemma strip_idempotent (s : string) : strip (strip s) = strip s.
Proof.
  unfold strip.
  rewrite (lstrip_of_clean (rstrip (lstrip s))).
  - apply rstrip_idempotent.
  - apply rstrip_starts_clean, lstrip_starts_clean.
Qed.

(** ** The fetchers and the seller name *)

Section Fetchers.
Context `{Platform}.

Lemma enhanced_request_attempt_ok (url : string) (attempt : nat) (w : World) (response : Response) :
  w_http w (List.length (w_log w)) url attempt = HttpStatus 200 response ->
  Enhanced.request_attempt url attempt w = (Ret (Some response), w).
Proof.
  intros E. unfold Enhanced.request_attempt, try_except, bind, session_get. rewrite E.
  reflexivity.
Qed.

Lemma enhanced_request_attempt_failed (url : string) (attempt : nat) (w : World) :
  failed (w_http w (List.length (w_log w)) url attempt) ->
  Enhanced.request_attempt url attempt w = (Ret None, w).
Proof.
  intros Hf. unfold Enhanced.request_attempt, try_except, bind, session_get.
  destruct (w_http w (List.length (w_log w)) url attempt) as [status_code response|].
  - simpl in Hf. apply Z.eqb_neq in Hf. rewrite Hf.
    destruct (status_code =? 503); reflexivity.
  - reflexivity.
Qed.

Lemma basic_request_attempt_ok (url : string) (attempt : nat) (w : World) (response : Response) :
  w_http w (List.length (w_log w)) url attempt = HttpStatus 200 response ->
  Basic.AmazonSellerScraper.request_attempt url attempt w = (Ret (Some response), w).
Proof.
  intros E. unfold Basic.AmazonSellerScraper.request_attempt, try_except, bind, session_get.
  rewrite E. reflexivity.
Qed.

Lemma basic_request_attempt_failed (url : string) (attempt : nat) (w : World) :
  failed (w_http w (List.length (w_log w)) url attempt) ->
  Basic.AmazonSellerScraper.request_attempt url attempt w = (Ret None, w).
Proof.
  intros Hf. unfold Basic.AmazonSellerScraper.request_attempt, try_except, bind, session_get.
  destruct (w_http w (List.length (w_log w)) url attempt) as [status_code response|].
  - simpl in Hf. apply Z.eqb_neq in Hf. rewrite Hf.
    destruct (status_code =? 503); [|destruct (status_code =? 403)]; reflexivity.
  - reflexivity.
Qed.

Lemma failed_or_ok (o : HttpOutcome) : failed o \/ exists response, o = HttpStatus 200 response.
Proof.
  destruct o as [status_code response|]; simpl; [|left; exact I].
  destruct (Z.eq_dec status_code 200) as [E|E]; [right; subst; eauto|left; exact E].
Qed.

(** What a retry loop answers: the response of the first attempt answered
    with status 200, if there is one among the attempts it may make. *)
Lemma enhanced_request_loop_result (remaining : nat) :
  forall (attempt : nat) (url : string) (w : World),
    (exists (k : nat) (response : Response),
        (k < remaining)%nat
        /\ (forall j, (j < k)%nat -> failed (w_http w (List.length (w_log w)) url (attempt + j)))
        /\ w_http w (List.length (w_log w)) url (attempt + k) = HttpStatus 200 response
        /\ Enhanced.request_loop remaining attempt url w = (Ret (Some response), w))
    \/ ((forall j, (j < remaining)%nat ->
                   failed (w_http w (List.length (w_log w)) url (attempt + j)))
        /\ Enhanced.request_loop remaining attempt url w = (Ret None, w)).
Proof.
  induction remaining as [|n IH]; intros attempt url w.
  - right. split; [intros j Hj; lia|reflexivity].
  - cbn [Enhanced.request_loop].
    destruct (failed_or_ok (w_http w (List.length (w_log w)) url attempt)) as [Hf|[response Hok]].
    + rewrite (bind_ret_step _ _ _ _ _ (enhanced_request_attempt_failed _ _ _ Hf)).
      destruct (IH (S attempt) url w) as [(k & response & Hk & Hbefore & Hat & Hloop)|[Hall Hloop]].
      * left. exists (S k), response.
        split; [lia|].
        split.
        { intros [|j] Hj; [rewrite Nat.add_0_r; exact Hf|].
          rewrite Nat.add_succ_r. apply (Hbefore j). lia. }
        split; [rewrite Nat.add_succ_r; exact Hat|exact Hloop].
      * right. split; [|exact Hloop].
        intros [|j] Hj; [rewrite Nat.add_0_r; exact Hf|].
        rewrite Nat.add_succ_r. apply (Hall j). lia.
    + rewrite (bind_ret_step _ _ _ _ _ (enhanced_request_attempt_ok _ _ _ _ Hok)).
      left. exists 0%nat, response.
      split; [lia|].
      split; [intros j Hj; lia|].
      split; [rewrite Nat.add_0_r; exact Hok|reflexivity].
Qed.

Lemma basic_request_loop_result (remaining : nat) :
  forall (attempt : nat) (url : string) (w : World),
    (exists (k : nat) (response : Response),
        (k < remaining)%nat
        /\ (forall j, (j < k)%nat -> failed (w_http w (List.length (w_log w)) url (attempt + j)))
        /\ w_http w (List.length (w_log w)) url (attempt + k) = HttpStatus 200 response
        /\ Basic.AmazonSellerScraper.request_loop remaining attempt url w
           = (Ret (Some response), w))
    \/ ((forall j, (j < remaining)%nat ->
                   failed (w_http w (List.length (w_log w)) url (attempt + j)))
        /\ Basic.AmazonSellerScraper.request_loop remaining attempt url w = (Ret None, w)).
Proof.
  induction remaining as [|n IH]; intros attempt url w.
  - right. split; [intros j Hj; lia|reflexivity].
  - cbn [Basic.AmazonSellerScraper.request_loop].
    destruct (failed_or_ok (w_http w (List.length (w_log w)) url attempt)) as [Hf|[response Hok]].
    + rewrite (bind_ret_step _ _ _ _ _ (basic_request_attempt_failed _ _ _ Hf)).
      destruct (IH (S attempt) url w) as [(k & response & Hk & Hbefore & Hat & Hloop)|[Hall Hloop]].
      * left. exists (S k), response.
        split; [lia|].
        split.
        { intros [|j] Hj; [rewrite Nat.add_0_r; exact Hf|].
          rewrite Nat.add_succ_r. apply (Hbefore j). lia. }
        split; [rewrite Nat.add_succ_r; exact Hat|exact Hloop].
      * right. split; [|exact Hloop].
        intros [|j] Hj; [rewrite Nat.add_0_r; exact Hf|].
        rewrite Nat.add_succ_r. apply (Hall j). lia.
    + rewrite (bind_ret_step _ _ _ _ _ (basic_request_attempt_ok _ _ _ _ Hok)).
      left. exists 0%nat, response.
      split; [lia|].
      split; [intros j Hj; lia|].
      split; [rewrite Nat.add_0_r; exact Hok|reflexivity].
Qed.

Lemma failed_not_ok (o : HttpOutcome) (response : Response) :
  failed o -> o <> HttpStatus 200 response.
Proof. intros Hf E. subst o. simpl in Hf. contradiction. Qed.

(** A fetcher answers with the response of the first attempt that comes
    back with status 200, provided it is among the first five attempts
    (enhanced_amazon_scraper) or the first [max_retries] ones
    (amazon_scraper); it answers nothing exactly when all of these attempts
    fail, by a transport error or by any other status.  It never raises. *)
Theorem fetcher_answers_first_success_within_its_attempts :
  (forall (url : string) (w : World) (result : option Response),
      fst (Enhanced.make_request url w) = Ret result
      <-> match result with
          | Some response =>
              exists k : nat,
                (k < 5)%nat
                /\ (forall j, (j < k)%nat -> failed (w_http w (List.length (w_log w)) url j))
                /\ w_http w (List.length (w_log w)) url k = HttpStatus 200 response
          | None =>
              forall j, (j < 5)%nat -> failed (w_http w (List.length (w_log w)) url j)
          end)
  /\
  (forall (self : Basic.AmazonSellerScraper.Scraper) (url : string) (w : World)
          (result : option Response),
      fst (Basic.AmazonSellerScraper._make_request self url w) = Ret result
      <-> match result with
          | Some response =>
              exists k : nat,
                (k < Basic.AmazonSellerScraper.max_retries self)%nat
                /\ (forall j, (j < k)%nat -> failed (w_http w (List.length (w_log w)) url j))
                /\ w_http w (List.length (w_log w)) url k = HttpStatus 200 response
          | None =>
              forall j, (j < Basic.AmazonSellerScraper.max_retries self)%nat ->
                        failed (w_http w (List.length (w_log w)) url j)
          end).
Proof.
  assert (Hdecide :
            forall (n : nat) (url : string) (w : World) (found result : option Response),
              (exists (k : nat) (response : Response),
                  (k < n)%nat
                  /\ (forall j, (j < k)%nat -> failed (w_http w (List.length (w_log w)) url (0 + j)))
                  /\ w_http w (List.length (w_log w)) url (0 + k) = HttpStatus 200 response
                  /\ found = Some response)
              \/ ((forall j, (j < n)%nat ->
                             failed (w_http w (List.length (w_log w)) url (0 + j)))
                  /\ found = None) ->
              (@Ret (option Response) found = Ret result
               <-> match result with
                   | Some response =>
                       exists k : nat,
                         (k < n)%nat
                         /\ (forall j, (j < k)%nat ->
                                       failed (w_http w (List.length (w_log w)) url j))
                         /\ w_http w (List.length (w_log w)) url k = HttpStatus 200 response
                   | None =>
                       forall j, (j < n)%nat -> failed (w_http w (List.length (w_log w)) url j)
                   end)).
  { intros n url w found result [(k & response & Hk & Hbefore & Hat & Hfound)|[Hall Hfound]];
      subst found; simpl in *.
    - split.
      + intros E. inversion E; subst. exists k. auto.
      + destruct result as [response'|].
        * intros (k' & Hk' & Hbefore' & Hat').
          destruct (Nat.lt_trichotomy k k') as [Hlt|[Heq|Hgt]].
          -- exfalso. apply (failed_not_ok _ response (Hbefore' k Hlt)). exact Hat.
          -- subst k'. rewrite Hat in Hat'. inversion Hat'. reflexivity.
          -- exfalso. apply (failed_not_ok _ response' (Hbefore k' Hgt)). exact Hat'.
        * intros Hall. exfalso. apply (failed_not_ok _ response (Hall k Hk)). exact Hat.
    - split.
      + intros E. inversion E; subst. exact Hall.
      + destruct result as [response'|]; [|reflexivity].
        intros (k' & Hk' & _ & Hat').
        exfalso. apply (failed_not_ok _ response' (Hall k' Hk')). exact Hat'. }
  split.
  - intros url w result.
    unfold Enhanced.make_request.
    destruct (enhanced_request_loop_result 5 0 url w)
      as [(k & response & Hk & Hbefore & Hat & Hloop)|[Hall Hloop]];
      rewrite (bind_ret_step _ _ _ _ _ Hloop); cbn [bind log_request ret fst].
    + apply (Hdecide 5%nat url w (Some response) result). left. exists k, response. auto.
    + apply (Hdecide 5%nat url w None result). right. auto.
  - intros self url w result.
    unfold Basic.AmazonSellerScraper._make_request.
    destruct (basic_request_loop_result (Basic.AmazonSellerScraper.max_retries self) 0 url w)
      as [(k & response & Hk & Hbefore & Hat & Hloop)|[Hall Hloop]];
      rewrite (bind_ret_step _ _ _ _ _ Hloop); cbn [bind log_request ret fst].
    + apply (Hdecide _ url w (Some response) result). left. exists k, response. auto.
    + apply (Hdecide _ url w None result). right. auto.
Qed.

End Fetchers.

Lemma fetcher_answers_first_success_witness :
  fst (Enhanced.make_request "https://www.amazon.co.uk/s?me=S1" Flaky.slow_world)
  = Ret (Some (Sample.page Sample.two_items_markup))
  /\ fst (Basic.AmazonSellerScraper._make_request Sample.scraper
            "https://www.amazon.co.uk/s?me=S1" Flaky.slow_world)
     = Ret None.
Proof.
  split.
  - apply (proj1 fetcher_answers_first_success_within_its_attempts).
    exists 4%nat.
    split; [lia|].
    split; [|reflexivity].
    intros j Hj. destruct j as [|[|[|[|j]]]]; simpl; try discriminate. lia.
  - apply (proj2 fetcher_answers_first_success_within_its_attempts).
    intros j Hj. destruct j as [|[|[|j]]]; simpl in *; try discriminate. lia.
Defined.

Section SellerNames.
Context `{Platform}.

(** Resolving the seller name in enhanced_amazon_scraper never raises and
    costs exactly one call of the fetcher, for the seller page.  It finds
    nothing when the fetch fails; a name it finds is never blank and carries
    no blank at either end. *)
Theorem enhanced_seller_name_is_one_request_and_a_clean_text
    (seller_id marketplace : string) (w : World) :
  exists found : option string,
    Enhanced.get_seller_name seller_id marketplace w
    = (Ret found,
       extend w [EvRequest ("https://www.amazon." ++ marketplace ++ "/sp?seller=" ++ seller_id)
                           (enhanced_fetched
                              w ("https://www.amazon." ++ marketplace ++ "/sp?seller=" ++ seller_id))])
    /\ (enhanced_fetched w ("https://www.amazon." ++ marketplace ++ "/sp?seller=" ++ seller_id) = None ->
        found = None)
    /\ (forall name, found = Some name -> nonempty name = true /\ strip name = name).
Proof.
  pose proof (enhanced_get_seller_name_step seller_id marketplace w) as Hstep.
  cbv zeta in Hstep. rewrite Hstep.
  eexists. split; [reflexivity|].
  split.
  - intros Hnone. rewrite Hnone. reflexivity.
  - intros name Hname.
    destruct (enhanced_fetched w _) as [resp|]; [|discriminate].
    destruct (first_text_some _ _ _ Hname) as (_ & _ & _ & e & _ & _ & _ & Ht & Hn).
    split; [exact Hn|]. subst name. apply strip_idempotent.
Qed.

(** The name amazon_scraper reads off a fetched storefront page.  The text
    of the first name selector with non-blank text wins.  Without one, a
    page without a title gives nothing, and a title is cut at a separator:
    at its first colon when it has one, else at its first bar, else at its
    first hyphen.  So a title with a colon always answers with the text
    before that colon, and the last fallback of the source, the text after
    the colon of a title that mentions Amazon, never supplies the name. *)
Theorem name_in_page_cuts_the_title_at_its_first_separator (soup : Tag) :
  (forall name,
      first_text soup Basic.AmazonSellerScraper.seller_name_selectors = Some name ->
      Basic.AmazonSellerScraper.name_in_page soup = Some name)
  /\ (first_text soup Basic.AmazonSellerScraper.seller_name_selectors = None ->
      select_one soup "title" = None ->
      Basic.AmazonSellerScraper.name_in_page soup = None)
  /\ (forall title_element,
         first_text soup Basic.AmazonSellerScraper.seller_name_selectors = None ->
         select_one soup "title" = Some title_element ->
         (has_char ":" (tag_text title_element) = true ->
          Basic.AmazonSellerScraper.name_in_page soup
          = Some (strip (before_sep ":" (tag_text title_element))))
         /\ (has_char ":" (tag_text title_element) = false ->
             has_char "|" (tag_text title_element) = true ->
             Basic.AmazonSellerScraper.name_in_page soup
             = Some (strip (before_sep "|" (tag_text title_element))))
         /\ (has_char ":" (tag_text title_element) = false ->
             has_char "|" (tag_text title_element) = false ->
             has_char "-" (tag_text title_element) = true ->
             Basic.AmazonSellerScraper.name_in_page soup
             = Some (strip (before_sep "-" (tag_text title_element))))).
Proof.
  unfold Basic.AmazonSellerScraper.name_in_page.
  split; [|split].
  - intros name Hname. rewrite Hname. reflexivity.
  - intros Hnone Htitle. rewrite Hnone, Htitle. reflexivity.
  - intros title_element Hnone Htitle. rewrite Hnone, Htitle. cbv zeta.
    cbn [Basic.split_title].
    split; [|split].
    + intros Hcolon. rewrite Hcolon. reflexivity.
    + intros Hcolon Hbar. rewrite Hcolon, Hbar. reflexivity.
    + intros Hcolon Hbar Hhyphen. rewrite Hcolon, Hbar, Hhyphen. reflexivity.
Qed.

(** The module-level helper for the seller name builds a scraper for the
    marketplace (its base address, three attempts per request, one clock
    reading for the session cookie) and asks it.  It never raises, makes at
    most two network calls, and finds nothing when every fetch fails. *)
Theorem basic_name_helper_never_raises (seller_id marketplace : string) (w : World) :
  exists (found : option string) (evs : list Event),
    Basic.get_seller_name seller_id marketplace w = (Ret found, extend (snd (clock_now w)) evs)
    /\ (List.length evs <= 2)%nat
    /\ fst (Basic.AmazonSellerScraper.get_seller_name
              (Basic.AmazonSellerScraper.mkScraper marketplace ("https://www.amazon." ++ marketplace) 3)
              seller_id (snd (clock_now w)))
       = Ret found
    /\ (offline w -> found = None).
Proof.
  destruct (basic_get_seller_name_step
              (Basic.AmazonSellerScraper.mkScraper marketplace ("https://www.amazon." ++ marketplace) 3)
              seller_id (snd (clock_now w))) as (found & evs & Hname & Hlen & Hoff).
  exists found, evs. rewrite Hname.
  split; [|split; [exact Hlen|split; [reflexivity|]]].
  - unfold Basic.get_seller_name, try_except, Basic.AmazonSellerScraper.init.
    unfold bind at 1. unfold bind at 1. unfold clock_now at 1. cbn [ret].
    change (mkWorld (w_http w) (w_download w) (w_clock w) (S (w_ticks w)) (w_files w) (w_log w)
                     (w_writable w))
      with (snd (clock_now w)).
    rewrite Hname. reflexivity.
  - intros [Hh Hd]. apply Hoff. split; simpl; auto.
Qed.

End SellerNames.

(** A title that names Amazon first: the answer is the text before the
    colon, not the seller name after it. *)
Lemma name_in_page_cuts_the_title_witness :
  Basic.AmazonSellerScraper.name_in_page
    (Sample.node [] [("title", [Sample.text_tag "Amazon.co.uk: Shop One"])])
  = Some "Amazon.co.uk".
Proof.
  apply (proj1 (proj2 (proj2 (name_in_page_cuts_the_title_at_its_first_separator
                                (Sample.node [] [("title",
                                                  [Sample.text_tag "Amazon.co.uk: Shop One"])])))
                      (Sample.text_tag "Amazon.co.uk: Shop One") eq_refl eq_refl)).
  reflexivity.
Defined.


(** ** Proxy rotation *)

Section ProxyRotation.
Import Basic.AmazonSellerScraper.

Lemma get_next_proxy_in_range (st : ProxyState) :
  rotation_ok st ->
  get_next_proxy st
  = (rotation_pick (proxies st) (current_proxy_index st) 0,
     mkProxyState (proxies st) ((current_proxy_index st + 1) mod List.length (proxies st))%nat).
Proof.
  unfold rotation_ok, get_next_proxy, rotation_pick. intros Hok.
  rewrite Nat.add_0_r, (Nat.mod_small _ _ Hok).
  destruct (proxies st) as [|p ps] eqn:Eps; [simpl in Hok; lia|].
  destruct (nth_error (p :: ps) (current_proxy_index st)) eqn:En; [reflexivity|].
  apply nth_error_None in En. lia.
Qed.

Lemma next_proxies_round_robin (n : nat) :
  forall st : ProxyState,
    rotation_ok st ->
    next_proxies n st
    = (map (rotation_pick (proxies st) (current_proxy_index st)) (seq 0 n),
       mkProxyState (proxies st) ((current_proxy_index st + n) mod List.length (proxies st))%nat).
Proof.
  induction n as [|n IH]; intros st Hok.
  - simpl. rewrite Nat.add_0_r, (Nat.mod_small _ _ Hok). destruct st; reflexivity.
  - cbn [next_proxies]. rewrite (get_next_proxy_in_range st Hok).
    assert (Hpos : List.length (proxies st) <> 0%nat) by (unfold rotation_ok in Hok; lia).
    rewrite IH by (unfold rotation_ok; simpl; apply Nat.mod_upper_bound; exact Hpos).
    cbn [proxies current_proxy_index].
    rewrite Nat.Div0.add_mod_idemp_l.
    replace (current_proxy_index st + 1 + n)%nat with (current_proxy_index st + S n)%nat by lia.
    f_equal. cbn [seq map]. f_equal.
    rewrite <- seq_shift, map_map.
    apply map_ext. intros k. unfold rotation_pick.
    rewrite Nat.Div0.add_mod_idemp_l.
    replace (current_proxy_index st + 1 + k)%nat with (current_proxy_index st + S k)%nat by lia.
    reflexivity.
Qed.

(** While the rotation index points into a non-empty proxy list, the
    rotation is a round robin: successive calls hand out the proxies in list
    order from the index on, wrapping at the end, never fail with an
    [IndexError], never answer "no proxy", and leave the list as it is; a
    full turn brings the index back.  As shipped, the proxy list of a
    scraper is empty after [refresh_proxies], and then every call answers
    "no proxy" and changes nothing. *)
Theorem proxy_rotation_is_a_round_robin :
  (forall (st : ProxyState) (n : nat),
      rotation_ok st ->
      fst (next_proxies n st)
      = map (rotation_pick (proxies st) (current_proxy_index st)) (seq 0 n)
      /\ Forall (fun pick => exists proxy, pick = Picked (Some proxy) /\ In proxy (proxies st))
                (fst (next_proxies n st))
      /\ proxies (snd (next_proxies n st)) = proxies st
      /\ rotation_ok (snd (next_proxies n st))
      /\ snd (next_proxies (List.length (proxies st)) st) = st)
  /\
  (forall (st : ProxyState) (n : nat),
      next_proxies n (refresh_proxies st)
      = (repeat (Picked None) n, refresh_proxies st)).
Proof.
  split.
  - intros st n Hok.
    assert (Hpos : List.length (proxies st) <> 0%nat) by (unfold rotation_ok in Hok; lia).
    rewrite !(next_proxies_round_robin _ st Hok). cbn [fst snd proxies current_proxy_index].
    split; [reflexivity|].
    split.
    { apply Forall_forall. intros pick Hin. apply in_map_iff in Hin.
      destruct Hin as (k & Hpick & _). subst pick. unfold rotation_pick.
      destruct (nth_error (proxies st)
                          ((current_proxy_index st + k) mod List.length (proxies st)))
        as [proxy|] eqn:En.
      - exists proxy. split; [reflexivity|]. apply (nth_error_In _ _ En).
      - apply nth_error_None in En.
        pose proof (Nat.mod_upper_bound (current_proxy_index st + k) _ Hpos). lia. }
    split; [reflexivity|].
    split; [unfold rotation_ok; simpl; apply Nat.mod_upper_bound; exact Hpos|].
    rewrite <- Nat.Div0.add_mod_idemp_r, Nat.Div0.mod_same, Nat.add_0_r.
    rewrite (Nat.mod_small _ _ Hok). destruct st; reflexivity.
  - intros st n. induction n as [|n IH]; [reflexivity|].
    cbn [next_proxies]. unfold get_next_proxy at 1. cbn [refresh_proxies proxies].
    unfold Basic.get_free_proxies, Basic.VERIFIED_PROXIES. fold Basic.VERIFIED_PROXIES.
    change (mkProxyState [] 0) with (refresh_proxies st).
    rewrite IH. reflexivity.
Qed.

End ProxyRotation.

Lemma proxy_rotation_witness :
  fst (Basic.AmazonSellerScraper.next_proxies 4 Rotation.state)
  = [ Basic.AmazonSellerScraper.Picked (Some Rotation.third_proxy);
      Basic.AmazonSellerScraper.Picked (Some Rotation.first_proxy);
      Basic.AmazonSellerScraper.Picked (Some Rotation.second_proxy);
      Basic.AmazonSellerScraper.Picked (Some Rotation.third_proxy) ]
  /\ snd (Basic.AmazonSellerScraper.next_proxies 3 Rotation.state) = Rotation.state.
Proof.
  assert (Hok : rotation_ok Rotation.state) by (unfold rotation_ok; simpl; lia).
  split.
  - exact (proj1 (proj1 proxy_rotation_is_a_round_robin Rotation.state 4%nat Hok)).
  - exact (proj2 (proj2 (proj2 (proj2
             (proj1 proxy_rotation_is_a_round_robin Rotation.state 3%nat Hok))))).
Defined.

(** ** Scans, the cache and the network budget *)

Lemma keeps_files_ret {A : Type} (a : A) : keeps_files (ret a).
Proof. intros w. split; reflexivity. Qed.

Lemma keeps_files_raise {A : Type} (e : exn) : keeps_files (@raise A e).
Proof. intros w. split; reflexivity. Qed.

Lemma keeps_files_bind {A B : Type} (m : M A) (k : A -> M B) :
  keeps_files m -> (forall a, keeps_files (k a)) -> keeps_files (bind m k).
Proof.
  intros Hm Hk w. unfold bind. destruct (Hm w) as [Hf Hc].
  destruct (m w) as [[a|e] w1]; simpl in *; [|split; assumption].
  destruct (Hk a w1) as [Hf1 Hc1]. split; congruence.
Qed.

Lemma keeps_files_try_except {A : Type} (m : M A) (h : exn -> M A) :
  keeps_files m -> (forall e, keeps_files (h e)) -> keeps_files (try_except m h).
Proof.
  intros Hm Hh w. unfold try_except. destruct (Hm w) as [Hf Hc].
  destruct (m w) as [[a|e] w1]; simpl in *; [split; assumption|].
  destruct (Hh e w1) as [Hf1 Hc1]. split; congruence.
Qed.

Lemma keeps_files_clock_now : keeps_files clock_now.
Proof. intros w. split; reflexivity. Qed.

Lemma keeps_files_path_exists (path : string) : keeps_files (path_exists path).
Proof. intros w. split; reflexivity. Qed.

Lemma keeps_files_read_file (path : string) : keeps_files (read_file path).
Proof. intros w. unfold read_file. destruct (w_files w path); split; reflexivity. Qed.

Lemma keeps_files_py_len (v : pyval) : keeps_files (py_len v).
Proof. intros w. destruct v; split; reflexivity. Qed.

Lemma keeps_files_py_get (v : pyval) (k : string) (default : pyval) :
  keeps_files (py_get v k default).
Proof. intros w. destruct v; split; reflexivity. Qed.

Lemma keeps_files_py_in (k : string) (v : pyval) : keeps_files (py_in k v).
Proof. intros w. destruct v; split; reflexivity. Qed.

Lemma keeps_files_py_getitem (v : pyval) (k : string) : keeps_files (py_getitem v k).
Proof.
  intros w. destruct v; try (split; reflexivity). simpl. destruct (assoc k d); split; reflexivity.
Qed.

Lemma keeps_files_py_number (v : pyval) : keeps_files (Basic.py_number v).
Proof.
  intros w. unfold Basic.py_number. destruct (as_number v) as [z|]; [|split; reflexivity].
  destruct (fits_float z); split; reflexivity.
Qed.

Create HintDb files.

#[export] Hint Resolve keeps_files_ret keeps_files_raise keeps_files_clock_now
  keeps_files_path_exists keeps_files_read_file keeps_files_py_len keeps_files_py_get
  keeps_files_py_in keeps_files_py_getitem keeps_files_py_number : files.

(** Splits a goal [keeps_files m] along the structure of [m]. *)
Ltac files_step :=
  match goal with
  | |- keeps_files (bind _ _) => apply keeps_files_bind; [|intros ?]
  | |- keeps_files (try_except _ _) => apply keeps_files_try_except; [|intros ?]
  | |- keeps_files (if ?b then _ else _) => destruct b
  | |- keeps_files (match ?x with Some _ => _ | None => _ end) => destruct x
  | |- keeps_files (match ?x with IsoInvalid => _ | IsoAware => _ | IsoNaive _ => _ end) =>
      destruct x
  | |- keeps_files (match ?x with PStr _ => _ | _ => _ end) => destruct x
  | |- keeps_files _ => solve [auto with files]
  end.

Section ScansAndCache.
Context `{Platform}.

Lemma keeps_files_enhanced_cached_inventory (seller_id marketplace : string) :
  keeps_files (Enhanced.cached_inventory seller_id marketplace).
Proof.
  unfold Enhanced.cached_inventory, Enhanced.get_from_cache, Enhanced.datetime_fromisoformat,
    Enhanced.datetime_since, Enhanced.timedelta_hours.
  cbv zeta. repeat files_step.
Qed.

Lemma keeps_files_basic_cached_products (self : Basic.AmazonSellerScraper.Scraper)
    (seller_id : string) :
  keeps_files (Basic.AmazonSellerScraper.cached_products self seller_id).
Proof.
  unfold Basic.AmazonSellerScraper.cached_products, Basic.AmazonSellerScraper._get_from_cache.
  cbv zeta. repeat files_step.
Qed.

(** The world the entry point of enhanced_amazon_scraper leaves is the one
    its scan leaves. *)
Lemma enhanced_entry_point_world (seller_id marketplace : string) (force_refresh : bool)
    (w : World) :
  snd (Enhanced.get_seller_products seller_id marketplace force_refresh w)
  = snd (Enhanced.scan_seller_inventory seller_id marketplace force_refresh w).
Proof.
  unfold Enhanced.get_seller_products, try_except, bind.
  destruct (Enhanced.scan_seller_inventory seller_id marketplace force_refresh w)
    as [[[products seller_name]|e] w1]; [|reflexivity].
  destruct products; reflexivity.
Qed.

Lemma enhanced_scan_log_budget (seller_id marketplace : string) (force_refresh : bool)
    (w : World) :
  (List.length (w_log (snd (Enhanced.scan_seller_inventory seller_id marketplace
                                                            force_refresh w)))
   <= List.length (w_log w) + 1 + 15 * 15)%nat.
Proof.
  unfold Enhanced.scan_seller_inventory.
  destruct force_refresh; simpl negb; cbv iota.
  - unfold bind at 1. unfold ret at 1. apply (proj1 scan_request_budget).
  - pose proof (quiet_enhanced_cached_inventory seller_id marketplace w) as (_ & _ & Hlog & _).
    unfold bind.
    destruct (Enhanced.cached_inventory seller_id marketplace w) as [[[result|]|e] w0];
      simpl in Hlog; simpl snd.
    + rewrite Hlog. lia.
    + rewrite <- Hlog. apply (proj1 scan_request_budget).
    + rewrite Hlog. lia.
Qed.

Lemma basic_scan_log_budget (self : Basic.AmazonSellerScraper.Scraper) (seller_id : string)
    (force_refresh : bool) (w : World) :
  (List.length (w_log (snd (Basic.AmazonSellerScraper.get_seller_products
                              self seller_id force_refresh w)))
   <= List.length (w_log w) + 2 + 14 * 100)%nat.
Proof.
  unfold Basic.AmazonSellerScraper.get_seller_products.
  destruct force_refresh; simpl negb; cbv iota.
  - unfold bind at 1. unfold ret at 1. apply (proj2 scan_request_budget).
  - pose proof (quiet_basic_cached_products self seller_id w) as (_ & _ & Hlog & _).
    unfold bind.
    destruct (Basic.AmazonSellerScraper.cached_products self seller_id w) as [[[result|]|e] w0];
      simpl in Hlog; simpl snd.
    + rewrite Hlog. lia.
    + rewrite <- Hlog. apply (proj2 scan_request_budget).
    + rewrite Hlog. lia.
Qed.

(** Whatever the network answers, whatever the cache holds and whether or
    not a refresh is forced, one call of an entry point makes a bounded
    number of fetcher calls: at most 226 in enhanced_amazon_scraper (the
    seller name and fifteen pages for each of fifteen patterns) and at most
    1402 in amazon_scraper (a download and a request for the seller name, a
    hundred pages for each of fourteen variants). *)
Theorem entry_points_stay_within_their_request_budget :
  (forall (seller_id marketplace : string) (force_refresh : bool) (w : World),
      (List.length (w_log (snd (Enhanced.get_seller_products seller_id marketplace
                                                              force_refresh w)))
       <= List.length (w_log w) + 226)%nat)
  /\
  (forall (seller_id marketplace : string) (force_refresh : bool) (w : World),
      (List.length (w_log (snd (Basic.get_seller_products seller_id marketplace
                                                           force_refresh w)))
       <= List.length (w_log w) + 1402)%nat).
Proof.
  split.
  - intros seller_id marketplace force_refresh w.
    rewrite enhanced_entry_point_world.
    pose proof (enhanced_scan_log_budget seller_id marketplace force_refresh w). lia.
  - intros seller_id marketplace force_refresh w.
    unfold Basic.get_seller_products, try_except, Basic.AmazonSellerScraper.init.
    unfold bind at 1. unfold bind at 1. unfold clock_now at 1. cbn [ret].
    pose proof (basic_scan_log_budget
                  (Basic.AmazonSellerScraper.mkScraper
                     marketplace ("https://www.amazon." ++ marketplace) 3)
                  seller_id force_refresh (snd (clock_now w))) as Hbudget.
    change (mkWorld (w_http w) (w_download w) (w_clock w) (S (w_ticks w)) (w_files w) (w_log w)
                     (w_writable w))
      with (snd (clock_now w)).
    destruct (Basic.AmazonSellerScraper.get_seller_products _ seller_id force_refresh
                                                            (snd (clock_now w)))
      as [[products|e] w1]; simpl in *; lia.
Qed.

(** The scan proper of amazon_scraper, with what it does to the cache
    directory. *)
Lemma basic_fresh_scan_store (self : Basic.AmazonSellerScraper.Scraper) (seller_id : string)
    (w : World) :
  exists (products : list Basic.Product) (w' : World),
    Basic.AmazonSellerScraper.fresh_scan self seller_id w
    = (Ret (PList (map Basic.product_dict products)), w')
    /\ (products = [] -> w_files w' = w_files w)
    /\ (products <> [] ->
        exists stored : list (string * pyval),
          w_files w' (Basic.AmazonSellerScraper._get_cache_path self seller_id)
          = (if w_writable w (Basic.AmazonSellerScraper._get_cache_path self seller_id)
             then Some (json_dumps_indent (PDict stored))
             else w_files w (Basic.AmazonSellerScraper._get_cache_path self seller_id))
          /\ assoc "seller_id" stored = Some (PStr seller_id)
          /\ assoc "products" stored = Some (PList (map Basic.product_dict products))
          /\ assoc "product_count" stored = Some (PInt (Z.of_nat (List.length products)))
          /\ assoc "last_updated" stored = Some (PInt (w_clock w (S (w_ticks w))))
          /\ assoc "timestamp" stored = Some (PInt (w_clock w (S (S (w_ticks w)))))
          /\ forall path, path <> Basic.AmazonSellerScraper._get_cache_path self seller_id ->
                          w_files w' path = w_files w path).
Proof.
  set (w1 := snd (clock_now w)).
  destruct (basic_get_seller_name_step self seller_id w1) as (found & name_evs & Hname & _).
  assert (Hurls : exists urls,
             Basic.AmazonSellerScraper.urls_to_try self seller_id w = (Ret urls, w1)).
  { eexists. reflexivity. }
  destruct Hurls as (urls & Hurls).
  destruct (crawl_urls_trace urls self seller_id (or_default found "Unknown Seller") [] 0
              (extend w1 name_evs)) as (evs & total & Hcrawl & _).
  set (products := fold_left (insert_new basic_same_asin)
                     (basic_offered self seller_id (or_default found "Unknown Seller") evs) [])
    in *.
  exists products.
  unfold Basic.AmazonSellerScraper.fresh_scan.
  rewrite (bind_ret_step _ _ _ _ _ Hurls).
  rewrite (bind_ret_step _ _ _ _ _ Hname).
  cbv zeta.
  rewrite (bind_ret_step _ _ _ _ _ Hcrawl).
  destruct products as [|p0 ps].
  - eexists. split; [reflexivity|]. split; [reflexivity|]. intros Hne. contradiction.
  - unfold bind at 1. unfold bind at 1. unfold clock_now at 1.
    rewrite basic_save_to_cache_exact.
    cbn [ret fst snd w_clock w_ticks w_files w_writable extend w1 clock_now].
    eexists. split; [reflexivity|]. split; [discriminate|]. intros _.
    eexists.
    destruct (w_writable w (Basic.AmazonSellerScraper._get_cache_path self seller_id));
      cbn [snd fst w_files clock_now].
    + rewrite String.eqb_refl.
      split; [reflexivity|].
      repeat (split; [reflexivity|]).
      intros path Hpath. apply String.eqb_neq in Hpath. rewrite Hpath. reflexivity.
    + split; [reflexivity|].
      repeat (split; [reflexivity|]).
      intros path Hpath. reflexivity.
Qed.

(** A scan of amazon_scraper writes the cache exactly when it found
    something.  With an empty result no file of the cache directory is
    touched, so an older snapshot of the seller stays in place.  With a
    non-empty result no file but that of the seller is touched; the document
    for it holds the returned list, its length as [product_count], and two
    successive clock readings as [last_updated] and [timestamp]; it replaces
    the file where the file can be written, and is lost where it cannot. *)
Theorem basic_scan_stores_exactly_when_it_found_products
    (self : Basic.AmazonSellerScraper.Scraper) (seller_id : string) (force_refresh : bool)
    (w : World) :
  basic_scan_runs self seller_id force_refresh w ->
  exists (products : list Basic.Product) (w' : World),
    Basic.AmazonSellerScraper.get_seller_products self seller_id force_refresh w
    = (Ret (PList (map Basic.product_dict products)), w')
    /\ (products = [] -> w_files w' = w_files w)
    /\ (products <> [] ->
        exists (stored : list (string * pyval)) (reading : nat),
          w_files w' (Basic.AmazonSellerScraper._get_cache_path self seller_id)
          = (if w_writable w (Basic.AmazonSellerScraper._get_cache_path self seller_id)
             then Some (json_dumps_indent (PDict stored))
             else w_files w (Basic.AmazonSellerScraper._get_cache_path self seller_id))
          /\ assoc "seller_id" stored = Some (PStr seller_id)
          /\ assoc "products" stored = Some (PList (map Basic.product_dict products))
          /\ assoc "product_count" stored = Some (PInt (Z.of_nat (List.length products)))
          /\ assoc "last_updated" stored = Some (PInt (w_clock w reading))
          /\ assoc "timestamp" stored = Some (PInt (w_clock w (S reading)))
          /\ forall path, path <> Basic.AmazonSellerScraper._get_cache_path self seller_id ->
                          w_files w' path = w_files w path).
Proof.
  intros Hruns.
  assert (Hstart : exists w0 : World,
             w_files w0 = w_files w /\ w_clock w0 = w_clock w /\ w_writable w0 = w_writable w
             /\ Basic.AmazonSellerScraper.get_seller_products self seller_id force_refresh w
                = Basic.AmazonSellerScraper.fresh_scan self seller_id w0).
  { unfold Basic.AmazonSellerScraper.get_seller_products.
    destruct force_refresh; simpl negb; cbv iota.
    - exists w. repeat split; reflexivity.
    - destruct Hruns as [Hf|Hmiss]; [discriminate|].
      pose proof (keeps_files_basic_cached_products self seller_id w) as [Hfiles Hclock].
      pose proof (quiet_basic_cached_products self seller_id w) as (_ & _ & _ & Hwritable).
      destruct (Basic.AmazonSellerScraper.cached_products self seller_id w) as [o w0] eqn:Hc.
      simpl in Hmiss, Hfiles, Hclock, Hwritable. subst o.
      exists w0. split; [exact Hfiles|]. split; [exact Hclock|]. split; [exact Hwritable|].
      rewrite (bind_ret_step _ _ _ _ _ Hc). reflexivity. }
  destruct Hstart as (w0 & Hfiles & Hclock & Hwritable & Hscan).
  destruct (basic_fresh_scan_store self seller_id w0) as (products & w' & Hfresh & Hempty & Hfull).
  exists products, w'.
  split; [rewrite Hscan; exact Hfresh|].
  split; [intros Hnil; rewrite (Hempty Hnil); exact Hfiles|].
  intros Hne.
  destruct (Hfull Hne) as (stored & Hfile & Hid & Hps & Hcount & Hlast & Hstamp & Hothers).
  exists stored, (S (w_ticks w0)).
  rewrite Hclock, Hwritable, Hfiles in *.
  split; [exact Hfile|].
  split; [exact Hid|].
  split; [exact Hps|].
  split; [exact Hcount|].
  split; [exact Hlast|].
  split; [exact Hstamp|].
  exact Hothers.
Qed.

(** With every fetch failing, the scan proper of enhanced_amazon_scraper
    still writes a snapshot where it can: the empty one. *)
Lemma enhanced_fresh_scan_offline_exact (seller_id marketplace : string) (w : World) :
  offline w ->
  w_writable w (Enhanced.get_cache_path seller_id marketplace) = true ->
  exists evs : list Event,
    Enhanced.fresh_scan seller_id marketplace w
    = (Ret (PList [], PStr "Unknown Seller"),
       mkWorld (w_http w) (w_download w) (w_clock w) (S (w_ticks w))
               (fun p => if String.eqb p (Enhanced.get_cache_path seller_id marketplace)
                         then Some (json_dumps
                                      (PDict (enhanced_stamped
                                                (empty_snapshot seller_id marketplace)
                                                (w_clock w (w_ticks w)))))
                         else w_files w p)
               (w_log w ++ evs) (w_writable w)).
Proof.
  intros Hoff Hwritable. unfold Enhanced.fresh_scan.
  rewrite (bind_ret_step _ _ _ _ _ (enhanced_get_seller_name_step seller_id marketplace w)).
  rewrite (enhanced_fetched_offline _ _ Hoff).
  assert (Hoff1 : offline (extend w [EvRequest ("https://www.amazon." ++ marketplace
                                                ++ "/sp?seller=" ++ seller_id) None])).
  { apply offline_extend. exact Hoff. }
  rewrite (bind_ret_step _ _ _ _ _ (scan_patterns_offline _ seller_id marketplace [] _ Hoff1)).
  cbv zeta. rewrite extend_extend.
  unfold bind at 1. rewrite enhanced_save_to_cache_exact.
  cbn [w_writable extend]. rewrite Hwritable.
  eexists. reflexivity.
Qed.

(** A scan of enhanced_amazon_scraper writes the cache whatever it found,
    so a scan during which every fetch failed leaves an empty snapshot
    behind where the file can be written, and that snapshot is what the next
    unforced call answers with: for the twelve hours that follow, the entry
    point returns the empty list without a single request, whatever the
    network would bring by then.  The JSON and the ISO-date round trips of
    the libraries are assumed for the snapshot. *)
Theorem enhanced_failed_scan_is_served_from_the_cache_afterwards
    (seller_id marketplace : string) (w : World) :
  offline w ->
  w_writable w (Enhanced.get_cache_path seller_id marketplace) = true ->
  json_loads (json_dumps (PDict (enhanced_stamped (empty_snapshot seller_id marketplace)
                                                  (w_clock w (w_ticks w)))))
  = Some (PDict (enhanced_stamped (empty_snapshot seller_id marketplace)
                                  (w_clock w (w_ticks w)))) ->
  fromisoformat (isoformat (w_clock w (w_ticks w))) = IsoNaive (w_clock w (w_ticks w)) ->
  exists w1 : World,
    Enhanced.get_seller_products seller_id marketplace true w = (Ret (PList []), w1)
    /\ forall w2 : World,
         w_files w2 = w_files w1 ->
         w_clock w2 (w_ticks w2) - w_clock w (w_ticks w) <= 12 * 3600 ->
         fst (Enhanced.get_seller_products seller_id marketplace false w2) = Ret (PList [])
         /\ w_log (snd (Enhanced.get_seller_products seller_id marketplace false w2)) = w_log w2.
Proof.
  intros Hoff Hwritable Hjson Hiso.
  destruct (enhanced_fresh_scan_offline_exact seller_id marketplace w Hoff Hwritable)
    as (evs & Hscan).
  eexists. split.
  - unfold Enhanced.get_seller_products, try_except, Enhanced.scan_seller_inventory.
    simpl negb. cbv iota.
    unfold bind at 1. unfold bind at 1. unfold ret at 1.
    rewrite Hscan. reflexivity.
  - intros w2 Hfiles Hage.
    assert (Hhit : exists seller_name w3,
               Enhanced.cached_inventory seller_id marketplace w2
               = (Ret (Some (PList [], seller_name)), w3)
               /\ w_log w3 = w_log w2).
    { apply (enhanced_cached_inventory_hit seller_id marketplace w2
               (json_dumps (PDict (enhanced_stamped (empty_snapshot seller_id marketplace)
                                                    (w_clock w (w_ticks w)))))
               (enhanced_stamped (empty_snapshot seller_id marketplace) (w_clock w (w_ticks w)))
               (w_clock w (w_ticks w)) []).
      - rewrite Hfiles. cbn [w_files]. rewrite String.eqb_refl. reflexivity.
      - exact Hjson.
      - unfold enhanced_entry_time, enhanced_stamped. rewrite assoc_dict_set_same, Hiso.
        reflexivity.
      - exact Hage.
      - unfold enhanced_stamped. rewrite assoc_dict_set_other by discriminate. reflexivity. }
    destruct Hhit as (seller_name & w3 & Hhit & Hlog).
    assert (Hcall : Enhanced.get_seller_products seller_id marketplace false w2
                    = (Ret (PList []), w3)).
    { unfold Enhanced.get_seller_products, try_except, Enhanced.scan_seller_inventory.
      simpl negb. cbv iota.
      unfold bind at 1. rewrite (bind_ret_step _ _ _ _ _ Hhit). reflexivity. }
    rewrite Hcall. split; [reflexivity|exact Hlog].
Qed.

End ScansAndCache.

Section OddEntries.
Context `{Platform}.

(** A fresh cache entry with an odd [products] field; fresh means that
    the entry parses, that its time stamp is one the age computation
    accepts, and that its age is within the window.  In
    enhanced_amazon_scraper an entry without the field is passed over and
    the scan runs.  In both modules an entry whose field is a number, a
    truth value or null makes the cache branch raise on [len], and the entry
    point answers the empty list without a single request and without
    touching the cache directory, so it does so again on every call until
    the entry has aged out. *)
Theorem fresh_entry_with_an_odd_products_field :
  (forall (seller_id marketplace : string) (w : World)
          (content : string) (d : list (string * pyval)) (t : Z),
      w_files w (Enhanced.get_cache_path seller_id marketplace) = Some content ->
      json_loads content = Some (PDict d) ->
      enhanced_entry_time (PDict d) = Some t ->
      w_clock w (w_ticks w) - t <= 12 * 3600 ->
      assoc "products" d = None ->
      enhanced_scan_runs seller_id marketplace false w)
  /\
  (forall (seller_id marketplace : string) (w : World)
          (content : string) (d : list (string * pyval)) (t : Z) (products : pyval),
      w_files w (Enhanced.get_cache_path seller_id marketplace) = Some content ->
      json_loads content = Some (PDict d) ->
      enhanced_entry_time (PDict d) = Some t ->
      w_clock w (w_ticks w) - t <= 12 * 3600 ->
      assoc "products" d = Some products ->
      sized products = false ->
      fst (Enhanced.get_seller_products seller_id marketplace false w) = Ret (PList [])
      /\ w_log (snd (Enhanced.get_seller_products seller_id marketplace false w)) = w_log w
      /\ w_files (snd (Enhanced.get_seller_products seller_id marketplace false w)) = w_files w)
  /\
  (forall (seller_id marketplace : string) (w : World)
          (content : string) (d : list (string * pyval)) (t : Z) (products : pyval),
      w_files w (path_join basic_cache_dir (seller_id ++ "_" ++ marketplace ++ ".json"))
      = Some content ->
      json_loads content = Some (PDict d) ->
      basic_entry_time (PDict d) = Some t ->
      w_clock w (S (w_ticks w)) - t < 86400 ->
      assoc "products" d = Some products ->
      sized products = false ->
      fst (Basic.get_seller_products seller_id marketplace false w) = Ret (PList [])
      /\ w_log (snd (Basic.get_seller_products seller_id marketplace false w)) = w_log w
      /\ w_files (snd (Basic.get_seller_products seller_id marketplace false w)) = w_files w).
Proof.
  assert (Hlookup : forall (seller_id marketplace : string) (w : World)
                           (content : string) (d : list (string * pyval)) (t : Z),
             w_files w (Enhanced.get_cache_path seller_id marketplace) = Some content ->
             json_loads content = Some (PDict d) ->
             enhanced_entry_time (PDict d) = Some t ->
             w_clock w (w_ticks w) - t <= 12 * 3600 ->
             exists w1, Enhanced.get_from_cache seller_id marketplace 12 w
                        = (Ret (Some (PDict d)), w1)).
  { intros seller_id marketplace w content d t Hfile Hjson Htime Hage.
    pose proof (enhanced_lookup_twelve_hours seller_id marketplace w) as Hspec.
    unfold lookup_spec, parse_entry in Hspec.
    rewrite Hfile, Hjson, Htime in Hspec.
    replace (w_clock w (w_ticks w) - t >? 12 * 3600) with false in Hspec
      by (symmetry; rewrite Z.gtb_ltb; apply Z.ltb_ge; lia).
    destruct (Enhanced.get_from_cache seller_id marketplace 12 w) as [o w1].
    simpl in Hspec. subst o. exists w1. reflexivity. }
  split; [|split].
  - intros seller_id marketplace w content d t Hfile Hjson Htime Hage Hps.
    destruct (Hlookup _ _ _ _ _ _ Hfile Hjson Htime Hage) as (w1 & Hget).
    right. unfold Enhanced.cached_inventory.
    rewrite (bind_ret_step _ _ _ _ _ Hget).
    destruct (truthy (PDict d)); [|reflexivity].
    cbn [negb]. unfold bind, py_in, ret. rewrite Hps. reflexivity.
  - intros seller_id marketplace w content d t products Hfile Hjson Htime Hage Hps Hsized.
    destruct (Hlookup _ _ _ _ _ _ Hfile Hjson Htime Hage) as (w1 & Hget).
    pose proof (quiet_enhanced_cached_inventory seller_id marketplace w) as (_ & _ & Hlog & _).
    pose proof (keeps_files_enhanced_cached_inventory seller_id marketplace w) as [Hfiles _].
    assert (Hraise : exists w2, Enhanced.cached_inventory seller_id marketplace w
                                = (Raise TypeError, w2)).
    { unfold Enhanced.cached_inventory.
      rewrite (bind_ret_step _ _ _ _ _ Hget).
      assert (Htruthy : truthy (PDict d) = true) by (destruct d; [discriminate|reflexivity]).
      rewrite Htruthy. cbn [negb].
      unfold bind, py_in, py_getitem, py_get, ret. rewrite Hps.
      destruct products; try discriminate; eexists; reflexivity. }
    destruct Hraise as (w2 & Hraise). rewrite Hraise in Hlog, Hfiles. simpl in Hlog, Hfiles.
    assert (Hcall : Enhanced.get_seller_products seller_id marketplace false w
                    = (Ret (PList []), w2)).
    { unfold Enhanced.get_seller_products, try_except, Enhanced.scan_seller_inventory.
      simpl negb. cbv iota.
      unfold bind at 1. rewrite (bind_raise_step _ _ _ _ _ Hraise). reflexivity. }
    rewrite Hcall. auto.
  - intros seller_id marketplace w content d t products Hfile Hjson Htime Hage Hps Hsized.
    set (self := Basic.AmazonSellerScraper.mkScraper
                   marketplace ("https://www.amazon." ++ marketplace) 3).
    set (w0 := snd (clock_now w)).
    pose proof (quiet_basic_cached_products self seller_id w0) as (_ & _ & Hlog & _).
    pose proof (keeps_files_basic_cached_products self seller_id w0) as [Hfiles _].
    pose proof (basic_get_from_cache_spec self seller_id w0) as Hspec.
    unfold lookup_spec, parse_entry in Hspec.
    change (w_files w0) with (w_files w) in Hspec.
    change (Basic.AmazonSellerScraper._get_cache_path self seller_id)
      with (path_join basic_cache_dir (seller_id ++ "_" ++ marketplace ++ ".json")) in Hspec.
    rewrite Hfile, Hjson, Htime in Hspec.
    change (w_clock w0 (w_ticks w0)) with (w_clock w (S (w_ticks w))) in Hspec.
    replace (w_clock w (S (w_ticks w)) - t <? 86400) with true in Hspec
      by (symmetry; apply Z.ltb_lt; lia).
    cbn [negb] in Hspec.
    assert (Hraise : exists w2, Basic.AmazonSellerScraper.cached_products self seller_id w0
                                = (Raise TypeError, w2)).
    { unfold Basic.AmazonSellerScraper.cached_products.
      destruct (Basic.AmazonSellerScraper._get_from_cache self seller_id w0) as [o w1] eqn:Hget.
      simpl in Hspec. subst o. rewrite (bind_ret_step _ _ _ _ _ Hget).
      assert (Htruthy : truthy (PDict d) = true) by (destruct d; [discriminate|reflexivity]).
      rewrite Htruthy.
      unfold bind, py_get, ret. rewrite Hps.
      destruct products; try discriminate; eexists; reflexivity. }
    destruct Hraise as (w2 & Hraise). rewrite Hraise in Hlog, Hfiles. simpl in Hlog, Hfiles.
    assert (Hcall : Basic.get_seller_products seller_id marketplace false w
                    = (Ret (PList []), w2)).
    { unfold Basic.get_seller_products, try_except, Basic.AmazonSellerScraper.init.
      unfold bind at 1. unfold bind at 1. unfold clock_now at 1. cbn [ret].
      fold self.
      change (mkWorld (w_http w) (w_download w) (w_clock w) (S (w_ticks w)) (w_files w) (w_log w)
                     (w_writable w))
        with w0.
      unfold Basic.AmazonSellerScraper.get_seller_products. simpl negb. cbv iota.
      rewrite (bind_raise_step _ _ _ _ _ Hraise). reflexivity. }
    rewrite Hcall. auto.
Qed.

End OddEntries.

Lemma fresh_entry_with_an_odd_products_field_witness :
  enhanced_scan_runs (H := OddCache.platform) "S1" "co.uk" false OddCache.bare_world
  /\ fst (Enhanced.get_seller_products (H := OddCache.platform) "S1" "co.uk" false OddCache.world)
     = Ret (PList [])
  /\ fst (Basic.get_seller_products (H := OddCache.platform) "S1" "co.uk" false OddCache.world)
     = Ret (PList []).
Proof.
  pose proof (fresh_entry_with_an_odd_products_field (H := OddCache.platform))
    as (Hbare & Henhanced & Hbasic).
  split; [|split].
  - apply (Hbare "S1" "co.uk" OddCache.bare_world "bare" [("seller_id", PStr "S1")] 0);
      try reflexivity.
    vm_compute. discriminate.
  - apply (Henhanced "S1" "co.uk" OddCache.world "odd" [("products", PInt 3)] 0 (PInt 3));
      try reflexivity.
    vm_compute. discriminate.
  - apply (Hbasic "S1" "co.uk" OddCache.world "odd" [("products", PInt 3)] 0 (PInt 3));
      try reflexivity.
Defined.

(** ** What the records of a scan look like *)

Lemma Forall_first_seen {R : Type} (same : R -> R -> bool) (P : R -> Prop) (l : list R) :
  Forall P l -> Forall P (first_seen same l).
Proof.
  intros Hall. apply Forall_forall. intros q Hq.
  apply first_seen_incl in Hq. revert q Hq. apply Forall_forall. exact Hall.
Qed.

Lemma nonempty_or_default (x : option string) (default : string) :
  nonempty default = true -> nonempty (or_default x default) = true.
Proof.
  intros Hd. unfold or_default. destruct x as [s|]; [|exact Hd].
  destruct (nonempty s) eqn:E; [exact E|exact Hd].
Qed.

Section Records.
Context `{Platform}.

Lemma first_text_clean (element : Tag) (selectors : list string) (t : string) :
  first_text element selectors = Some t -> nonempty t = true /\ strip t = t.
Proof.
  intros E. destruct (first_text_some _ _ _ E) as (_ & _ & _ & e & _ & _ & _ & Ht & Hn).
  split; [exact Hn|]. subst t. apply strip_idempotent.
Qed.

Lemma basic_product_of_element_ok (self : Basic.AmazonSellerScraper.Scraper) (element : Tag)
    (seller_id seller_name : string) (p : Basic.Product) :
  Basic.AmazonSellerScraper.product_of_element self element seller_id seller_name = Some p ->
  basic_record_ok self seller_id seller_name p.
Proof.
  rewrite basic_product_of_element_cases.
  destruct (Nat.eqb (String.length (data_asin element)) 10) eqn:Elen; [|discriminate].
  destruct (first_text element Basic.AmazonSellerScraper.title_selectors) as [title|] eqn:Et;
    [|discriminate].
  intros E. inversion E; subst p. clear E.
  destruct (first_text_clean _ _ _ Et) as [Hn Hs].
  unfold basic_record_ok. cbn [Basic.p_asin Basic.p_title Basic.p_seller_id Basic.p_seller_name
                               Basic.p_link Basic.p_marketplace Basic.p_price_text].
  split; [apply Nat.eqb_eq; exact Elen|].
  split; [exact Hn|].
  split; [exact Hs|].
  repeat (split; [reflexivity|]).
  intros price Hprice.
  exact (first_text_clean element Basic.AmazonSellerScraper.price_selectors price Hprice).
Qed.

Lemma basic_offered_ok (self : Basic.AmazonSellerScraper.Scraper)
    (seller_id seller_name : string) (evs : list Event) :
  Forall (basic_record_ok self seller_id seller_name)
         (basic_offered self seller_id seller_name evs).
Proof.
  unfold basic_offered. apply Forall_flat_map. apply Forall_forall. intros ev _.
  destruct ev as [url [r|]|url r]; try constructor.
  unfold basic_candidates.
  destruct (Basic.AmazonSellerScraper.is_invalid_page (r_text r)); [constructor|].
  induction (first_matches (BeautifulSoup (r_content r))
                           Basic.AmazonSellerScraper.product_selectors) as [|element rest IH];
    simpl; [constructor|].
  destruct (Basic.AmazonSellerScraper.product_of_element self element seller_id seller_name)
    as [p|] eqn:Ep; [|exact IH].
  constructor; [|exact IH]. apply (basic_product_of_element_ok _ _ _ _ _ Ep).
Qed.

(** Every record a scan of amazon_scraper returns carries an identifier of
    exactly ten characters, a non-blank title without blanks at its ends,
    the seller identifier that was asked for, one and the same non-empty
    seller name, a link built from the base address of the marketplace and
    its own identifier, and, when it has a price, a non-blank one. *)
Theorem basic_scan_records_are_well_formed (self : Basic.AmazonSellerScraper.Scraper)
    (seller_id : string) (force_refresh : bool) (w : World) :
  basic_scan_runs self seller_id force_refresh w ->
  exists (products : list Basic.Product) (seller_name : string),
    fst (Basic.AmazonSellerScraper.get_seller_products self seller_id force_refresh w)
    = Ret (PList (map Basic.product_dict products))
    /\ nonempty seller_name = true
    /\ Forall (basic_record_ok self seller_id seller_name) products.
Proof.
  intros Hruns.
  destruct (basic_scan_when_runs _ _ _ _ Hruns) as (w0 & _ & Heq).
  destruct (basic_fresh_scan_trace self seller_id w0)
    as (urls & found & name_evs & evs & products & w' &
        _ & _ & Hfresh & Hproducts & _).
  exists products, (or_default found "Unknown Seller").
  split; [rewrite Heq, Hfresh; reflexivity|].
  split; [apply nonempty_or_default; reflexivity|].
  rewrite Hproducts. apply Forall_first_seen. apply basic_offered_ok.
Qed.

Lemma enhanced_product_of_element_ok (product : Tag) (seller_id : string) (p : Enhanced.Product) :
  Enhanced.product_of_element product seller_id = Some p ->
  truthy (Enhanced.p_asin p) = true
  /\ Enhanced.p_seller_id p = seller_id
  /\ Enhanced.p_marketplace p = "UK"
  /\ Enhanced.p_source p = "enhanced_amazon"
  /\ Enhanced.p_link p = "https://www.amazon.co.uk/dp/" ++ py_format (Enhanced.p_asin p)
  /\ (forall price, Enhanced.p_price p = Some price -> strip price = price).
Proof.
  unfold Enhanced.product_of_element.
  destruct (Enhanced.is_sponsored product); [discriminate|].
  cbv zeta.
  destruct (truthy (Enhanced.element_asin product)) eqn:Et; [|discriminate].
  cbn [negb]. intros E. inversion E; subst p. clear E.
  cbn [Enhanced.p_asin Enhanced.p_seller_id Enhanced.p_marketplace Enhanced.p_source
       Enhanced.p_link Enhanced.p_price].
  split; [exact Et|].
  repeat (split; [reflexivity|]).
  intros price Hprice.
  destruct (select_one product Enhanced.price_selector); [|discriminate].
  inversion Hprice. apply strip_idempotent.
Qed.

Lemma enhanced_offered_ok (seller_id : string) (evs : list Event) :
  Forall (fun p => truthy (Enhanced.p_asin p) = true
                   /\ Enhanced.p_seller_id p = seller_id
                   /\ Enhanced.p_marketplace p = "UK"
                   /\ Enhanced.p_source p = "enhanced_amazon"
                   /\ Enhanced.p_link p
                      = "https://www.amazon.co.uk/dp/" ++ py_format (Enhanced.p_asin p)
                   /\ (forall price, Enhanced.p_price p = Some price -> strip price = price))
         (enhanced_offered seller_id evs).
Proof.
  unfold enhanced_offered. apply Forall_flat_map. apply Forall_forall. intros ev _.
  destruct ev as [url [r|]|url r]; try constructor.
  unfold Enhanced.extract_products_from_search_page. cbv zeta.
  induction (first_matches (BeautifulSoup (r_text r)) Enhanced.grid_selectors)
    as [|product rest IH]; simpl; [constructor|].
  destruct (Enhanced.product_of_element product seller_id) as [p|] eqn:Ep; [|exact IH].
  constructor; [|exact IH]. apply (enhanced_product_of_element_ok _ _ _ Ep).
Qed.

(** The insertion loop: it fails with a [TypeError] and with no other
    exception, exactly when one of the records has an unhashable
    identifier; it touches nothing of the world; what it adds to the dict
    has hashable identifiers. *)
Lemma add_new_products_outcome (page_products : list Enhanced.Product) :
  forall (all_products : Enhanced.product_map) (w : World),
    fst (Enhanced.add_new_products page_products all_products w)
    = if forallb (fun p => hashable (Enhanced.p_asin p)) page_products
      then Ret (fold_left enhanced_insert_new page_products all_products)
      else Raise TypeError.
Proof.
  induction page_products as [|p rest IH]; intros all_products w; simpl; [reflexivity|].
  unfold bind, Enhanced.has_key.
  destruct (hashable (Enhanced.p_asin p)); simpl; [|reflexivity].
  unfold enhanced_insert_new at 2.
  destruct (existsb _ all_products); apply IH.
Qed.

Lemma add_new_products_keys (page_products : list Enhanced.Product) :
  forall (all_products all' : Enhanced.product_map) (w w' : World),
    Enhanced.add_new_products page_products all_products w = (Ret all', w') ->
    hashable_keys all_products -> hashable_keys all'.
Proof.
  induction page_products as [|p rest IH]; intros all_products all' w w'; simpl.
  - unfold ret. intros E Hok. inversion E; subst. exact Hok.
  - unfold bind, Enhanced.has_key.
    destruct (hashable (Enhanced.p_asin p)) eqn:Eh; simpl; [|discriminate].
    destruct (existsb _ all_products).
    + apply IH.
    + intros E Hok. apply (IH _ _ _ _ E).
      apply Forall_app. split; [exact Hok|]. constructor; [exact Eh|constructor].
Qed.

Lemma add_new_products_raise (page_products : list Enhanced.Product)
    (all_products : Enhanced.product_map) (w w' : World) (e : exn) :
  Enhanced.add_new_products page_products all_products w = (Raise e, w') -> e = TypeError.
Proof.
  intros E. pose proof (add_new_products_outcome page_products all_products w) as Ho.
  rewrite E in Ho. simpl in Ho.
  destruct (forallb _ page_products); congruence.
Qed.

(** One run of a page loop, of a pattern or of all patterns writes no
    file, fails by a [TypeError] only, and keeps the identifiers of the dict
    hashable. *)
Lemma first_pages_sound (pages : list Z) :
  forall (pattern : Enhanced.url_pattern) (seller_id marketplace : string)
         (all_products : Enhanced.product_map) (count : Z) (w w' : World)
         (o : outcome (Enhanced.product_map * Z)),
    Enhanced.first_pages pages pattern seller_id marketplace all_products count w = (o, w') ->
    w_files w' = w_files w
    /\ match o with
       | Ret (all', _) => hashable_keys all_products -> hashable_keys all'
       | Raise e => e = TypeError
       end.
Proof.
  induction pages as [|page rest IH];
    intros pattern seller_id marketplace all_products count w w' o E.
  - simpl in E. inversion E; subst. split; [reflexivity|auto].
  - rewrite first_pages_cons in E. cbv zeta in E.
    set (url := Enhanced.format pattern marketplace seller_id page) in *.
    destruct (enhanced_fetched w url) as [resp|].
    + destruct (Enhanced.extract_products_from_search_page (r_text resp) seller_id)
        as [|p0 pp] eqn:Ex.
      * inversion E; subst. split; [reflexivity|auto].
      * pose proof (add_new_products_world (p0 :: pp) all_products
                      (extend w [EvRequest url (Some resp)])) as Hw.
        destruct (Enhanced.add_new_products (p0 :: pp) all_products
                    (extend w [EvRequest url (Some resp)])) as [[all1|e] w1] eqn:Eadd;
          simpl in Hw; subst w1.
        -- destruct (IH _ _ _ _ _ _ _ _ E) as [Hfiles Hres].
           split; [rewrite Hfiles; reflexivity|].
           destruct o as [[all' count']|e]; [|exact Hres].
           intros Hok. apply Hres. apply (add_new_products_keys _ _ _ _ _ Eadd Hok).
        -- inversion E; subst. split; [reflexivity|].
           apply (add_new_products_raise _ _ _ _ _ Eadd).
    + inversion E; subst. split; [reflexivity|auto].
Qed.

Lemma extra_pages_sound (pages : list Z) :
  forall (pattern : Enhanced.url_pattern) (seller_id marketplace : string)
         (all_products : Enhanced.product_map) (w w' : World)
         (o : outcome Enhanced.product_map),
    Enhanced.extra_pages pages pattern seller_id marketplace all_products w = (o, w') ->
    w_files w' = w_files w
    /\ match o with
       | Ret all' => hashable_keys all_products -> hashable_keys all'
       | Raise e => e = TypeError
       end.
Proof.
  induction pages as [|page rest IH];
    intros pattern seller_id marketplace all_products w w' o E.
  - simpl in E. inversion E; subst. split; [reflexivity|auto].
  - rewrite extra_pages_cons in E. cbv zeta in E.
    set (url := Enhanced.format pattern marketplace seller_id page) in *.
    destruct (enhanced_fetched w url) as [resp|].
    + destruct (Enhanced.extract_products_from_search_page (r_text resp) seller_id)
        as [|p0 pp] eqn:Ex.
      * inversion E; subst. split; [reflexivity|auto].
      * pose proof (add_new_products_world (p0 :: pp) all_products
                      (extend w [EvRequest url (Some resp)])) as Hw.
        destruct (Enhanced.add_new_products (p0 :: pp) all_products
                    (extend w [EvRequest url (Some resp)])) as [[all1|e] w1] eqn:Eadd;
          simpl in Hw; subst w1.
        -- destruct (IH _ _ _ _ _ _ _ E) as [Hfiles Hres].
           split; [rewrite Hfiles; reflexivity|].
           destruct o as [all'|e]; [|exact Hres].
           intros Hok. apply Hres. apply (add_new_products_keys _ _ _ _ _ Eadd Hok).
        -- inversion E; subst. split; [reflexivity|].
           apply (add_new_products_raise _ _ _ _ _ Eadd).
    + inversion E; subst. split; [reflexivity|auto].
Qed.

Lemma scan_pattern_sound (pattern : Enhanced.url_pattern) (seller_id marketplace : string)
    (all_products : Enhanced.product_map) (w w' : World) (o : outcome Enhanced.product_map) :
  Enhanced.scan_pattern pattern seller_id marketplace all_products w = (o, w') ->
  w_files w' = w_files w
  /\ match o with
     | Ret all' => hashable_keys all_products -> hashable_keys all'
     | Raise e => e = TypeError
     end.
Proof.
  unfold Enhanced.scan_pattern, bind. intros E.
  destruct (Enhanced.first_pages (py_range 1 8) pattern seller_id marketplace all_products 0 w)
    as [o1 w1] eqn:E1.
  destruct (first_pages_sound _ _ _ _ _ _ _ _ _ E1) as [Hfiles1 Hres1].
  destruct o1 as [[all1 count]|e].
  - destruct (count >=? 100).
    + destruct (extra_pages_sound _ _ _ _ _ _ _ _ E) as [Hfiles2 Hres2].
      split; [rewrite Hfiles2; exact Hfiles1|].
      destruct o as [all'|e]; [|exact Hres2]. auto.
    + inversion E; subst o w'. split; [exact Hfiles1|exact Hres1].
  - inversion E; subst o w'. split; [exact Hfiles1|exact Hres1].
Qed.

Lemma scan_patterns_sound (patterns : list Enhanced.url_pattern) :
  forall (seller_id marketplace : string) (all_products : Enhanced.product_map)
         (w w' : World) (o : outcome Enhanced.product_map),
    Enhanced.scan_patterns patterns seller_id marketplace all_products w = (o, w') ->
    w_files w' = w_files w
    /\ match o with
       | Ret all' => hashable_keys all_products -> hashable_keys all'
       | Raise e => e = TypeError
       end.
Proof.
  induction patterns as [|pattern rest IH]; intros seller_id marketplace all_products w w' o E.
  - simpl in E. inversion E; subst. split; [reflexivity|auto].
  - cbn [Enhanced.scan_patterns] in E. unfold bind in E.
    destruct (Enhanced.scan_pattern pattern seller_id marketplace all_products w)
      as [o1 w1] eqn:E1.
    destruct (scan_pattern_sound _ _ _ _ _ _ _ E1) as [Hfiles1 Hres1].
    destruct o1 as [all1|e].
    + destruct (IH _ _ _ _ _ _ E) as [Hfiles2 Hres2].
      split; [rewrite Hfiles2; exact Hfiles1|].
      destruct o as [all'|e]; [|exact Hres2]. auto.
    + inversion E; subst o w'. split; [exact Hfiles1|exact Hres1].
Qed.

(** The scan proper of enhanced_amazon_scraper, by outcome. *)
Lemma enhanced_fresh_scan_sound (seller_id marketplace : string) (w w' : World)
    (o : outcome (pyval * pyval)) :
  Enhanced.fresh_scan seller_id marketplace w = (o, w') ->
  match o with
  | Ret (products, seller_name) =>
      exists (records : list Enhanced.Product) (name : string),
        products = PList (map Enhanced.product_dict records)
        /\ seller_name = PStr name
        /\ nonempty name = true
        /\ Forall (enhanced_record_ok seller_id) records
        /\ Forall (fun p => hashable (Enhanced.p_asin p) = true) records
  | Raise e => e = TypeError /\ w_files w' = w_files w
  end.
Proof.
  unfold Enhanced.fresh_scan. intros E.
  rewrite (bind_ret_step _ _ _ _ _ (enhanced_get_seller_name_step seller_id marketplace w)) in E.
  set (url := "https://www.amazon." ++ marketplace ++ "/sp?seller=" ++ seller_id) in *.
  set (r := enhanced_fetched w url) in *.
  unfold bind at 1 in E.
  destruct (Enhanced.scan_patterns Enhanced.SELLER_URL_PATTERNS seller_id marketplace []
              (extend w [EvRequest url r])) as [o1 w1] eqn:E1.
  destruct (scan_patterns_trace _ _ _ _ _ _ _ E1) as (evs & _ & _ & _ & Hres).
  destruct (scan_patterns_sound _ _ _ _ _ _ _ E1) as [Hfiles Hkeys].
  destruct o1 as [all_products|e].
  - cbv zeta in E.
    rewrite (bind_ret_step _ _ _ _ _ (enhanced_save_to_cache_exact _ _ _ w1)) in E.
    inversion E; subst o w'. clear E.
    exists (map snd all_products). eexists.
    split; [rewrite map_map; reflexivity|].
    split; [reflexivity|].
    split; [apply nonempty_or_default; reflexivity|].
    split.
    + rewrite Hres, enhanced_fold_first_seen. apply Forall_first_seen.
      apply enhanced_offered_ok.
    + specialize (Hkeys (Forall_nil _)). unfold hashable_keys in Hkeys.
      apply Forall_map. exact Hkeys.
  - inversion E; subst o w'. split; [exact Hkeys|exact Hfiles].
Qed.

(** Every record a scan of enhanced_amazon_scraper returns carries a truthy
    and hashable identifier and the seller identifier that was asked for; a
    price, when present, has no blank at its ends.  Whatever the marketplace
    of the scan, the link of a record points to amazon.co.uk and its
    marketplace reads "UK".  The seller name returned with the records is a
    non-empty text. *)
Theorem enhanced_scan_records_are_well_formed (seller_id marketplace : string)
    (force_refresh : bool) (w w' : World) (products seller_name : pyval) :
  enhanced_scan_runs seller_id marketplace force_refresh w ->
  Enhanced.scan_seller_inventory seller_id marketplace force_refresh w
  = (Ret (products, seller_name), w') ->
  exists (records : list Enhanced.Product) (name : string),
    products = PList (map Enhanced.product_dict records)
    /\ seller_name = PStr name
    /\ nonempty name = true
    /\ Forall (enhanced_record_ok seller_id) records
    /\ Forall (fun p => hashable (Enhanced.p_asin p) = true) records.
Proof.
  intros Hruns Hscan.
  destruct (enhanced_scan_when_runs _ _ _ _ Hruns) as (w0 & _ & Heq).
  rewrite Heq in Hscan.
  exact (enhanced_fresh_scan_sound _ _ _ _ _ Hscan).
Qed.

(** The insertion loop of enhanced_amazon_scraper raises exactly when one
    of the records it is given has an unhashable identifier (a JSON list or
    object taken from the component properties), and then a [TypeError].
    A forced scan fails with no other exception; when it fails, no cache
    file is written and the entry point answers the empty list, so the
    records found before the failure are dropped with it. *)
Theorem enhanced_scan_fails_only_on_an_unhashable_identifier :
  (forall (page_products : list Enhanced.Product) (all_products : Enhanced.product_map)
          (w : World),
      (forall e, fst (Enhanced.add_new_products page_products all_products w) = Raise e ->
                 e = TypeError)
      /\ (fst (Enhanced.add_new_products page_products all_products w) = Raise TypeError
          <-> exists p, In p page_products /\ hashable (Enhanced.p_asin p) = false))
  /\
  (forall (seller_id marketplace : string) (w w' : World) (e : exn),
      Enhanced.scan_seller_inventory seller_id marketplace true w = (Raise e, w') ->
      e = TypeError
      /\ w_files w' = w_files w
      /\ Enhanced.get_seller_products seller_id marketplace true w = (Ret (PList []), w')).
Proof.
  split.
  - intros page_products all_products w.
    rewrite add_new_products_outcome.
    destruct (forallb (fun p => hashable (Enhanced.p_asin p)) page_products) eqn:Eall.
    + split; [discriminate|].
      split; [discriminate|].
      intros (p & Hin & Hp). rewrite forallb_forall in Eall.
      rewrite (Eall p Hin) in Hp. discriminate.
    + split; [congruence|].
      split; [|reflexivity].
      intros _.
      assert (Hex : existsb (fun p => negb (hashable (Enhanced.p_asin p))) page_products = true).
      { clear -Eall. induction page_products as [|p rest IH]; simpl in *; [discriminate|].
        destruct (hashable (Enhanced.p_asin p)); simpl in *; auto. }
      apply existsb_exists in Hex. destruct Hex as (p & Hin & Hp).
      exists p. split; [exact Hin|]. destruct (hashable (Enhanced.p_asin p)); [discriminate|auto].
  - intros seller_id marketplace w w' e Hscan.
    assert (Hfresh : Enhanced.fresh_scan seller_id marketplace w = (Raise e, w')).
    { unfold Enhanced.scan_seller_inventory in Hscan. simpl negb in Hscan. cbv iota in Hscan.
      unfold bind at 1 in Hscan. unfold ret at 1 in Hscan. exact Hscan. }
    destruct (enhanced_fresh_scan_sound _ _ _ _ _ Hfresh) as [He Hfiles].
    split; [exact He|]. split; [exact Hfiles|].
    unfold Enhanced.get_seller_products, try_except. unfold bind at 1.
    rewrite Hscan. reflexivity.
Qed.

End Records.

(** ** Pages, selectors and file names *)

Lemma string_app_assoc (a b c : string) : (a ++ b) ++ c = a ++ b ++ c.
Proof. induction a as [|x a IH]; simpl; [reflexivity|]. rewrite IH. reflexivity. Qed.

(** The first selector of the list that selects anything decides; the
    selectors before it select nothing and those after it are not
    consulted. *)
Lemma first_matches_cases (soup : Tag) (selectors : list string) :
  (Forall (fun selector => tag_select soup selector = []) selectors
   /\ first_matches soup selectors = [])
  \/ (exists (before : list string) (selector : string) (after : list string),
         selectors = (before ++ selector :: after)%list
         /\ Forall (fun s => tag_select soup s = []) before
         /\ tag_select soup selector <> []
         /\ first_matches soup selectors = tag_select soup selector).
Proof.
  induction selectors as [|selector rest IH]; simpl.
  - left. split; constructor.
  - destruct (tag_select soup selector) as [|e es] eqn:Es.
    + destruct IH as [[Hall Hnone]|(before & sel & after & Hl & Hb & Hne & Hm)].
      * left. split; [constructor; assumption|exact Hnone].
      * right. exists (selector :: before), sel, after. subst rest.
        split; [reflexivity|].
        split; [constructor; assumption|].
        split; assumption.
    + right. exists [], selector, rest. rewrite Es.
      split; [reflexivity|]. split; [constructor|]. split; [discriminate|reflexivity].
Qed.

Section Pages.
Context `{Platform}.

(** The records of a results page in enhanced_amazon_scraper come from
    the elements of one grid selector only: the first of the five, in list
    order, that selects anything, however much more a later one would
    select; a page on which none selects anything gives no record.  Among
    these elements, one with a "Sponsored" label gives no record, and the
    [data-asin] attribute, when not empty, is the identifier whatever the
    component properties say. *)
Theorem enhanced_extraction_reads_the_first_matching_selector :
  (forall html seller_id : string,
      (Forall (fun selector => tag_select (BeautifulSoup html) selector = [])
              Enhanced.grid_selectors
       /\ Enhanced.extract_products_from_search_page html seller_id = [])
      \/ (exists (before : list string) (selector : string) (after : list string),
             Enhanced.grid_selectors = (before ++ selector :: after)%list
             /\ Forall (fun s => tag_select (BeautifulSoup html) s = []) before
             /\ tag_select (BeautifulSoup html) selector <> []
             /\ Enhanced.extract_products_from_search_page html seller_id
                = Enhanced.products_of_elements (tag_select (BeautifulSoup html) selector)
                                                seller_id))
  /\
  (forall (product : Tag) (seller_id : string),
      Enhanced.is_sponsored product = true ->
      Enhanced.product_of_element product seller_id = None)
  /\
  (forall (product : Tag) (data_asin : string),
      assoc "data-asin" (tag_attrs product) = Some data_asin ->
      nonempty data_asin = true ->
      Enhanced.element_asin product = PStr data_asin).
Proof.
  split; [|split].
  - intros html seller_id. unfold Enhanced.extract_products_from_search_page. cbv zeta.
    destruct (first_matches_cases (BeautifulSoup html) Enhanced.grid_selectors)
      as [[Hall Hnone]|(before & sel & after & Hl & Hb & Hne & Hm)].
    + left. split; [exact Hall|]. rewrite Hnone. reflexivity.
    + right. exists before, sel, after. rewrite Hm. auto.
  - intros product seller_id Hs. unfold Enhanced.product_of_element. rewrite Hs. reflexivity.
  - intros product data_asin Ha Hn. unfold Enhanced.element_asin. cbv zeta.
    rewrite Ha, Hn. reflexivity.
Qed.

(** One page of a variant in amazon_scraper, case by case.  The page
    costs exactly one call of the fetcher and raises nothing.  A failed
    fetch ends the variant.  So does a page whose text holds one of the two
    "not found" phrases, and nothing is taken from it whatever elements it
    holds.  So does a page on which no product selector selects anything.
    Otherwise the elements of the first product selector that selects
    anything are processed, the page counts as crawled, and the variant goes
    on exactly when the page has an enabled "Next" control. *)
Theorem basic_page_by_cases (self : Basic.AmazonSellerScraper.Scraper) (base_url : string)
    (page : Z) (seller_id seller_name : string) (page_products : list Basic.Product)
    (total : Z) (w : World) :
  exists (more : bool) (page_products' : list Basic.Product) (total' : Z),
    Basic.AmazonSellerScraper.crawl_page self base_url page seller_id seller_name
                                         page_products total w
    = (Ret (more, page_products', total'),
       extend w [EvRequest (page_url base_url page)
                           (basic_fetched self w (page_url base_url page))])
    /\ match basic_fetched self w (page_url base_url page) with
       | None => more = false /\ page_products' = page_products /\ total' = total
       | Some r =>
           if Basic.AmazonSellerScraper.is_invalid_page (r_text r)
           then more = false /\ page_products' = page_products /\ total' = total
           else
             (Forall (fun selector => tag_select (BeautifulSoup (r_content r)) selector = [])
                     Basic.AmazonSellerScraper.product_selectors
              /\ more = false /\ page_products' = page_products /\ total' = total)
             \/ (exists (before : list string) (selector : string) (after : list string),
                    Basic.AmazonSellerScraper.product_selectors
                    = (before ++ selector :: after)%list
                    /\ Forall (fun s => tag_select (BeautifulSoup (r_content r)) s = []) before
                    /\ tag_select (BeautifulSoup (r_content r)) selector <> []
                    /\ more = Basic.AmazonSellerScraper.has_next_page
                                (BeautifulSoup (r_content r))
                    /\ page_products'
                       = Basic.AmazonSellerScraper.process_elements
                           self (tag_select (BeautifulSoup (r_content r)) selector)
                           seller_id seller_name page_products
                    /\ total' = total + 1)
       end.
Proof.
  unfold Basic.AmazonSellerScraper.crawl_page, try_except.
  fold (page_url base_url page).
  rewrite (bind_ret_step _ _ _ _ _ (basic_make_request_step self _ w)).
  destruct (basic_fetched self w (page_url base_url page)) as [r|].
  - destruct (Basic.AmazonSellerScraper.is_invalid_page (r_text r)).
    + exists false, page_products, total. split; [reflexivity|auto].
    + destruct (first_matches_cases (BeautifulSoup (r_content r))
                                    Basic.AmazonSellerScraper.product_selectors)
        as [[Hall Hnone]|(before & sel & after & Hl & Hb & Hne & Hm)].
      * rewrite Hnone. exists false, page_products, total. split; [reflexivity|]. left. auto.
      * rewrite Hm.
        destruct (tag_select (BeautifulSoup (r_content r)) sel) as [|e es] eqn:Es;
          [contradiction|].
        eexists. eexists. eexists. split; [reflexivity|].
        right. exists before, sel, after. rewrite Es. repeat (split; [assumption|]).
        split; [reflexivity|]. split; reflexivity.
  - exists false, page_products, total. split; [reflexivity|auto].
Qed.

(** The name of a cache file is no safe key.  The seller identifier and
    the marketplace are joined by an underscore, so two different pairs can
    name the same file; and a seller identifier that starts with a slash
    makes the path absolute, so that the cache directory no longer confines
    the file that is read and written. *)
Theorem cache_file_names_collide_and_escape :
  (forall a b c : string,
      Enhanced.get_cache_path (a ++ "_" ++ b) c = Enhanced.get_cache_path a (b ++ "_" ++ c))
  /\
  (forall (self : Basic.AmazonSellerScraper.Scraper) (a b : string),
      Basic.AmazonSellerScraper._get_cache_path
        (Basic.AmazonSellerScraper.mkScraper (b ++ "_" ++ Basic.AmazonSellerScraper.marketplace self)
                                             (Basic.AmazonSellerScraper.base_url self)
                                             (Basic.AmazonSellerScraper.max_retries self))
        a
      = Basic.AmazonSellerScraper._get_cache_path self (a ++ "_" ++ b))
  /\
  (forall seller_id marketplace : string,
      prefix "/" seller_id = true ->
      Enhanced.get_cache_path seller_id marketplace = seller_id ++ "_" ++ marketplace ++ ".json")
  /\
  (forall (self : Basic.AmazonSellerScraper.Scraper) (seller_id : string),
      prefix "/" seller_id = true ->
      Basic.AmazonSellerScraper._get_cache_path self seller_id
      = seller_id ++ "_" ++ Basic.AmazonSellerScraper.marketplace self ++ ".json").
Proof.
  assert (Habs : forall (dir seller_id rest : string),
             prefix "/" seller_id = true ->
             path_join dir (seller_id ++ rest) = seller_id ++ rest).
  { intros dir seller_id rest Hp. unfold path_join.
    assert (Hprefix : prefix "/" (seller_id ++ rest) = true).
    { destruct seller_id as [|c s]; [discriminate|].
      cbn [append prefix] in *. destruct (ascii_dec "/" c); [|discriminate].
      destruct (s ++ rest); reflexivity. }
    rewrite Hprefix. reflexivity. }
  split; [|split; [|split]].
  - intros a b c. unfold Enhanced.get_cache_path. f_equal.
    rewrite !string_app_assoc. reflexivity.
  - intros self a b. unfold Basic.AmazonSellerScraper._get_cache_path.
    cbn [Basic.AmazonSellerScraper.marketplace]. f_equal.
    rewrite !string_app_assoc. reflexivity.
  - intros seller_id marketplace Hp. apply Habs. exact Hp.
  - intros self seller_id Hp. apply Habs. exact Hp.
Qed.

(** The command line of enhanced_amazon_scraper.  Without a seller
    identifier it prints the usage line and does nothing else.  With one it
    never fails: it runs the scan once and prints, as JSON, the product list
    of that scan, the empty list when the scan raised.  A missing
    marketplace means "co.uk", a missing third argument means no forced
    refresh, and with a third argument the refresh is forced exactly when
    that argument spells "true", upper or lower case; further arguments are
    ignored. *)
Theorem command_line_prints_usage_or_products :
  (forall (argv : list string) (w : World),
      (List.length argv < 2)%nat ->
      Enhanced.main argv w
      = (Ret "Usage: python enhanced_amazon_scraper.py <seller_id> [marketplace] [force_refresh]",
         w))
  /\
  (forall (prog seller_id : string) (w : World),
      Enhanced.main [prog; seller_id] w
      = (Ret (json_dumps
                match fst (Enhanced.scan_seller_inventory seller_id "co.uk" false w) with
                | Ret (products, _) => products
                | Raise _ => PList []
                end),
         snd (Enhanced.scan_seller_inventory seller_id "co.uk" false w)))
  /\
  (forall (prog seller_id marketplace : string) (w : World),
      Enhanced.main [prog; seller_id; marketplace] w
      = (Ret (json_dumps
                match fst (Enhanced.scan_seller_inventory seller_id marketplace false w) with
                | Ret (products, _) => products
                | Raise _ => PList []
                end),
         snd (Enhanced.scan_seller_inventory seller_id marketplace false w)))
  /\
  (forall (prog seller_id marketplace flag : string) (more : list string) (w : World),
      Enhanced.main (prog :: seller_id :: marketplace :: flag :: more) w
      = (Ret (json_dumps
                match fst (Enhanced.scan_seller_inventory seller_id marketplace
                                                          (String.eqb (lower flag) "true") w) with
                | Ret (products, _) => products
                | Raise _ => PList []
                end),
         snd (Enhanced.scan_seller_inventory seller_id marketplace
                                             (String.eqb (lower flag) "true") w))).
Proof.
  assert (Hcall : forall (seller_id marketplace : string) (force_refresh : bool) (w : World),
             Enhanced.get_seller_products seller_id marketplace force_refresh w
             = (Ret match fst (Enhanced.scan_seller_inventory seller_id marketplace
                                                               force_refresh w) with
                    | Ret (products, _) => products
                    | Raise _ => PList []
                    end,
                snd (Enhanced.scan_seller_inventory seller_id marketplace force_refresh w))).
  { intros seller_id marketplace force_refresh w.
    unfold Enhanced.get_seller_products, try_except. unfold bind at 1.
    destruct (Enhanced.scan_seller_inventory seller_id marketplace force_refresh w)
      as [[[products seller_name]|e] w1] eqn:Hscan; [|reflexivity].
    destruct (enhanced_scan_result_sized _ _ _ _ _ _ _ Hscan) as [n Hn].
    cbn [fst snd]. rewrite (bind_ret_step _ _ _ _ _ (Hn w1)). reflexivity. }
  split; [|split; [|split]].
  - intros argv w Hlen. destruct argv as [|prog [|seller_id rest]]; simpl in Hlen;
      [reflexivity|reflexivity|lia].
  - intros prog seller_id w.
    cbn [Enhanced.main]. cbv zeta.
    rewrite (bind_ret_step _ _ _ _ _ (Hcall _ _ _ w)). reflexivity.
  - intros prog seller_id marketplace w.
    cbn [Enhanced.main]. cbv zeta.
    rewrite (bind_ret_step _ _ _ _ _ (Hcall _ _ _ w)). reflexivity.
  - intros prog seller_id marketplace flag more w.
    cbn [Enhanced.main]. cbv zeta.
    rewrite (bind_ret_step _ _ _ _ _ (Hcall _ _ _ w)). reflexivity.
Qed.

End Pages.

(** ** The pages of one variant *)

Lemma str_of_int_inj (a b : Z) : str_of_int a = str_of_int b -> a = b.
Proof.
  unfold str_of_int. intros E.
  apply (f_equal NilEmpty.int_of_string) in E. rewrite !NilEmpty.isi in E.
  inversion E as [E']. apply (f_equal Z.of_int) in E'.
  rewrite !DecimalZ.of_to in E'. exact E'.
Qed.

Lemma string_app_inv_head (a b c : string) : a ++ b = a ++ c -> b = c.
Proof. induction a as [|x a IH]; simpl; intros E; [exact E|]. inversion E. auto. Qed.

Lemma string_length_app (a b : string) :
  String.length (a ++ b) = (String.length a + String.length b)%nat.
Proof. induction a as [|x a IH]; simpl; [reflexivity|]. rewrite IH. reflexivity. Qed.

(** Two pages of a variant never share a URL. *)
Lemma page_url_inj (base_url : string) (p q : Z) :
  1 <= p -> 1 <= q -> page_url base_url p = page_url base_url q -> p = q.
Proof.
  unfold page_url. intros Hp Hq.
  destruct (p >? 1) eqn:Ep; destruct (q >? 1) eqn:Eq; intros E.
  - apply string_app_inv_head in E. apply (string_app_inv_head "&page=") in E.
    apply str_of_int_inj. exact E.
  - apply (f_equal String.length) in E. rewrite string_length_app in E. simpl in E. lia.
  - apply (f_equal String.length) in E. rewrite string_length_app in E. simpl in E. lia.
  - rewrite Z.gtb_ltb in Ep, Eq. apply Z.ltb_ge in Ep, Eq. lia.
Qed.

Lemma page_urls_in (base_url : string) (n : nat) :
  forall (page : Z) (url : string),
    In url (page_urls base_url page n) ->
    exists q, page <= q < page + Z.of_nat n /\ url = page_url base_url q.
Proof.
  induction n as [|n IH]; intros page url; simpl; [contradiction|].
  intros [E|Hin].
  - exists page. split; [lia|auto].
  - destruct (IH _ _ Hin) as (q & Hq & Hu). exists q. split; [lia|exact Hu].
Qed.

Lemma page_urls_nodup (base_url : string) (n : nat) :
  forall page : Z, 1 <= page -> NoDup (page_urls base_url page n).
Proof.
  induction n as [|n IH]; intros page Hpage; simpl; constructor.
  - intros Hin. destruct (page_urls_in _ _ _ _ Hin) as (q & Hq & Hu).
    apply page_url_inj in Hu; lia.
  - apply IH. lia.
Qed.

Section Variant.
Context `{Platform}.

(** Walking one variant in amazon_scraper never raises.  It requests
    page 1 under the address of the variant and page n under that address
    with [&page=n] appended, one page after the other without a gap, at
    least one and at most a hundred of them, and never the same address
    twice; it makes no other network call and writes no file. *)
Theorem basic_variant_walks_consecutive_pages (self : Basic.AmazonSellerScraper.Scraper)
    (base_url seller_id seller_name : string) (page_products : list Basic.Product)
    (total : Z) (w : World) :
  exists (evs : list Event) (result : list Basic.Product * Z) (k : nat),
    Basic.AmazonSellerScraper.crawl_pages 100 self base_url 1 seller_id seller_name
                                          page_products total w
    = (Ret result, extend w evs)
    /\ only_requests evs
    /\ map event_url evs = page_urls base_url 1 k
    /\ (1 <= k <= 100)%nat
    /\ NoDup (map event_url evs)
    /\ nth_error (map event_url evs) 0 = Some base_url.
Proof.
  destruct (crawl_pages_trace 100 self base_url 1 seller_id seller_name page_products total w)
    as (evs & total' & k & Hrun & Hreq & Hurls & Hk & _ & Hone).
  assert (Hpages : 100%nat <> 0%nat) by discriminate.
  specialize (Hone Hpages).
  exists evs. eexists. exists k.
  split; [exact Hrun|].
  split; [exact Hreq|].
  split; [exact Hurls|].
  split; [split; [exact Hone|exact Hk]|].
  split.
  - rewrite Hurls. apply page_urls_nodup. lia.
  - rewrite Hurls. destruct k; [inversion Hone|reflexivity].
Qed.

End Variant.

(** ** The theorems above, on sample data *)

Lemma basic_scan_stores_witness :
  basic_scan_runs Sample.scraper "S1" true Sample.basic_duplicate_world
  /\ exists (products : list Basic.Product) (w' : World),
       Basic.AmazonSellerScraper.get_seller_products Sample.scraper "S1" true
                                                     Sample.basic_duplicate_world
       = (Ret (PList (map Basic.product_dict products)), w')
       /\ (products = [] -> w_files w' = w_files Sample.basic_duplicate_world)
       /\ (products <> [] ->
           exists (stored : list (string * pyval)) (reading : nat),
             w_files w' (Basic.AmazonSellerScraper._get_cache_path Sample.scraper "S1")
             = Some (json_dumps_indent (PDict stored))
             /\ assoc "product_count" stored = Some (PInt (Z.of_nat (List.length products)))
             /\ assoc "last_updated" stored
                = Some (PInt (w_clock Sample.basic_duplicate_world reading))
             /\ assoc "timestamp" stored
                = Some (PInt (w_clock Sample.basic_duplicate_world (S reading)))).
Proof.
  assert (Hruns : basic_scan_runs Sample.scraper "S1" true Sample.basic_duplicate_world)
    by (left; reflexivity).
  split; [exact Hruns|].
  destruct (basic_scan_stores_exactly_when_it_found_products
              Sample.scraper "S1" true Sample.basic_duplicate_world Hruns)
    as (products & w' & Hrun & Hempty & Hfull).
  exists products, w'.
  split; [exact Hrun|]. split; [exact Hempty|].
  intros Hne.
  destruct (Hfull Hne) as (stored & reading & Hfile & _ & _ & Hcount & Hlast & Hstamp & _).
  exists stored, reading.
  split; [exact Hfile|]. split; [exact Hcount|]. split; [exact Hlast|exact Hstamp].
Defined.

Lemma enhanced_failed_scan_is_served_witness :
  fst (Enhanced.get_seller_products (H := RoundTrip.platform) "S1" "co.uk" true RoundTrip.world)
  = Ret (PList [])
  /\ fst (Enhanced.get_seller_products (H := RoundTrip.platform) "S1" "co.uk" false
            (snd (Enhanced.get_seller_products (H := RoundTrip.platform) "S1" "co.uk" true
                                               RoundTrip.world)))
     = Ret (PList [])
  /\ List.length
       (w_log (snd (Enhanced.get_seller_products (H := RoundTrip.platform) "S1" "co.uk" false
                      (snd (Enhanced.get_seller_products (H := RoundTrip.platform) "S1" "co.uk"
                                                         true RoundTrip.world)))))
     = 16%nat.
Proof.
  assert (Hoff : offline RoundTrip.world).
  { split; intros; simpl; [exact I|reflexivity]. }
  destruct (enhanced_failed_scan_is_served_from_the_cache_afterwards
              (H := RoundTrip.platform) "S1" "co.uk" RoundTrip.world Hoff eq_refl eq_refl eq_refl)
    as (w1 & Hrun & Hnext).
  assert (Hw1 : w1 = snd (Enhanced.get_seller_products (H := RoundTrip.platform) "S1" "co.uk"
                                                       true RoundTrip.world)).
  { rewrite Hrun. reflexivity. }
  rewrite Hrun. cbn [fst snd].
  split; [reflexivity|].
  assert (Hage : w_clock w1 (w_ticks w1) - w_clock RoundTrip.world (w_ticks RoundTrip.world)
                 <= 12 * 3600).
  { rewrite Hw1. vm_compute. discriminate. }
  destruct (Hnext w1 eq_refl Hage) as [Hret Hlog].
  split; [exact Hret|].
  rewrite Hlog, Hw1. vm_compute. reflexivity.
Defined.

Lemma basic_scan_records_witness :
  exists (products : list Basic.Product) (seller_name : string),
    fst (Basic.AmazonSellerScraper.get_seller_products Sample.scraper "S1" true
                                                       Sample.basic_duplicate_world)
    = Ret (PList (map Basic.product_dict products))
    /\ nonempty seller_name = true
    /\ Forall (basic_record_ok Sample.scraper "S1" seller_name) products.
Proof.
  apply (basic_scan_records_are_well_formed Sample.scraper "S1" true
                                            Sample.basic_duplicate_world).
  left. reflexivity.
Defined.

Lemma enhanced_scan_records_witness :
  exists (records : list Enhanced.Product) (name : string),
    fst (Enhanced.scan_seller_inventory "S1" "co.uk" true Sample.duplicate_world)
    = Ret (PList (map Enhanced.product_dict records), PStr name)
    /\ nonempty name = true
    /\ Forall (enhanced_record_ok "S1") records.
Proof.
  destruct (Enhanced.scan_seller_inventory "S1" "co.uk" true Sample.duplicate_world)
    as [[[products seller_name]|e] w'] eqn:Hscan.
  - destruct (enhanced_scan_records_are_well_formed
                "S1" "co.uk" true Sample.duplicate_world w' products seller_name
                (or_introl eq_refl) Hscan)
      as (records & name & Hproducts & Hname & Hnonempty & Hok & _).
    exists records, name. subst products seller_name. cbn [fst]. auto.
  - apply (f_equal fst) in Hscan. vm_compute in Hscan. discriminate.
Defined.

(** A page that brings an unhashable identifier: the forced scan fails,
    nothing is written, the entry point answers the empty list. *)
Lemma enhanced_scan_fails_witness :
  fst (Enhanced.scan_seller_inventory "S1" "co.uk" true Sample.unhashable_world)
  = Raise TypeError
  /\ fst (Enhanced.get_seller_products "S1" "co.uk" true Sample.unhashable_world)
     = Ret (PList [])
  /\ w_files (snd (Enhanced.get_seller_products "S1" "co.uk" true Sample.unhashable_world))
     = w_files Sample.unhashable_world.
Proof.
  destruct (Enhanced.scan_seller_inventory "S1" "co.uk" true Sample.unhashable_world)
    as [[result|e] w'] eqn:Hscan.
  - apply (f_equal fst) in Hscan. vm_compute in Hscan. discriminate.
  - destruct (proj2 enhanced_scan_fails_only_on_an_unhashable_identifier
                    "S1" "co.uk" Sample.unhashable_world w' e Hscan)
      as (He & Hfiles & Hcall).
    rewrite Hcall. subst e. cbn [fst snd]. auto.
Defined.
